(** * uc3m_money: IBAN validation, transfer requests, deposits and balances

    A shallow embedding of
    - [src/main/python/uc3m_money/transfer_request.py]   (module [TransferRequest]),
    - [src/main/python/uc3m_money/account_manager.py]    (module [AccountManager]),
    - [G8X.2025.T00.GE4-main/src/main/python/uc3m_money/account_manager.py]
                                                         (module [GE4]),
    preceded by the fragment of Python they run on (module [Py]): exceptions,
    [str] slicing and [str.replace], [int()], [float()] and [repr] on IEEE
    binary64, [re.fullmatch], the decimal digits of Unicode,
    [datetime.strptime], JSON values with [json.dumps], [hashlib.md5],
    and a file system of JSON documents. *)

From stdpp Require Import base gmap strings.
From Stdlib Require Import ZArith List Ascii String Bool Lia Btauto SpecFloat.
Import ListNotations.

Local Open Scope Z_scope.

(** ** Python values and primitives *)

Module Py.

(** Exceptions the modelled code raises or lets through. The domain error
    carries its message, as [AccountManagementException(message)] does. *)
Inductive exn : Type :=
| AccountManagementException (message : string)
| AttributeError
| KeyError
| TypeError
| ValueError
| OverflowError.

(** A call either returns a value or raises. *)
Inductive result (A : Type) : Type :=
| Return (a : A)
| Raise (e : exn).
Arguments Return {A} a.
Arguments Raise {A} e.

Definition bind {A B : Type} (r : result A) (k : A -> result B) : result B :=
  match r with
  | Return a => k a
  | Raise e => Raise e
  end.

Notation "x <- r ;; k" := (bind r (fun x => k))
  (at level 100, r at next level, right associativity).
Notation "r ;;; k" := (bind r (fun _ => k))
  (at level 100, right associativity).

Definition raised {A : Type} (r : result A) : bool :=
  match r with Return _ => false | Raise _ => true end.

(** *** Strings

    A [str] that is sliced, stored or hashed is modelled by [string]: a
    sequence of code points below 256. The date check tells digits above
    that bound from other characters, and reads its argument as a
    sequence of code points, [text] below. *)

Definition chr (n : N) : ascii := ascii_of_N n.
Definition ord (c : ascii) : N := N_of_ascii c.

(** [s[:n]] and [s[n:]] for a literal [n >= 0]; both clamp at the end. *)
Fixpoint take (n : nat) (s : string) : string :=
  match n, s with
  | S n', String c s' => String c (take n' s')
  | _, _ => EmptyString
  end.

Fixpoint drop (n : nat) (s : string) : string :=
  match n, s with
  | S n', String _ s' => drop n' s'
  | _, _ => s
  end.

(** [s[i:j]] for literals [0 <= i <= j]. *)
Definition slice (i j : nat) (s : string) : string := take (j - i) (drop i s).

(** [s.replace(old, new)] for a one-character [old]: every occurrence, left
    to right. *)
Fixpoint replace (old : ascii) (new : string) (s : string) : string :=
  match s with
  | EmptyString => EmptyString
  | String c s' =>
      if Ascii.eqb c old then new +:+ replace old new s'
      else String c (replace old new s')
  end.

Definition in_range (lo hi : string) (c : ascii) : bool :=
  match lo, hi with
  | String l _, String h _ => (ord l <=? ord c)%N && (ord c <=? ord h)%N
  | _, _ => false
  end.

Definition is_digit (c : ascii) : bool := in_range "0" "9" c.

Definition digit_value (c : ascii) : Z := Z.of_N (ord c) - 48.

(** [str.isspace] on code points below 256: the set [\s] matches. *)
Definition is_space (c : ascii) : bool :=
  let n := ord c in
  ((9 <=? n) && (n <=? 13) || (28 <=? n) && (n <=? 32)
   || (n =? 133) || (n =? 160))%N.

(** What [int()] and [float()] skip at both ends of a string: the six
    white-space characters of ASCII, and the two spaces above 127, which
    the conversion first turns into blanks. The separators U+001C..U+001F
    are spaces for [str.isspace] but are not skipped. *)
Definition is_blank (c : ascii) : bool :=
  let n := ord c in
  ((9 <=? n) && (n <=? 13) || (n =? 32) || (n =? 133) || (n =? 160))%N.

Fixpoint lstrip (s : string) : string :=
  match s with
  | String c s' => if is_blank c then lstrip s' else s
  | EmptyString => EmptyString
  end.

Fixpoint rev_string (acc s : string) : string :=
  match s with
  | EmptyString => acc
  | String c s' => rev_string (String c acc) s'
  end.

Definition rstrip (s : string) : string :=
  rev_string "" (lstrip (rev_string "" s)).

Definition strip (s : string) : string := rstrip (lstrip s).

(** *** Numerals

    [digitpart acc n s] reads a run of decimal digits in which single
    underscores may separate digits, as [int()] and [float()] allow;
    it returns the accumulated value, the number of digits read and the
    rest. [n] counts the digits read so far, so an underscore is only
    passed between two digits. *)
Fixpoint digitpart (acc : Z) (n : nat) (s : string) : Z * nat * string :=
  match s with
  | String c s' =>
      if is_digit c then digitpart (10 * acc + digit_value c) (S n) s'
      else if Ascii.eqb c "_" && negb (Nat.eqb n 0) then
        match s' with
        | String d s'' =>
            if is_digit d then digitpart (10 * acc + digit_value d) (S n) s''
            else (acc, n, s)
        | EmptyString => (acc, n, s)
        end
      else (acc, n, s)
  | EmptyString => (acc, n, s)
  end.

(** An optional sign. *)
Definition signed (s : string) : bool * string :=
  match s with
  | String "-" r => (true, r)
  | String "+" r => (false, r)
  | _ => (false, s)
  end.

(** [int(s)] in base ten: surrounding white space, an optional sign, a
    digit part; anything else is a [ValueError]. *)
Definition int (s : string) : result Z :=
  let '(neg, ds) := signed (strip s) in
  match digitpart 0 0 ds with
  | (n, S _, EmptyString) => Return (if neg then - n else n)
  | _ => Raise ValueError
  end.

(** *** [float]: IEEE 754 binary64

    A [float] is a [spec_float] at precision 53 and maximal exponent 1024;
    the values the functions below build are the canonical ones
    ([valid_binary]). *)
Definition prec : Z := 53.
Definition emax : Z := 1024.
Definition float : Type := spec_float.

Definition nan : float := S754_nan.
Definition inf (neg : bool) : float := S754_infinity neg.

(** Conversion of an [int] that rounds to a finite value; the conversion of
    the constants of the sources is exact. *)
Definition float_of_int (z : Z) : float := binary_normalize prec emax z 0 false.

(** The binary64 nearest to [(-1)^neg * m * 10^e] (ties to even), as the
    conversion of a decimal literal or string computes it. A negative
    exponent is a division of two integers, rounded once. *)
Definition float_of_decimal (neg : bool) (m e : Z) : float :=
  match m with
  | Zpos _ =>
      if 0 <=? e then binary_normalize prec emax (if neg then - (m * 10 ^ e) else m * 10 ^ e) 0 false
      else
        let '(q, e', l) := SFdiv_core_binary prec emax m 0 (10 ^ (- e)) 0 in
        binary_round_aux prec emax neg q e' l
  | _ => S754_zero neg
  end.

Definition lower_char (c : ascii) : ascii :=
  if in_range "A" "Z" c then chr (ord c + 32) else c.

Fixpoint lower (s : string) : string :=
  match s with
  | EmptyString => EmptyString
  | String c s' => String (lower_char c) (lower s')
  end.

(** [float(s)] for a string: surrounding white space, an optional sign, then
    [inf], [infinity] or [nan] in any case, or digits with an optional point
    and an optional exponent. *)
Definition float_of_str (s : string) : result float :=
  let '(neg, body) := signed (strip s) in
  let word := lower body in
  if String.eqb word "inf" || String.eqb word "infinity" then Return (inf neg)
  else if String.eqb word "nan" then Return nan
  else
    let '(ip, ni, r1) := digitpart 0 0 body in
    let '(m, nf, r2) :=
      match r1 with
      | String "." r => digitpart ip 0 r
      | _ => (ip, O, r1)
      end in
    if Nat.eqb (ni + nf) 0 then Raise ValueError
    else
      match r2 with
      | EmptyString => Return (float_of_decimal neg m (- Z.of_nat nf))
      | String c r3 =>
          if Ascii.eqb (lower_char c) "e" then
            let '(eneg, r4) := signed r3 in
            match digitpart 0 0 r4 with
            | (ex, S _, EmptyString) =>
                Return (float_of_decimal neg m
                          ((if eneg then - ex else ex) - Z.of_nat nf))
            | _ => Raise ValueError
            end
          else Raise ValueError
      end.

(** Comparisons and addition; every comparison with [nan] is false. *)
Definition float_lt (x y : float) : bool := SFltb x y.
Definition float_gt (x y : float) : bool := SFltb y x.
Definition float_eq (x y : float) : bool := SFeqb x y.
Definition float_add (x y : float) : float := SFadd prec emax x y.

(** *** [repr] of a float

    The shortest digit string that reads back as the same float, the
    nearest to it among the shortest (ties to the even digit), found by
    exact integer arithmetic on [v = r / s] with half-gaps [mp / s] above
    and [mm / s] below. *)

Record digit_state : Type := { dr : Z; ds : Z; dmp : Z; dmm : Z }.

Definition initial_state (m : positive) (e : Z) : digit_state :=
  let f := Zpos m in
  let boundary := (f =? 2 ^ (prec - 1)) && negb (e =? emin prec emax) in
  if 0 <=? e then
    if boundary then {| dr := f * 2 ^ (e + 1) * 2; ds := 4; dmp := 2 ^ (e + 1); dmm := 2 ^ e |}
    else {| dr := f * 2 ^ e * 2; ds := 2; dmp := 2 ^ e; dmm := 2 ^ e |}
  else
    if boundary then {| dr := f * 4; ds := 2 ^ (- e + 1) * 2; dmp := 2; dmm := 1 |}
    else {| dr := f * 2; ds := 2 ^ (- e) * 2; dmp := 1; dmm := 1 |}.

(** Multiply [v] by [10^(-k)]. *)
Definition scale10 (k : Z) (st : digit_state) : digit_state :=
  if 0 <=? k then
    {| dr := dr st; ds := ds st * 10 ^ k; dmp := dmp st; dmm := dmm st |}
  else
    let p := 10 ^ (- k) in
    {| dr := dr st * p; ds := ds st; dmp := dmp st * p; dmm := dmm st * p |}.

(** Is the upper end of the rounding interval below [10^k]? An even mantissa
    owns its end points. *)
Definition below_power (even : bool) (k : Z) (st : digit_state) : bool :=
  let st' := scale10 k st in
  if even then dr st' + dmp st' <? ds st' else dr st' + dmp st' <=? ds st'.

(** The least [k] with [below_power k], searched from an estimate. *)
Fixpoint search_down (fuel : nat) (even : bool) (st : digit_state) (k : Z) : Z :=
  match fuel with
  | O => k
  | S fuel' =>
      if below_power even (k - 1) st then search_down fuel' even st (k - 1)
      else k
  end.

Fixpoint search_up (fuel : nat) (even : bool) (st : digit_state) (k : Z) : Z :=
  match fuel with
  | O => k
  | S fuel' =>
      if below_power even k st then search_down fuel' even st k
      else search_up fuel' even st (k + 1)
  end.

Definition decimal_point (even : bool) (m : positive) (e : Z) (st : digit_state) : Z :=
  let estimate := ((Zpos (digits2_pos m) + e) * 30103) / 100000 in
  search_up 700 even st estimate.

Fixpoint generate (fuel : nat) (even : bool) (r s mp mm : Z) : list Z :=
  match fuel with
  | O => []
  | S fuel' =>
      let d := (r * 10) / s in
      let r := (r * 10) mod s in
      let mp := mp * 10 in
      let mm := mm * 10 in
      let tc1 := if even then r <=? mm else r <? mm in
      let tc2 := if even then s <=? r + mp else s <? r + mp in
      match tc1, tc2 with
      | false, false => d :: generate fuel' even r s mp mm
      | true, false => [d]
      | false, true => [d + 1]
      | true, true =>
          match r * 2 ?= s with
          | Lt => [d]
          | Gt => [d + 1]
          | Eq => [if Z.even d then d else d + 1]
          end
      end
  end.

(** The digits of a positive finite float and the position of its decimal
    point: the value is [0.d1 d2 ... * 10^decpt]. *)
Definition shortest_digits (m : positive) (e : Z) : list Z * Z :=
  let even := Z.even (Zpos m) in
  let st := initial_state m e in
  let k := decimal_point even m e st in
  let st' := scale10 k st in
  (generate 40 even (dr st') (ds st') (dmp st') (dmm st'), k).

Definition digit_char (d : Z) : ascii := chr (Z.to_N (d + 48)).

Fixpoint digits_string (l : list Z) : string :=
  match l with
  | [] => EmptyString
  | d :: l' => String (digit_char d) (digits_string l')
  end.

Fixpoint zeros (n : nat) : string :=
  match n with
  | O => EmptyString
  | S n' => String "0" (zeros n')
  end.

(** Decimal digits of a non-negative integer, most significant first. *)
Fixpoint nat_digits (fuel : nat) (z : Z) (acc : string) : string :=
  match fuel with
  | O => acc
  | S fuel' =>
      let acc' := String (digit_char (z mod 10)) acc in
      if z <? 10 then acc' else nat_digits fuel' (z / 10) acc'
  end.

Definition str_of_Z (z : Z) : string :=
  if z <? 0 then String "-" (nat_digits (S (Z.to_nat (Z.log2 (- z)))) (- z) "")
  else nat_digits (S (Z.to_nat (Z.log2 z))) z "".

(** The layout [repr] gives the digits: exponent notation when
    [decpt <= -4] or [decpt > 16], else positional with [.0] added to an
    integer. *)
Definition layout (digits : string) (decpt : Z) : string :=
  let n := Z.of_nat (String.length digits) in
  if (decpt <=? -4) || (16 <? decpt) then
    let x := decpt - 1 in
    let mant :=
      match digits with
      | String d EmptyString => digits
      | String d rest => String d (String "." rest)
      | EmptyString => digits
      end in
    let xs := str_of_Z (Z.abs x) in
    mant +:+ "e" +:+ (if x <? 0 then "-" else "+")
         +:+ (if Z.abs x <? 10 then "0" +:+ xs else xs)
  else if decpt <=? 0 then "0." +:+ zeros (Z.to_nat (- decpt)) +:+ digits
  else if n <=? decpt then digits +:+ zeros (Z.to_nat (decpt - n)) +:+ ".0"
  else take (Z.to_nat decpt) digits +:+ "." +:+ drop (Z.to_nat decpt) digits.

(** [repr(x)], which is also [str(x)] and what [json.dumps] writes for a
    finite float. *)
Definition repr (x : float) : string :=
  match x with
  | S754_nan => "nan"
  | S754_infinity s => if s then "-inf" else "inf"
  | S754_zero s => if s then "-0.0" else "0.0"
  | S754_finite s m e =>
      let '(digits, decpt) := shortest_digits m e in
      (if s then "-" else "") +:+ layout (digits_string digits) decpt
  end.

(** *** Regular expressions

    The patterns of the sources use literals, classes, concatenation,
    alternation, bounded and unbounded repetition and one leading
    look-ahead. [re.fullmatch] succeeds when some way of matching consumes
    the whole string, so it decides membership in the pattern's language;
    the matcher below does that by derivatives. *)
Inductive regex_of (A : Type) : Type :=
| Never
| Empty
| Class (p : A -> bool)
| Seq (r1 r2 : regex_of A)
| Or (r1 r2 : regex_of A)
| Star (r : regex_of A)
| Both (r1 r2 : regex_of A).
Arguments Never {A}.
Arguments Empty {A}.
Arguments Class {A} p.
Arguments Seq {A} r1 r2.
Arguments Or {A} r1 r2.
Arguments Star {A} r.
Arguments Both {A} r1 r2.

(** A pattern read against a [string]. *)
Definition regex : Type := regex_of ascii.

Fixpoint nullable {A : Type} (r : regex_of A) : bool :=
  match r with
  | Never => false
  | Empty => true
  | Class _ => false
  | Seq r1 r2 => nullable r1 && nullable r2
  | Or r1 r2 => nullable r1 || nullable r2
  | Star _ => true
  | Both r1 r2 => nullable r1 && nullable r2
  end.

Fixpoint deriv {A : Type} (c : A) (r : regex_of A) : regex_of A :=
  match r with
  | Never => Never
  | Empty => Never
  | Class p => if p c then Empty else Never
  | Seq r1 r2 =>
      if nullable r1 then Or (Seq (deriv c r1) r2) (deriv c r2)
      else Seq (deriv c r1) r2
  | Or r1 r2 => Or (deriv c r1) (deriv c r2)
  | Star r1 => Seq (deriv c r1) (Star r1)
  | Both r1 r2 => Both (deriv c r1) (deriv c r2)
  end.

Fixpoint fullmatch (r : regex) (s : string) : bool :=
  match s with
  | EmptyString => nullable r
  | String c s' => fullmatch (deriv c r) s'
  end.

(** Pattern syntax. *)
Definition lit_char (c : ascii) : regex := Class (Ascii.eqb c).

Fixpoint lit (s : string) : regex :=
  match s with
  | EmptyString => Empty
  | String c s' => Seq (lit_char c) (lit s')
  end.

(** [r{n}] *)
Fixpoint rep {A : Type} (n : nat) (r : regex_of A) : regex_of A :=
  match n with
  | O => Empty
  | S n' => Seq r (rep n' r)
  end.

(** [r{0,n}] *)
Fixpoint upto {A : Type} (n : nat) (r : regex_of A) : regex_of A :=
  match n with
  | O => Empty
  | S n' => Or Empty (Seq r (upto n' r))
  end.

(** [r{m,n}] for [m <= n] *)
Definition rep_range {A : Type} (m n : nat) (r : regex_of A) : regex_of A :=
  Seq (rep m r) (upto (n - m) r).

(** [r+] *)
Definition plus {A : Type} (r : regex_of A) : regex_of A := Seq r (Star r).

(** [[0-9]] *)
Definition digit : regex := Class is_digit.
(** [[a-zA-Z]] *)
Definition letter : regex :=
  Class (fun c => in_range "a" "z" c || in_range "A" "Z" c).
(** [\s] *)
Definition space : regex := Class is_space.
(** [.] : anything but a line feed *)
Definition dot : regex := Class (fun c => negb (Ascii.eqb c (chr 10))).

(** *** Text and the decimal digits of Unicode

    A [str] as the sequence of its code points, of any size. *)
Definition text : Type := list N.

Fixpoint code_points (s : string) : text :=
  match s with
  | EmptyString => []
  | String c s' => ord c :: code_points s'
  end.

(** The decimal digits (category Nd) come in runs of ten, from the digit
    zero to the digit nine of one script: the code point of each zero, as
    in the character database of CPython 3.11 (Unicode 14). *)
Definition decimal_zeros : list N :=
  [
    48; 1632; 1776; 1984; 2406; 2534; 2662; 2790; 2918; 3046; 3174; 3302;
    3430; 3558; 3664; 3792; 3872; 4160; 4240; 6112; 6160; 6470; 6608; 6784;
    6800; 6992; 7088; 7232; 7248; 42528; 43216; 43264; 43472; 43504; 43600;
    44016; 65296; 66720; 68912; 69734; 69872; 69942; 70096; 70384; 70736;
    70864; 71248; 71360; 71472; 71904; 72016; 72784; 73040; 73120; 92768;
    92864; 93008; 120782; 120792; 120802; 120812; 120822; 123200; 123632;
    125264; 130032 ]%N.

(** The value of a decimal digit ([Py_UNICODE_TODECIMAL], what [int()]
    reads and [\d] asks for), if the character is one. *)
Definition to_decimal (c : N) : option Z :=
  match find (fun z => (z <=? c) && (c <? z + 10))%N decimal_zeros with
  | Some z => Some (Z.of_N (c - z))
  | None => None
  end.

Definition is_decimal (c : N) : bool :=
  match to_decimal c with
  | Some _ => true
  | None => false
  end.

(** [re.fullmatch] on a pattern over code points. *)
Fixpoint fullmatch_text (r : regex_of N) (s : text) : bool :=
  match s with
  | [] => nullable r
  | c :: s' => fullmatch_text (deriv c r) s'
  end.

(** The character [c], a range [[lo-hi]], and [\d]: any decimal digit. *)
Definition one (c : ascii) : regex_of N := Class (N.eqb (ord c)).
Definition between (lo hi : ascii) : regex_of N :=
  Class (fun c => (ord lo <=? c) && (c <=? ord hi))%N.
Definition decimal_digit : regex_of N := Class is_decimal.

(** [int(group)] for a group of a matched date: decimal digits of any
    script, after a blank at most. *)
Definition int_of_group (group : text) : Z :=
  fold_left (fun acc c => match to_decimal c with
                          | Some v => 10 * acc + v
                          | None => acc
                          end) group 0.

(** [s.split(sep)] on text. *)
Fixpoint split_text (sep : N) (cur : text) (s : text) : list text :=
  match s with
  | [] => [rev cur]
  | c :: s' =>
      if (c =? sep)%N then rev cur :: split_text sep [] s'
      else split_text sep (c :: cur) s'
  end.

(** *** JSON values

    The values [json.load] builds and [json.dump] writes: [None], [bool],
    [int], [float], [str], [list] and [dict] with string keys, whose items
    are kept in insertion order. *)
#[local] Unset Elimination Schemes.
Inductive json : Type :=
| JNull
| JBool (b : bool)
| JInt (z : Z)
| JFloat (f : float)
| JStr (s : string)
| JArr (l : list json)
| JObj (items : list (string * json)).
#[local] Set Elimination Schemes.

Fixpoint assoc (k : string) (items : list (string * json)) : option json :=
  match items with
  | [] => None
  | (k', v) :: rest => if String.eqb k k' then Some v else assoc k rest
  end.

(** [obj[key]] for a string key. *)
Definition getitem (obj : json) (key : string) : result json :=
  match obj with
  | JObj items =>
      match assoc key items with
      | Some v => Return v
      | None => Raise KeyError
      end
  | _ => Raise TypeError
  end.

Fixpoint chars (s : string) : list json :=
  match s with
  | EmptyString => []
  | String c s' => JStr (String c EmptyString) :: chars s'
  end.

(** What [for x in obj] visits. *)
Definition iterate (obj : json) : result (list json) :=
  match obj with
  | JArr l => Return l
  | JObj items => Return (map (fun kv => JStr (fst kv)) items)
  | JStr s => Return (chars s)
  | _ => Raise TypeError
  end.

(** [obj.append(x)]: only a list has the method. *)
Definition append (obj x : json) : result json :=
  match obj with
  | JArr l => Return (JArr (l ++ [x]))
  | _ => Raise AttributeError
  end.

(** [float(x)] *)
Definition to_float (x : json) : result float :=
  match x with
  | JFloat f => Return f
  | JInt z =>
      match float_of_int z with
      | S754_infinity _ => Raise OverflowError
      | f => Return f
      end
  | JBool b => Return (float_of_int (if b then 1 else 0))
  | JStr s => float_of_str s
  | _ => Raise TypeError
  end.

(** The exact integer value of a float, when it has one. *)
Definition integral (f : float) : option Z :=
  match f with
  | S754_zero _ => Some 0
  | S754_finite s m e =>
      if 0 <=? e then Some (cond_Zopp s (Zpos m * 2 ^ e))
      else if (Zpos m) mod 2 ^ (- e) =? 0 then Some (cond_Zopp s (Zpos m / 2 ^ (- e)))
      else None
  | _ => None
  end.

(** A number as [==] sees it: [bool] is an [int]; an [int] and a [float]
    compare by exact value. *)
Definition number_eq (x y : Z + float) : bool :=
  match x, y with
  | inl a, inl b => a =? b
  | inr f, inr g => float_eq f g
  | inl a, inr f | inr f, inl a =>
      match integral f with
      | Some b => a =? b
      | None => false
      end
  end.

Definition as_number (x : json) : option (Z + float) :=
  match x with
  | JBool b => Some (inl (if b then 1 else 0))
  | JInt z => Some (inl z)
  | JFloat f => Some (inr f)
  | _ => None
  end.

(** [x == y] on two distinct objects. *)
Fixpoint py_eq (x y : json) {struct x} : bool :=
  match as_number x, as_number y with
  | Some a, Some b => number_eq a b
  | Some _, None | None, Some _ => false
  | None, None =>
      match x, y with
      | JNull, JNull => true
      | JStr s, JStr t => String.eqb s t
      | JArr l, JArr l' =>
          (fix all2 (l : list json) (l' : list json) : bool :=
             match l, l' with
             | [], [] => true
             | a :: r, b :: r' => py_eq a b && all2 r r'
             | _, _ => false
             end) l l'
      | JObj items, JObj items' =>
          Nat.eqb (List.length items) (List.length items')
          && (fix all (items : list (string * json)) : bool :=
                match items with
                | [] => true
                | (k, v) :: r =>
                    match assoc k items' with
                    | Some v' => py_eq v v' && all r
                    | None => false
                    end
                end) items
      | _, _ => false
      end
  end.

(** *** [json.dumps] with its defaults

    Separators [", "] and [": "], [ensure_ascii], [allow_nan]. *)
Definition dquote : ascii := chr 34.

Definition hex_digit (n : N) : ascii :=
  if (n <? 10)%N then chr (n + 48) else chr (n + 87).

Definition escape_char (c : ascii) : string :=
  let n := ord c in
  if Ascii.eqb c dquote then String "\" (String dquote EmptyString)
  else if Ascii.eqb c "\" then "\\"
  else if (n =? 10)%N then "\n"
  else if (n =? 13)%N then "\r"
  else if (n =? 9)%N then "\t"
  else if (n =? 12)%N then "\f"
  else if (n =? 8)%N then "\b"
  else if (32 <=? n)%N && (n <=? 126)%N then String c EmptyString
  else "\u00" +:+ String (hex_digit (n / 16)) (String (hex_digit (n mod 16)) EmptyString).

Fixpoint escape (s : string) : string :=
  match s with
  | EmptyString => EmptyString
  | String c s' => escape_char c +:+ escape s'
  end.

Definition quote (s : string) : string :=
  String dquote (escape s +:+ String dquote EmptyString).

Definition dumps_float (f : float) : string :=
  match f with
  | S754_nan => "NaN"
  | S754_infinity s => if s then "-Infinity" else "Infinity"
  | _ => repr f
  end.

Fixpoint dumps (x : json) : string :=
  match x with
  | JNull => "null"
  | JBool b => if b then "true" else "false"
  | JInt z => str_of_Z z
  | JFloat f => dumps_float f
  | JStr s => quote s
  | JArr l =>
      "[" +:+ (fix items (first : bool) (l : list json) : string :=
                 match l with
                 | [] => EmptyString
                 | a :: r => (if first then "" else ", ") +:+ dumps a +:+ items false r
                 end) true l +:+ "]"
  | JObj kvs =>
      "{" +:+ (fix items (first : bool) (l : list (string * json)) : string :=
                 match l with
                 | [] => EmptyString
                 | (k, v) :: r =>
                     (if first then "" else ", ") +:+ quote k +:+ ": " +:+ dumps v
                       +:+ items false r
                 end) true kvs +:+ "}"
  end.

(** *** [str.encode()] (UTF-8) and [hashlib.md5] *)

Definition encode_char (c : ascii) : list Z :=
  let n := Z.of_N (ord c) in
  if n <? 128 then [n] else [Z.lor 192 (Z.shiftr n 6); Z.lor 128 (Z.land n 63)].

Fixpoint encode (s : string) : list Z :=
  match s with
  | EmptyString => []
  | String c s' => encode_char c ++ encode s'
  end.

Module MD5.

Definition mask32 (x : Z) : Z := Z.land x 0xffffffff.

Definition rotl (x n : Z) : Z :=
  mask32 (Z.lor (Z.shiftl x n) (Z.shiftr x (32 - n))).

Definition lnot32 (x : Z) : Z := Z.lxor x 0xffffffff.

Definition shifts : list Z :=
  [7; 12; 17; 22; 7; 12; 17; 22; 7; 12; 17; 22; 7; 12; 17; 22;
   5; 9; 14; 20; 5; 9; 14; 20; 5; 9; 14; 20; 5; 9; 14; 20;
   4; 11; 16; 23; 4; 11; 16; 23; 4; 11; 16; 23; 4; 11; 16; 23;
   6; 10; 15; 21; 6; 10; 15; 21; 6; 10; 15; 21; 6; 10; 15; 21].

Definition sines : list Z :=
  [ 0xd76aa478; 0xe8c7b756; 0x242070db; 0xc1bdceee;
    0xf57c0faf; 0x4787c62a; 0xa8304613; 0xfd469501;
    0x698098d8; 0x8b44f7af; 0xffff5bb1; 0x895cd7be;
    0x6b901122; 0xfd987193; 0xa679438e; 0x49b40821;
    0xf61e2562; 0xc040b340; 0x265e5a51; 0xe9b6c7aa;
    0xd62f105d; 0x02441453; 0xd8a1e681; 0xe7d3fbc8;
    0x21e1cde6; 0xc33707d6; 0xf4d50d87; 0x455a14ed;
    0xa9e3e905; 0xfcefa3f8; 0x676f02d9; 0x8d2a4c8a;
    0xfffa3942; 0x8771f681; 0x6d9d6122; 0xfde5380c;
    0xa4beea44; 0x4bdecfa9; 0xf6bb4b60; 0xbebfbc70;
    0x289b7ec6; 0xeaa127fa; 0xd4ef3085; 0x04881d05;
    0xd9d4d039; 0xe6db99e5; 0x1fa27cf8; 0xc4ac5665;
    0xf4292244; 0x432aff97; 0xab9423a7; 0xfc93a039;
    0x655b59c3; 0x8f0ccc92; 0xffeff47d; 0x85845dd1;
    0x6fa87e4f; 0xfe2ce6e0; 0xa3014314; 0x4e0811a1;
    0xf7537e82; 0xbd3af235; 0x2ad7d2bb; 0xeb86d391 ].

Record state : Type := { sa : Z; sb : Z; sc : Z; sd : Z }.

Definition initial : state :=
  {| sa := 0x67452301; sb := 0xefcdab89; sc := 0x98badcfe; sd := 0x10325476 |}.

(** Little-endian 32-bit words of a block of bytes. *)
Fixpoint words (bytes : list Z) : list Z :=
  match bytes with
  | b0 :: b1 :: b2 :: b3 :: rest =>
      (b0 + Z.shiftl b1 8 + Z.shiftl b2 16 + Z.shiftl b3 24) :: words rest
  | _ => []
  end.

Definition round (m : list Z) (st : state) (i : Z) : state :=
  let '(f, g) :=
    if i <? 16 then
      (Z.lor (Z.land (sb st) (sc st)) (Z.land (lnot32 (sb st)) (sd st)), i)
    else if i <? 32 then
      (Z.lor (Z.land (sd st) (sb st)) (Z.land (lnot32 (sd st)) (sc st)),
       (5 * i + 1) mod 16)
    else if i <? 48 then
      (Z.lxor (sb st) (Z.lxor (sc st) (sd st)), (3 * i + 5) mod 16)
    else
      (Z.lxor (sc st) (Z.lor (sb st) (lnot32 (sd st))), (7 * i) mod 16) in
  let f := mask32 (f + sa st + nth (Z.to_nat i) sines 0 + nth (Z.to_nat g) m 0) in
  {| sa := sd st; sd := sc st; sc := sb st;
     sb := mask32 (sb st + rotl f (nth (Z.to_nat i) shifts 0)) |}.

Definition block (st : state) (bytes : list Z) : state :=
  let m := words bytes in
  let st' := fold_left (round m) (map Z.of_nat (seq 0 64)) st in
  {| sa := mask32 (sa st + sa st'); sb := mask32 (sb st + sb st');
     sc := mask32 (sc st + sc st'); sd := mask32 (sd st + sd st') |}.

Definition le_bytes (n : nat) (x : Z) : list Z :=
  map (fun i => Z.land (Z.shiftr x (8 * Z.of_nat i)) 255) (seq 0 n).

(** The message, a [0x80] byte, zeros up to 56 modulo 64, and the bit
    length on 8 bytes. *)
Definition pad (msg : list Z) : list Z :=
  let len := Z.of_nat (List.length msg) in
  let fill := Z.to_nat ((55 - len) mod 64) in
  msg ++ [128] ++ repeat 0 fill ++ le_bytes 8 (8 * len).

Fixpoint blocks (fuel : nat) (st : state) (bytes : list Z) : state :=
  match fuel, bytes with
  | S fuel', _ :: _ => blocks fuel' (block st (firstn 64 bytes)) (skipn 64 bytes)
  | _, _ => st
  end.

Definition digest (msg : list Z) : list Z :=
  let bytes := pad msg in
  let st := blocks (List.length bytes) initial bytes in
  le_bytes 4 (sa st) ++ le_bytes 4 (sb st) ++ le_bytes 4 (sc st) ++ le_bytes 4 (sd st).

Fixpoint hex (bytes : list Z) : string :=
  match bytes with
  | [] => EmptyString
  | b :: rest =>
      String (hex_digit (Z.to_N (b / 16))) (String (hex_digit (Z.to_N (b mod 16))) (hex rest))
  end.

(** [hashlib.md5(msg).hexdigest()] *)
Definition hexdigest (msg : list Z) : string := hex (digest msg).

End MD5.

(** *** Files

    A file holds a JSON document or text that [json.load] rejects. Opening
    a missing file for reading raises [FileNotFoundError]; so does opening
    for writing a path whose directory does not exist. [json.dump] followed
    by [json.load] gives back the value written. *)
Inductive file : Type :=
| Malformed
| Document (content : json).

Record disk : Type := {
  files : gmap string file;
  no_directory : gset string
}.

Inductive loaded : Type :=
| FileNotFound
| JSONDecodeError
| Loaded (content : json).

(** [with open(path, "r") as f: json.load(f)] *)
Definition load (d : disk) (path : string) : loaded :=
  match files d !! path with
  | None => FileNotFound
  | Some Malformed => JSONDecodeError
  | Some (Document j) => Loaded j
  end.

(** [with open(path, "w") as f: json.dump(content, f, indent=2)];
    [None] stands for [FileNotFoundError]. *)
Definition dump (d : disk) (path : string) (content : json) : option disk :=
  if decide (path ∈ no_directory d) then None
  else Some {| files := <[path := Document content]> (files d);
               no_directory := no_directory d |}.

(** *** Dates and the clock *)

Record date : Type := { year : Z; month : Z; day : Z }.

Definition is_leap (y : Z) : bool :=
  (y mod 4 =? 0) && (negb (y mod 100 =? 0) || (y mod 400 =? 0)).

Definition days_in_month (y m : Z) : Z :=
  if m =? 2 then (if is_leap y then 29 else 28)
  else if (m =? 4) || (m =? 6) || (m =? 9) || (m =? 11) then 30
  else 31.

(** [date.__lt__]: by year, then month, then day. *)
Definition date_lt (a b : date) : bool :=
  (year a <? year b)
  || (year a =? year b) && ((month a <? month b)
                            || (month a =? month b) && (day a <? day b)).

(** [datetime.strptime(s, "%d/%m/%Y").date()]. The format is compiled to
    the pattern
    [(?P<d>3[0-1]|[1-2]\d|0[1-9]|[1-9]| [1-9])/(?P<m>1[0-2]|0[1-9]|[1-9])/(?P<Y>\d\d\d\d)],
    which has to match the whole string. No group can hold a [/], so the
    string matches when its three parts between the two [/] match the
    three groups. Each group then goes through [int()], and the three
    numbers must make a date of the calendar in years 1..9999, else
    [ValueError]. *)
Definition day_group : regex_of N :=
  Or (Seq (one "3") (between "0" "1"))
     (Or (Seq (between "1" "2") decimal_digit)
         (Or (Seq (one "0") (between "1" "9"))
             (Or (between "1" "9") (Seq (one " ") (between "1" "9"))))).

Definition month_group : regex_of N :=
  Or (Seq (one "1") (between "0" "2"))
     (Or (Seq (one "0") (between "1" "9")) (between "1" "9")).

Definition year_group : regex_of N := rep 4 decimal_digit.

Definition strptime_dmy (s : text) : result date :=
  match split_text (ord "/") [] s with
  | [d; m; y] =>
      if fullmatch_text day_group d && fullmatch_text month_group m
         && fullmatch_text year_group y then
        let d := int_of_group d in
        let m := int_of_group m in
        let y := int_of_group y in
        if (1 <=? d) && (1 <=? m) && (m <=? 12) && (1 <=? y)
           && (d <=? days_in_month y m)
        then Return {| year := y; month := m; day := d |}
        else Raise ValueError
      else Raise ValueError
  | _ => Raise ValueError
  end.

(** What [datetime.now(timezone.utc)] gives a call: [.date()] and
    [datetime.timestamp(...)]. *)
Record clock : Type := { today : date; timestamp : float }.

(** [sep in s] and [s.split(sep)] for a one-character [sep]. *)
Fixpoint contains (sep : ascii) (s : string) : bool :=
  match s with
  | EmptyString => false
  | String c s' => Ascii.eqb c sep || contains sep s'
  end.

Fixpoint split_acc (sep : ascii) (cur : string) (s : string) : list string :=
  match s with
  | EmptyString => [rev_string "" cur]
  | String c s' =>
      if Ascii.eqb c sep then rev_string "" cur :: split_acc sep "" s'
      else split_acc sep (String c cur) s'
  end.

Definition split (sep : ascii) (s : string) : list string := split_acc sep "" s.

End Py.

(** ** transfer_request.py *)

Module TransferRequest.
Import Py.

(** [check_regular(pattern, value)]: [re.compile(pattern).fullmatch(value)],
    used for its truth value. *)
Definition check_regular (pattern : regex) (value : string) : bool :=
  fullmatch pattern value.

(** [r"^ES[0-9]{22}"]; under [fullmatch] the anchor adds nothing. *)
Definition iban_pattern : regex := Seq (lit "ES") (rep 22 digit).

(** The chain of [str.replace] calls, in the order of the source. *)
Definition letters_to_numbers (iban : string) : string :=
  let iban := replace "F" "15" (replace "E" "14" (replace "D" "13"
             (replace "C" "12" (replace "B" "11" (replace "A" "10" iban))))) in
  let iban := replace "L" "21" (replace "K" "20" (replace "J" "19"
             (replace "I" "18" (replace "H" "17" (replace "G" "16" iban))))) in
  let iban := replace "R" "27" (replace "Q" "26" (replace "P" "25"
             (replace "O" "24" (replace "N" "23" (replace "M" "22" iban))))) in
  let iban := replace "X" "33" (replace "W" "32" (replace "V" "31"
             (replace "U" "30" (replace "T" "29" (replace "S" "28" iban))))) in
  replace "Z" "35" (replace "Y" "34" iban).

Definition validate_iban (iban : string) : result string :=
  let is_valid_iban := check_regular iban_pattern iban in
  if negb is_valid_iban then
    Raise (AccountManagementException "Invalid IBAN format")
  else
    let original_code := slice 2 4 iban in
    let iban := take 2 iban +:+ "00" +:+ drop 4 iban in
    let iban := drop 4 iban +:+ take 4 iban in
    let iban := letters_to_numbers iban in
    int_iban <- int iban ;;
    let mod_ := int_iban mod 97 in
    let control_digit := 98 - mod_ in
    code <- int original_code ;;
    if negb (code =? control_digit) then
      Raise (AccountManagementException "Invalid IBAN control digit")
    else Return iban.

(** [r"^(?=^.{10,30}$)([a-zA-Z]+(\s[a-zA-Z]+)+)$"]. The look-ahead sits at
    the start and spans the string, so it intersects the language of the
    body with ten to thirty characters other than a line feed (a body never
    ends in a line feed, so the [$] of the look-ahead is the end). *)
Definition concept_pattern : regex :=
  Both (rep_range 10 30 dot)
       (Seq (plus letter) (plus (Seq space (plus letter)))).

Definition validate_concept (concept : string) : result unit :=
  let is_valid_concept := check_regular concept_pattern concept in
  if negb is_valid_concept then
    Raise (AccountManagementException "Invalid concept format")
  else Return tt.

(** [check_regular] on a value read as code points. *)
Definition check_regular_text (pattern : regex_of N) (value : text) : bool :=
  fullmatch_text pattern value.

(** [r"^(([0-2]\d|3[0-1])\/(0\d|1[0-2])\/\d\d\d\d)$"]; [\d] is any
    decimal digit, of ASCII or not. *)
Definition date_pattern : regex_of N :=
  Seq (Or (Seq (between "0" "2") decimal_digit)
          (Seq (one "3") (between "0" "1")))
      (Seq (one "/")
           (Seq (Or (Seq (one "0") decimal_digit)
                    (Seq (one "1") (between "0" "2")))
                (Seq (one "/") (rep 4 decimal_digit)))).

Definition validate_transfer_date (clk : clock) (transfer_date : text) : result text :=
  let valid_transfer_date := check_regular_text date_pattern transfer_date in
  if negb valid_transfer_date then
    Raise (AccountManagementException "Invalid date format")
  else
    my_date <- match strptime_dmy transfer_date with
               | Raise ValueError => Raise (AccountManagementException "Invalid date format")
               | r => r
               end ;;
    if date_lt my_date (today clk) then
      Raise (AccountManagementException "Transfer date must be today or later.")
    else if (year my_date <? 2025) || (2050 <? year my_date) then
      Raise (AccountManagementException "Invalid date format")
    else Return transfer_date.

Definition validate_amount (amount : json) : result unit :=
  amount_float <- match to_float amount with
                  | Raise ValueError => Raise (AccountManagementException "Invalid transfer amount")
                  | r => r
                  end ;;
  let n_str := repr amount_float in
  (if contains "." n_str then
     let decimals := String.length (nth 1 (split "." n_str) "") in
     if (2 <? decimals)%nat then
       Raise (AccountManagementException "Invalid transfer amount")
     else Return tt
   else Return tt) ;;;
  if float_lt amount_float (float_of_int 10) || float_gt amount_float (float_of_int 10000) then
    Raise (AccountManagementException "Invalid transfer amount")
  else Return tt.

(** [r"(ORDINARY|INMEDIATE|URGENT)"], matched with [fullmatch]. *)
Definition transfer_type_pattern : regex :=
  Or (lit "ORDINARY") (Or (lit "INMEDIATE") (lit "URGENT")).

Definition validate_transfer_type (transfer_type : string) : result unit :=
  let is_valid_transfer_type := check_regular transfer_type_pattern transfer_type in
  if negb is_valid_transfer_type then
    Raise (AccountManagementException "Invalid transfer type")
  else Return tt.

(** The instance: its [__dict__], in the order [__init__] assigns. *)
Record t : Type := {
  transfer_store_file : string;
  from_iban : string;
  to_iban : string;
  transfer_type : string;
  transfer_concept : string;
  transfer_date : string;
  transfer_amount : json;
  time_stamp : float
}.

Definition __dict__ (self : t) : json :=
  JObj [ ("_TransferRequest__transfer_store_file", JStr (transfer_store_file self));
         ("_TransferRequest__from_iban", JStr (from_iban self));
         ("_TransferRequest__to_iban", JStr (to_iban self));
         ("_TransferRequest__transfer_type", JStr (transfer_type self));
         ("_TransferRequest__concept", JStr (transfer_concept self));
         ("_TransferRequest__transfer_date", JStr (transfer_date self));
         ("_TransferRequest__transfer_amount", transfer_amount self);
         ("_TransferRequest__time_stamp", JFloat (time_stamp self)) ].

Definition __str__ (self : t) : string := "Transfer:" +:+ dumps (__dict__ self).

(** The md5 signature (transfer code). *)
Definition transfer_code (self : t) : string :=
  MD5.hexdigest (encode (__str__ self)).

Definition to_json (self : t) : json :=
  JObj [ ("from_iban", JStr (from_iban self));
         ("to_iban", JStr (to_iban self));
         ("transfer_type", JStr (transfer_type self));
         ("transfer_amount", transfer_amount self);
         ("transfer_concept", JStr (transfer_concept self));
         ("transfer_date", JStr (transfer_date self));
         ("time_stamp", JFloat (time_stamp self));
         ("transfer_code", JStr (transfer_code self)) ].

(** The conjunction short-circuits: a key is only read when the ones
    before it compared equal. *)
Definition is_duplicate_transfer (self : t) (t_i : json) : result unit :=
  a <- getitem t_i "from_iban" ;;
  if negb (py_eq a (JStr (from_iban self))) then Return tt else
  a <- getitem t_i "to_iban" ;;
  if negb (py_eq a (JStr (to_iban self))) then Return tt else
  a <- getitem t_i "transfer_date" ;;
  if negb (py_eq a (JStr (transfer_date self))) then Return tt else
  a <- getitem t_i "transfer_amount" ;;
  if negb (py_eq a (transfer_amount self)) then Return tt else
  a <- getitem t_i "transfer_concept" ;;
  if negb (py_eq a (JStr (transfer_concept self))) then Return tt else
  a <- getitem t_i "transfer_type" ;;
  if negb (py_eq a (JStr (transfer_type self))) then Return tt else
  Raise (AccountManagementException "Duplicated transfer in transfer list").

(** [for x in l: body(x)] *)
Fixpoint for_each (body : json -> result unit) (l : list json) : result unit :=
  match l with
  | [] => Return tt
  | x :: rest => body x ;;; for_each body rest
  end.

(** Stores the transfer request if valid: the outcome and the disk after. *)
Definition store_transfer_request (self : t) (d : disk) : result unit * disk :=
  let read :=
    match load d (transfer_store_file self) with
    | Loaded j => Return j
    | FileNotFound => Return (JArr [])
    | JSONDecodeError =>
        Raise (AccountManagementException "JSON Decode Error - Wrong JSON Format")
    end in
  let updated :=
    t_l <- read ;;
    items <- iterate t_l ;;
    for_each (is_duplicate_transfer self) items ;;;
    append t_l (to_json self) in
  match updated with
  | Raise e => (Raise e, d)
  | Return t_l =>
      match dump d (transfer_store_file self) t_l with
      | Some d' => (Return tt, d')
      | None => (Raise (AccountManagementException "Wrong file  or file path"), d)
      end
  end.

(** [TransferRequest(from_iban, transfer_type, to_iban, transfer_concept,
    transfer_date, transfer_amount, transfer_store_file)]: the instance on
    success, and the disk after. The date is checked as the code points
    of the string. *)
Definition __init__ (from_iban transfer_type to_iban transfer_concept
                     transfer_date : string) (transfer_amount : json)
                    (transfer_store_file : string)
                    (clk : clock) (d : disk) : result t * disk :=
  let self := {| transfer_store_file := transfer_store_file;
                 from_iban := from_iban;
                 to_iban := to_iban;
                 transfer_type := transfer_type;
                 transfer_concept := transfer_concept;
                 transfer_date := transfer_date;
                 transfer_amount := transfer_amount;
                 time_stamp := timestamp clk |} in
  let checks :=
    validate_iban from_iban ;;;
    validate_iban to_iban ;;;
    validate_concept transfer_concept ;;;
    validate_transfer_type transfer_type ;;;
    validate_transfer_date clk (code_points transfer_date) ;;;
    validate_amount transfer_amount in
  match checks with
  | Raise e => (Raise e, d)
  | Return _ =>
      match store_transfer_request self d with
      | (Return _, d') => (Return self, d')
      | (Raise e, d') => (Raise e, d')
      end
  end.

End TransferRequest.

(** ** account_management_config.py and account_deposit.py

    The sources import the four store paths and the class [AccountDeposit]
    from modules kept elsewhere; the developments below take them
    as parameters. *)
Record config : Type := {
  TRANSFERS_STORE_FILE : string;
  DEPOSITS_STORE_FILE : string;
  TRANSACTIONS_STORE_FILE : string;
  BALANCES_STORE_FILE : string
}.

(** [AccountDeposit(to_iban=..., deposit_amount=...)], used through
    [to_json()] and [deposit_signature]. *)
Record AccountDeposit : Type := {
  deposit_to_json : string -> Py.float -> Py.clock -> Py.json;
  deposit_signature : string -> Py.float -> Py.clock -> string
}.

(** ** account_manager.py *)

Module AccountManager.
Import Py.

Section WithConfig.
Variable cfg : config.
Variable deposit : AccountDeposit.

(** The class body binds [__init__], [transfer_request],
    [deposit_into_account], [read_transactions_file] and
    [calculate_balance]; its base is [object]. The name [validate_iban],
    which two of the methods look up on [self], is not bound. *)
Definition validate_iban : option (json -> result string) := None.

(** [self.name(arg)]: the attribute lookup comes first. *)
Definition call_method {A B : Type} (method : option (A -> result B)) (arg : A) : result B :=
  match method with
  | Some f => f arg
  | None => Raise AttributeError
  end.

Definition transfer_request (from_iban to_iban concept transfer_type date : string)
           (amount : json) (clk : clock) (d : disk) : result string * disk :=
  match TransferRequest.__init__ from_iban transfer_type to_iban concept date
          amount (TRANSFERS_STORE_FILE cfg) clk d with
  | (Return transfer_request, d') =>
      (Return (TransferRequest.transfer_code transfer_request), d')
  | (Raise e, d') => (Raise e, d')
  end.

(** [r"^EUR [0-9]{4}\.[0-9]{2}"] *)
Definition deposit_amount_pattern : regex :=
  Seq (lit "EUR ") (Seq (rep 4 digit) (Seq (lit_char ".") (rep 2 digit))).

(** A value that is not a [str] makes the call that receives it raise;
    the model reports [TypeError]. *)
Definition as_str (x : json) : result string :=
  match x with
  | JStr s => Return s
  | _ => Raise TypeError
  end.

Definition deposit_into_account (input_file : string) (clk : clock) (d : disk)
  : result string * disk :=
  let outcome :=
    i_d <- match load d input_file with
           | Loaded j => Return j
           | FileNotFound => Raise (AccountManagementException "Error: file input not found")
           | JSONDecodeError =>
               Raise (AccountManagementException "JSON Decode Error - Wrong JSON Format")
           end ;;
    values <- match (deposit_iban <- getitem i_d "IBAN" ;;
                     deposit_amount <- getitem i_d "AMOUNT" ;;
                     Return (deposit_iban, deposit_amount)) with
              | Raise KeyError => Raise (AccountManagementException "Error - Invalid Key in JSON")
              | r => r
              end ;;
    deposit_iban <- call_method validate_iban (fst values) ;;
    deposit_amount <- as_str (snd values) ;;
    let res := fullmatch deposit_amount_pattern deposit_amount in
    if negb res then Raise (AccountManagementException "Error - Invalid deposit amount")
    else
      d_a_f <- float_of_str (drop 4 deposit_amount) ;;
      if float_eq d_a_f (float_of_int 0) then
        Raise (AccountManagementException "Error - Deposit must be greater than 0")
      else
        d_l <- match load d (DEPOSITS_STORE_FILE cfg) with
               | Loaded j => Return j
               | FileNotFound => Return (JArr [])
               | JSONDecodeError =>
                   Raise (AccountManagementException "JSON Decode Error - Wrong JSON Format")
               end ;;
        d_l <- append d_l (deposit_to_json deposit deposit_iban d_a_f clk) ;;
        Return (d_l, deposit_signature deposit deposit_iban d_a_f clk) in
  match outcome with
  | Raise e => (Raise e, d)
  | Return (d_l, signature) =>
      match dump d (DEPOSITS_STORE_FILE cfg) d_l with
      | Some d' => (Return signature, d')
      | None => (Raise (AccountManagementException "Wrong file  or file path"), d)
      end
  end.

(** Loads the content of the transactions file. *)
Definition read_transactions_file (d : disk) : result json :=
  match load d (TRANSACTIONS_STORE_FILE cfg) with
  | Loaded j => Return j
  | FileNotFound => Raise (AccountManagementException "Wrong file  or file path")
  | JSONDecodeError =>
      Raise (AccountManagementException "JSON Decode Error - Wrong JSON Format")
  end.

(** The loop of [calculate_balance]: the running sum and [iban_found]. *)
Fixpoint sum_matching (iban : string) (t_l : list json) (bal_s : float) (iban_found : bool)
  : result (float * bool) :=
  match t_l with
  | [] => Return (bal_s, iban_found)
  | transaction :: rest =>
      v <- getitem transaction "IBAN" ;;
      if py_eq v (JStr iban) then
        a <- getitem transaction "amount" ;;
        f <- to_float a ;;
        sum_matching iban rest (float_add bal_s f) true
      else sum_matching iban rest bal_s iban_found
  end.

(** The rest of [calculate_balance] once [iban] is bound; [bal_s] starts
    as the [int] 0, which adds to a float as [0.0] does. *)
Definition balance_of (iban : string) (clk : clock) (d : disk) : result bool * disk :=
  let outcome :=
    t_l <- read_transactions_file d ;;
    items <- iterate t_l ;;
    sums <- sum_matching iban items (float_of_int 0) false ;;
    let '(bal_s, iban_found) := sums in
    if negb iban_found then Raise (AccountManagementException "IBAN not found")
    else
      let last_balance := JObj [ ("IBAN", JStr iban);
                                 ("time", JFloat (timestamp clk));
                                 ("BALANCE", JFloat bal_s) ] in
      balance_list <- match load d (BALANCES_STORE_FILE cfg) with
                      | Loaded j => Return j
                      | FileNotFound => Return (JArr [])
                      | JSONDecodeError =>
                          Raise (AccountManagementException "JSON Decode Error - Wrong JSON Format")
                      end ;;
      append balance_list last_balance in
  match outcome with
  | Raise e => (Raise e, d)
  | Return balance_list =>
      match dump d (BALANCES_STORE_FILE cfg) balance_list with
      | Some d' => (Return true, d')
      | None => (Raise (AccountManagementException "Wrong file  or file path"), d)
      end
  end.

(** Calculate the balance for a given iban. *)
Definition calculate_balance (iban : string) (clk : clock) (d : disk) : result bool * disk :=
  match call_method validate_iban (JStr iban) with
  | Raise e => (Raise e, d)
  | Return iban => balance_of iban clk d
  end.

End WithConfig.
End AccountManager.

(** ** G8X.2025.T00.GE4-main: account_manager.py *)

Module GE4.
Import Py.

(** [check_regex(pattern, string)] *)
Definition check_regex (pattern : regex) (string : string) : bool :=
  fullmatch pattern string.

(** [check_regex] on a value read as code points. *)
Definition check_regex_text (pattern : regex_of N) (string : text) : bool :=
  fullmatch_text pattern string.

Definition validate_iban (iban : string) : result string :=
  if negb (check_regex TransferRequest.iban_pattern iban) then
    Raise (AccountManagementException "Invalid IBAN format")
  else
    let original_code := slice 2 4 iban in
    let iban := take 2 iban +:+ "00" +:+ drop 4 iban in
    let iban := drop 4 iban +:+ take 4 iban in
    let iban := TransferRequest.letters_to_numbers iban in
    int_i <- int iban ;;
    let mod_ := int_i mod 97 in
    let control_digit := 98 - mod_ in
    code <- int original_code ;;
    if negb (code =? control_digit) then
      Raise (AccountManagementException "Invalid IBAN control digit")
    else Return iban.

Definition validate_concept (concept : string) : result unit :=
  let is_valid_concept := check_regex TransferRequest.concept_pattern concept in
  if negb is_valid_concept then
    Raise (AccountManagementException "Invalid concept format")
  else Return tt.

Definition validate_transfer_date (clk : clock) (transfer_date : text) : result text :=
  let is_valid_date := check_regex_text TransferRequest.date_pattern transfer_date in
  if negb is_valid_date then
    Raise (AccountManagementException "Invalid date format")
  else
    my_date <- match strptime_dmy transfer_date with
               | Raise ValueError => Raise (AccountManagementException "Invalid date format")
               | r => r
               end ;;
    if date_lt my_date (today clk) then
      Raise (AccountManagementException "Transfer date must be today or later.")
    else if (year my_date <? 2025) || (2050 <? year my_date) then
      Raise (AccountManagementException "Invalid date format")
    else Return transfer_date.

(** [r"(ORDINARY|IMMEDIATE|URGENT)"] *)
Definition transfer_type_pattern : regex :=
  Or (lit "ORDINARY") (Or (lit "IMMEDIATE") (lit "URGENT")).

(** The check of the transfer type inside [transfer_request]. *)
Definition check_transfer_type (transfer_type : string) : result unit :=
  let is_valid_transfer_type := check_regex transfer_type_pattern transfer_type in
  if negb is_valid_transfer_type then
    Raise (AccountManagementException "Invalid transfer type")
  else Return tt.

(** The check of the amount inside [transfer_request]. *)
Definition check_amount (amount : json) : result unit :=
  amount_float <- match to_float amount with
                  | Raise ValueError => Raise (AccountManagementException "Invalid transfer amount")
                  | r => r
                  end ;;
  let amount_string := repr amount_float in
  (if contains "." amount_string then
     let decimals := String.length (nth 1 (split "." amount_string) "") in
     if (2 <? decimals)%nat then
       Raise (AccountManagementException "Invalid transfer amount")
     else Return tt
   else Return tt) ;;;
  if float_lt amount_float (float_of_int 10) || float_gt amount_float (float_of_int 10000) then
    Raise (AccountManagementException "Invalid transfer amount")
  else Return tt.

(** [transfer_request] up to the point where it builds the request, whose
    class this version imports from a module kept elsewhere. *)
Definition transfer_request_checks (from_iban to_iban concept transfer_type date : string)
           (amount : json) (clk : clock) : result unit :=
  validate_iban from_iban ;;;
  validate_iban to_iban ;;;
  validate_concept concept ;;;
  check_transfer_type transfer_type ;;;
  validate_transfer_date clk (code_points date) ;;;
  check_amount amount.

Section WithConfig.
Variable cfg : config.
Variable deposit : AccountDeposit.

(** [bool(x)] of a pair: a tuple that is not empty is true. *)
Definition truth {A B : Type} (x : A * B) : bool := true.

Definition deposit_into_account (input_file : string) (clk : clock) (d : disk)
  : result string * disk :=
  let outcome :=
    i_d <- match load d input_file with
           | Loaded j => Return j
           | FileNotFound => Raise (AccountManagementException "Error: file input not found")
           | JSONDecodeError =>
               Raise (AccountManagementException "JSON Decode Error - Wrong JSON Format")
           end ;;
    values <- match (deposit_iban <- getitem i_d "IBAN" ;;
                     deposit_amount <- getitem i_d "AMOUNT" ;;
                     Return (deposit_iban, deposit_amount)) with
              | Raise KeyError => Raise (AccountManagementException "Error - Invalid Key in JSON")
              | r => r
              end ;;
    deposit_iban <- (iban <- AccountManager.as_str (fst values) ;; validate_iban iban) ;;
    let deposit_amount := snd values in
    let is_valid_deposit_amount :=
      (AccountManager.deposit_amount_pattern, deposit_amount) in
    if negb (truth is_valid_deposit_amount) then
      Raise (AccountManagementException "Error - Invalid deposit amount")
    else
      deposit_amount <- AccountManager.as_str deposit_amount ;;
      deposit_amount_float <- float_of_str (drop 4 deposit_amount) ;;
      if float_eq deposit_amount_float (float_of_int 0) then
        Raise (AccountManagementException "Error - Deposit must be greater than 0")
      else
        deposit_list <- match load d (DEPOSITS_STORE_FILE cfg) with
                        | Loaded j => Return j
                        | FileNotFound => Return (JArr [])
                        | JSONDecodeError =>
                            Raise (AccountManagementException "JSON Decode Error - Wrong JSON Format")
                        end ;;
        deposit_list <- append deposit_list
                          (deposit_to_json deposit deposit_iban deposit_amount_float clk) ;;
        Return (deposit_list,
                deposit_signature deposit deposit_iban deposit_amount_float clk) in
  match outcome with
  | Raise e => (Raise e, d)
  | Return (deposit_list, signature) =>
      match dump d (DEPOSITS_STORE_FILE cfg) deposit_list with
      | Some d' => (Return signature, d')
      | None => (Raise (AccountManagementException "Wrong file  or file path"), d)
      end
  end.

(** [read_transactions_file] and the body of [calculate_balance] after its
    first line have the text of [AccountManager], up to the names of two
    local variables. *)
Definition read_transactions_file (d : disk) : result json :=
  AccountManager.read_transactions_file cfg d.

Definition calculate_balance (iban : string) (clk : clock) (d : disk) : result bool * disk :=
  match validate_iban iban with
  | Raise e => (Raise e, d)
  | Return iban => AccountManager.balance_of cfg iban clk d
  end.

End WithConfig.
End GE4.

(** ** The specification's own notions

    Definitions that follow the words of the specification, to compare with
    the functions above. *)

Module Spec.
Import Py.

Fixpoint all_chars (p : ascii -> bool) (s : string) : bool :=
  match s with
  | EmptyString => true
  | String c s' => p c && all_chars p s'
  end.

Definition all_digits (s : string) : bool := all_chars is_digit s.

(** The number a string of decimal digits denotes. *)
Fixpoint decimal_from (acc : Z) (s : string) : Z :=
  match s with
  | EmptyString => acc
  | String c s' => decimal_from (10 * acc + digit_value c) s'
  end.

Definition decimal (s : string) : Z := decimal_from 0 s.

(** [ES] followed by exactly 22 decimal digits. *)
Definition iban_form (iban : string) : bool :=
  String.eqb (take 2 iban) "ES"
  && Nat.eqb (String.length (drop 2 iban)) 22
  && all_digits (drop 2 iban).

(** One pass over the string with the table [E -> 14], [S -> 28]. *)
Fixpoint substitute (s : string) : string :=
  match s with
  | EmptyString => EmptyString
  | String c s' =>
      if Ascii.eqb c "E" then "14" +:+ substitute s'
      else if Ascii.eqb c "S" then "28" +:+ substitute s'
      else String c (substitute s')
  end.

(** Characters at offsets 2-3 replaced by [00], the first four characters
    moved to the end, the letters substituted. *)
Definition numeric_transform (iban : string) : string :=
  let zeroed := take 2 iban +:+ "00" +:+ drop 4 iban in
  let rotated := drop 4 zeroed +:+ take 4 zeroed in
  substitute rotated.

(** The declared check code: offsets 2-3, read as an integer. *)
Definition declared_code (iban : string) : Z := decimal (slice 2 4 iban).

(** A date of the calendar. *)
Definition calendar_date (dt : date) : bool :=
  (1 <=? year dt) && (year dt <=? 9999)
  && (1 <=? month dt) && (month dt <=? 12)
  && (1 <=? day dt) && (day dt <=? days_in_month (year dt) (month dt)).

Definition two_digits (n : Z) : string :=
  String (digit_char (n / 10)) (String (digit_char (n mod 10)) EmptyString).

Definition four_digits (n : Z) : string :=
  two_digits (n / 100) +:+ two_digits (n mod 100).

(** [DD/MM/YYYY] *)
Definition dd_mm_yyyy (dt : date) : string :=
  two_digits (day dt) +:+ "/" +:+ two_digits (month dt) +:+ "/" +:+ four_digits (year dt).

(** [a <= b] on dates. *)
Definition date_le (a b : date) : bool := negb (date_lt b a).

(** The ASCII digit of value [v], and two ways for a character to stand
    for [v]: as that ASCII digit, or as a decimal digit of any script. *)
Definition digit_code (v : Z) : N := Z.to_N (48 + v).

Definition plain (c : N) (v : Z) : bool := (c =? digit_code v)%N.

Definition reads (c : N) (v : Z) : bool :=
  match to_decimal c with
  | Some w => w =? v
  | None => false
  end.

(** The text [s] writes the date [dt] as [DD/MM/YYYY]: ten characters,
    the two [/] in their places, and digits that give the day, the month
    and the year. The month and the first digit of the day are in ASCII
    digits; so is the second digit of the day unless the day is one of 10
    to 29; the other digits are decimal digits of any script. *)
Definition writes (s : text) (dt : date) : bool :=
  match s with
  | [d1; d2; a; m1; m2; b; y1; y2; y3; y4] =>
      plain d1 (day dt / 10)
      && (if (10 <=? day dt) && (day dt <=? 29) then reads d2 (day dt mod 10)
          else plain d2 (day dt mod 10))
      && (a =? ord "/")%N
      && plain m1 (month dt / 10) && plain m2 (month dt mod 10)
      && (b =? ord "/")%N
      && reads y1 (year dt / 1000) && reads y2 (year dt / 100 mod 10)
      && reads y3 (year dt / 10 mod 10) && reads y4 (year dt mod 10)
  | _ => false
  end.

(** Every decimal digit replaced by the ASCII digit of its value. *)
Definition ascii_digits (s : text) : text :=
  map (fun c => match to_decimal c with
                | Some v => digit_code v
                | None => c
                end) s.

(** The six fields of a stored record that make it a duplicate. *)
Definition duplicate_keys : list string :=
  ["from_iban"; "to_iban"; "transfer_date"; "transfer_amount";
   "transfer_concept"; "transfer_type"].

Definition record_fields (record : json) : list (result json) :=
  map (getitem record) duplicate_keys.

(** The states of the disk reachable from one where the store is missing
    or holds the empty list, by constructions of requests whose amount is
    equal to itself (every amount but [nan]), on any store and at any
    instant, whatever their outcome. *)
Inductive reachable (store : string) : disk -> Prop :=
| reachable_fresh (d : disk) :
    load d store = FileNotFound \/ load d store = Loaded (JArr []) ->
    reachable store d
| reachable_construct (d d' : disk)
    (from_iban transfer_type to_iban transfer_concept transfer_date : string)
    (transfer_amount : json) (transfer_store_file : string) (clk : clock)
    (outcome : result TransferRequest.t) :
    reachable store d ->
    py_eq transfer_amount transfer_amount = true ->
    TransferRequest.__init__ from_iban transfer_type to_iban transfer_concept
      transfer_date transfer_amount transfer_store_file clk d = (outcome, d') ->
    reachable store d'.

(** The error of a call, if it raised, and the first error of a sequence
    of calls. *)
Definition failure {A : Type} (r : result A) : option exn :=
  match r with
  | Raise e => Some e
  | Return _ => None
  end.

Fixpoint first_failure (l : list (option exn)) : option exn :=
  match l with
  | [] => None
  | Some e :: _ => Some e
  | None :: rest => first_failure rest
  end.

End Spec.

(** ** Sample data *)

Module Sample.
Import Py.

(** Modelled from the spec: the constants of account_management_config.py,
    which is not among the sources; four independent JSON files. *)
Definition cfg : config :=
  {| TRANSFERS_STORE_FILE := "transfers.json";
     DEPOSITS_STORE_FILE := "deposits.json";
     TRANSACTIONS_STORE_FILE := "transactions.json";
     BALANCES_STORE_FILE := "balances.json" |}.

Definition empty_disk : disk := {| files := ∅; no_directory := ∅ |}.

(** The float a literal of the program text denotes. *)
Definition literal (s : string) : float :=
  match float_of_str s with
  | Return f => f
  | Raise _ => nan
  end.

(** 3 November 2026, 08:35:13 UTC. *)
Definition clk : clock :=
  {| today := {| year := 2026; month := 11; day := 3 |};
     timestamp := literal "1793694913.482911" |}.

(** The next day. *)
Definition next_day : clock :=
  {| today := {| year := 2026; month := 11; day := 4 |};
     timestamp := literal "1793781313.482911" |}.

(** A second later. *)
Definition clk' : clock :=
  {| today := {| year := 2026; month := 11; day := 3 |};
     timestamp := literal "1793694914.482911" |}.

Definition iban : string := "ES9121000418450200051332".

(** [01/01/2030] with the Arabic-Indic digit three (U+0663) in the year. *)
Definition arabic_indic_year : text :=
  [48; 49; 47; 48; 49; 47; 50; 48; 1635; 48]%N.

(** The transaction log of the balance example. *)
Definition transactions : json :=
  JArr [ JObj [("IBAN", JStr iban); ("amount", JStr "100.0")];
         JObj [("IBAN", JStr iban); ("amount", JStr "-30.0")] ].

Definition disk_with (path : string) (content : json) : disk :=
  {| files := {[ path := Document content ]}; no_directory := ∅ |}.

(** Modelled from the spec: the class [AccountDeposit] of
    account_deposit.py, which is not among the sources. The specification
    gives a deposit a [to_iban], a [deposit_amount] and a derived,
    hash-based signature; the record below adds the time of the deposit. *)
Definition deposit : AccountDeposit :=
  let fields to_iban amount (c : clock) :=
    JObj [("to_iban", JStr to_iban); ("deposit_amount", JFloat amount);
          ("deposit_date", JFloat (timestamp c))] in
  {| deposit_to_json := fields;
     deposit_signature := fun to_iban amount c =>
       MD5.hexdigest (encode (dumps (fields to_iban amount c))) |}.

(** Deposit inputs. *)
Definition deposit_input (amount : string) : json :=
  JObj [("IBAN", JStr iban); ("AMOUNT", JStr amount)].

(** A request with every field valid on [clk], for a given amount. *)
Definition request (amount : json) (store : string) (c : clock) (d : disk)
  : result TransferRequest.t * disk :=
  TransferRequest.__init__ iban "ORDINARY" iban "Testing duplicates" "01/01/2030"
    amount store c d.

End Sample.

(** ** Notions for the further properties *)

Module Derived.
Import Py.

Definition is_letter (c : ascii) : bool :=
  in_range "a" "z" c || in_range "A" "Z" c.

Definition not_line_feed (c : ascii) : bool := negb (Ascii.eqb c (chr 10)).

(** Reading a concept from left to right: at the start, inside a word
    (having passed a separator or not), or just after a separator. *)
Inductive concept_state : Type :=
| AtStart
| InWord (separated : bool)
| AfterSpace.

(** Words of letters, one white-space character between two words, at
    least two words. *)
Fixpoint scan (st : concept_state) (s : string) : bool :=
  match s with
  | EmptyString =>
      match st with
      | InWord true => true
      | _ => false
      end
  | String c s' =>
      match st with
      | AtStart => is_letter c && scan (InWord false) s'
      | AfterSpace => is_letter c && scan (InWord true) s'
      | InWord separated =>
          if is_letter c then scan (InWord separated) s'
          else is_space c && scan AfterSpace s'
      end
  end.

Definition concept_ok (s : string) : bool :=
  (10 <=? String.length s)%nat && (String.length s <=? 30)%nat
  && Spec.all_chars not_line_feed s
  && scan AtStart s.

(** An entry of the transaction log: an account and an amount. *)
Definition transaction (e : string * json) : json :=
  JObj [("IBAN", JStr (fst e)); ("amount", snd e)].

(** Adding amounts to a running sum, from left to right, each one
    converted by [float]. *)
Fixpoint add_all (amounts : list json) (acc : float) : result float :=
  match amounts with
  | [] => Return acc
  | a :: rest => f <- to_float a ;; add_all rest (float_add acc f)
  end.

(** The amounts the log holds for an account. *)
Definition amounts_of (iban : string) (log : list (string * json)) : list json :=
  map snd (filter (fun e => String.eqb (fst e) iban) log).

(** Two requests with the same six fields, the amounts compared as [==]
    compares them. *)
Definition same_request (a b : TransferRequest.t) : bool :=
  String.eqb (TransferRequest.from_iban a) (TransferRequest.from_iban b)
  && String.eqb (TransferRequest.to_iban a) (TransferRequest.to_iban b)
  && String.eqb (TransferRequest.transfer_date a) (TransferRequest.transfer_date b)
  && py_eq (TransferRequest.transfer_amount a) (TransferRequest.transfer_amount b)
  && String.eqb (TransferRequest.transfer_concept a) (TransferRequest.transfer_concept b)
  && String.eqb (TransferRequest.transfer_type a) (TransferRequest.transfer_type b).

(** A string or an object that a [for] loop leaves at once. *)
Definition nothing_to_visit (j : json) : bool :=
  match j with
  | JStr EmptyString | JObj [] => true
  | _ => false
  end.

(** The snapshot [calculate_balance] builds. *)
Definition snapshot (iban : string) (clk : clock) (balance : float) : json :=
  JObj [("IBAN", JStr iban); ("time", JFloat (timestamp clk)); ("BALANCE", JFloat balance)].

(** The disk after [content] has been written at [path]. *)
Definition written (d : disk) (path : string) (content : json) : disk :=
  {| files := <[path := Document content]> (files d);
     no_directory := no_directory d |}.

(** The list a store holds; a missing file counts as the empty list. *)
Definition holds (d : disk) (path : string) (l : list json) : Prop :=
  load d path = Loaded (JArr l) \/ load d path = FileNotFound /\ l = [].

(** A call of one of the three methods of the [AccountManager] of
    src/main, and the disk a sequence of calls leaves, each made at its own
    instant, whatever each returns or raises. *)
Inductive call : Type :=
| Transfer (from_iban to_iban concept transfer_type date : string) (amount : json)
| Deposit (input_file : string)
| Balance (iban : string).

Definition run (cfg : config) (deposit : AccountDeposit) (c : call) (clk : clock)
           (d : disk) : disk :=
  match c with
  | Transfer from_iban to_iban concept transfer_type date amount =>
      snd (AccountManager.transfer_request cfg from_iban to_iban concept transfer_type
             date amount clk d)
  | Deposit input_file => snd (AccountManager.deposit_into_account cfg deposit input_file clk d)
  | Balance iban => snd (AccountManager.calculate_balance cfg iban clk d)
  end.

Fixpoint run_all (cfg : config) (deposit : AccountDeposit) (calls : list (call * clock))
         (d : disk) : disk :=
  match calls with
  | [] => d
  | (c, clk) :: rest => run_all cfg deposit rest (run cfg deposit c clk d)
  end.

Definition is_hex (c : ascii) : bool := is_digit c || in_range "a" "f" c.

(** Every integer of [lo, lo + n) passes the test. *)
Fixpoint all_from (test : Z -> bool) (n : nat) (lo : Z) : bool :=
  match n with
  | O => true
  | S n' => test lo && all_from test n' (lo + 1)
  end.

Definition accepted {A : Type} (r : result A) : bool := negb (raised r).

(** A whole amount passes [validate_amount] as an [int] and as the text
    of that [int]. *)
Definition whole_amount_ok (k : Z) : bool :=
  accepted (TransferRequest.validate_amount (JInt k))
  && accepted (TransferRequest.validate_amount (JStr (str_of_Z k))).

(** [" ".join(words)] *)
Fixpoint join (words : list string) : string :=
  match words with
  | [] => EmptyString
  | [w] => w
  | w :: rest => w +:+ String " " (join rest)
  end.

(** A word: one letter or more, and letters only. *)
Definition is_word (w : string) : bool :=
  negb (String.eqb w EmptyString) && Spec.all_chars is_letter w.

(** The instance [Sample.request] builds for the amount 100.5 on the store
    transfers.json at [Sample.clk], and the disk it leaves when it starts
    from the empty one. *)
Definition sample_instance : TransferRequest.t :=
  {| TransferRequest.transfer_store_file := "transfers.json";
     TransferRequest.from_iban := Sample.iban;
     TransferRequest.to_iban := Sample.iban;
     TransferRequest.transfer_type := "ORDINARY";
     TransferRequest.transfer_concept := "Testing duplicates";
     TransferRequest.transfer_date := "01/01/2030";
     TransferRequest.transfer_amount := JFloat (Sample.literal "100.5");
     TransferRequest.time_stamp := timestamp Sample.clk |}.

Definition sample_disk : disk :=
  snd (Sample.request (JFloat (Sample.literal "100.5")) "transfers.json"
         Sample.clk Sample.empty_disk).

(** A log that names the account of [Sample.iban] by the digits
    [validate_iban] returns for it, with an entry of another account in
    between. *)
Definition sample_log : list (string * json) :=
  [ ("21000418450200051332142800", JStr "100.0");
    (Sample.iban, JStr "5");
    ("21000418450200051332142800", JStr "-30.0") ].

Definition sample_log_disk : disk :=
  Sample.disk_with "transactions.json" (JArr (map transaction sample_log)).

End Derived.

(* ================================================================= *)
(** ** Properties *)

Import Py.

(** *** Strings *)

#[local] Arguments String.append !s1 s2.

Lemma append_nil_r (s : string) : s +:+ "" = s.
Proof. induction s as [|c s IH]; simpl; [reflexivity | now rewrite IH]. Qed.

Lemma append_assoc (a b c : string) : (a +:+ b) +:+ c = a +:+ (b +:+ c).
Proof. induction a as [|x a IH]; simpl; [reflexivity | now rewrite IH]. Qed.

(** *** The matcher decides the language of a pattern *)

Lemma fullmatch_Never (s : string) : fullmatch Never s = false.
Proof. induction s as [|c s IH]; simpl; auto. Qed.

Lemma fullmatch_Empty (s : string) :
  fullmatch Empty s = match s with EmptyString => true | _ => false end.
Proof. destruct s; simpl; [reflexivity | apply fullmatch_Never]. Qed.

Lemma fullmatch_Or (a b : regex) (s : string) :
  fullmatch (Or a b) s = fullmatch a s || fullmatch b s.
Proof. revert a b; induction s as [|c s IH]; intros a b; simpl; auto. Qed.

Lemma fullmatch_Both (a b : regex) (s : string) :
  fullmatch (Both a b) s = fullmatch a s && fullmatch b s.
Proof. revert a b; induction s as [|c s IH]; intros a b; simpl; auto. Qed.

Lemma fullmatch_Seq (a b : regex) (s : string) :
  fullmatch (Seq a b) s = true <->
  exists s1 s2, s = s1 +:+ s2 /\ fullmatch a s1 = true /\ fullmatch b s2 = true.
Proof.
  revert a b; induction s as [|c s IH]; intros a b; simpl.
  - rewrite andb_true_iff. split.
    + intros [Ha Hb]. exists "", "". auto.
    + intros (s1 & s2 & E & H1 & H2).
      destruct s1; [|discriminate]. destruct s2; [|discriminate]. auto.
  - destruct (nullable a) eqn:Na.
    + rewrite fullmatch_Or, orb_true_iff, IH. split.
      * intros [(s1 & s2 & -> & H1 & H2) | H].
        -- exists (String c s1), s2. auto.
        -- exists "", (String c s). auto.
      * intros (s1 & s2 & E & H1 & H2). destruct s1 as [|x s1]; simpl in E.
        -- subst s2. right. exact H2.
        -- injection E as -> ->. left. exists s1, s2. auto.
    + rewrite IH. split.
      * intros (s1 & s2 & -> & H1 & H2). exists (String c s1), s2. auto.
      * intros (s1 & s2 & E & H1 & H2). destruct s1 as [|x s1]; simpl in E.
        -- simpl in H1. congruence.
        -- injection E as -> ->. exists s1, s2. auto.
Qed.

Lemma fullmatch_Seq_assoc (a b c : regex) (s : string) :
  fullmatch (Seq (Seq a b) c) s = fullmatch (Seq a (Seq b c)) s.
Proof.
  apply eq_true_iff_eq. rewrite !fullmatch_Seq. split.
  - intros (s12 & s3 & -> & H12 & H3).
    apply fullmatch_Seq in H12 as (s1 & s2 & -> & H1 & H2).
    exists s1, (s2 +:+ s3). rewrite append_assoc. repeat split; auto.
    apply fullmatch_Seq. exists s2, s3. auto.
  - intros (s1 & s23 & -> & H1 & H23).
    apply fullmatch_Seq in H23 as (s2 & s3 & -> & H2 & H3).
    exists (s1 +:+ s2), s3. rewrite append_assoc. repeat split; auto.
    apply fullmatch_Seq. exists s1, s2. auto.
Qed.

Lemma fullmatch_Seq_Or (a b c : regex) (s : string) :
  fullmatch (Seq (Or a b) c) s = fullmatch (Seq a c) s || fullmatch (Seq b c) s.
Proof.
  apply eq_true_iff_eq. rewrite orb_true_iff, !fullmatch_Seq. split.
  - intros (s1 & s2 & -> & H1 & H2). rewrite fullmatch_Or, orb_true_iff in H1.
    destruct H1; [left | right]; exists s1, s2; auto.
  - intros [(s1 & s2 & -> & H1 & H2) | (s1 & s2 & -> & H1 & H2)];
      exists s1, s2; rewrite fullmatch_Or, H1; auto using orb_true_r.
Qed.

Lemma fullmatch_Seq_Empty (r : regex) (s : string) :
  fullmatch (Seq Empty r) s = fullmatch r s.
Proof.
  destruct s as [|c s]; simpl; [reflexivity|].
  rewrite fullmatch_Or. replace (fullmatch (Seq Never r) s) with false; [reflexivity|].
  symmetry. clear c. induction s as [|c s IH]; simpl; auto.
Qed.

Lemma fullmatch_Seq_Class (p : ascii -> bool) (r : regex) (s : string) :
  fullmatch (Seq (Class p) r) s =
  match s with
  | String c s' => p c && fullmatch r s'
  | EmptyString => false
  end.
Proof.
  destruct s as [|c s]; simpl; [reflexivity|].
  destruct (p c); simpl.
  - apply fullmatch_Seq_Empty.
  - clear c. induction s as [|c s IH]; simpl; auto.
Qed.

Lemma fullmatch_Class (p : ascii -> bool) (s : string) :
  fullmatch (Class p) s =
  match s with
  | String c EmptyString => p c
  | _ => false
  end.
Proof.
  destruct s as [|c s]; simpl; [reflexivity|].
  destruct (p c); rewrite ?fullmatch_Empty, ?fullmatch_Never; destruct s; reflexivity.
Qed.

(** A literal matches itself and nothing else. *)
Lemma fullmatch_lit (l s : string) : fullmatch (lit l) s = String.eqb l s.
Proof.
  revert s; induction l as [|c l IH]; intros s; simpl.
  - rewrite fullmatch_Empty. destruct s; reflexivity.
  - unfold lit_char. rewrite fullmatch_Seq_Class. destruct s as [|x s]; [reflexivity|].
    rewrite IH. destruct (Ascii.eqb c x); reflexivity.
Qed.

(** [c{n}] for a class [c]: [n] characters of the class. *)
Lemma fullmatch_rep_Class (p : ascii -> bool) (n : nat) (s : string) :
  fullmatch (rep n (Class p)) s = Nat.eqb (String.length s) n && Spec.all_chars p s.
Proof.
  revert s; induction n as [|n IH]; intros s; simpl.
  - rewrite fullmatch_Empty. destruct s; reflexivity.
  - rewrite fullmatch_Seq_Class. destruct s as [|c s]; [reflexivity|].
    simpl. rewrite IH. destruct (p c); simpl; [reflexivity|].
    now rewrite andb_false_r.
Qed.

(** *** Digit strings *)

Lemma is_digit_ord (c : ascii) :
  is_digit c = true <-> (48 <= ord c <= 57)%N.
Proof.
  unfold is_digit, in_range. change (ord "0") with 48%N. change (ord "9") with 57%N.
  rewrite andb_true_iff, !N.leb_le. tauto.
Qed.

Lemma digit_not_blank (c : ascii) : is_digit c = true -> is_blank c = false.
Proof.
  rewrite is_digit_ord. intros H. unfold is_blank.
  repeat match goal with
         | |- context [(?a <=? ?b)%N] => destruct (N.leb_spec a b)
         | |- context [(?a =? ?b)%N] => destruct (N.eqb_spec a b)
         end; simpl; try reflexivity; lia.
Qed.

Lemma digit_neq (c x : ascii) :
  is_digit c = true -> is_digit x = false -> Ascii.eqb c x = false.
Proof.
  intros Hc Hx. destruct (Ascii.eqb_spec c x); [congruence | reflexivity].
Qed.

Lemma all_digits_cons (c : ascii) (s : string) :
  Spec.all_digits (String c s) = is_digit c && Spec.all_digits s.
Proof. reflexivity. Qed.

Lemma replace_append (old : ascii) (new a b : string) :
  replace old new (a +:+ b) = replace old new a +:+ replace old new b.
Proof.
  induction a as [|c a IH]; simpl; [reflexivity|].
  rewrite IH. destruct (Ascii.eqb c old); [now rewrite append_assoc | reflexivity].
Qed.

Lemma replace_digits (old : ascii) (new s : string) :
  is_digit old = false -> Spec.all_digits s = true -> replace old new s = s.
Proof.
  intros Hold. induction s as [|c s IH]; simpl; [reflexivity|].
  rewrite all_digits_cons, andb_true_iff. intros [Hc Hs].
  now rewrite (digit_neq c old Hc Hold), IH.
Qed.

Lemma letters_to_numbers_append (a b : string) :
  TransferRequest.letters_to_numbers (a +:+ b)
  = TransferRequest.letters_to_numbers a +:+ TransferRequest.letters_to_numbers b.
Proof. unfold TransferRequest.letters_to_numbers. now rewrite !replace_append. Qed.

Lemma letters_to_numbers_digits (s : string) :
  Spec.all_digits s = true -> TransferRequest.letters_to_numbers s = s.
Proof.
  intros H. unfold TransferRequest.letters_to_numbers.
  repeat rewrite (replace_digits _ _ s) by (reflexivity || assumption).
  reflexivity.
Qed.

Lemma substitute_append (a b : string) :
  Spec.substitute (a +:+ b) = Spec.substitute a +:+ Spec.substitute b.
Proof.
  induction a as [|c a IH]; simpl; [reflexivity|].
  rewrite IH. destruct (Ascii.eqb c "E"); [reflexivity|].
  destruct (Ascii.eqb c "S"); reflexivity.
Qed.

Lemma substitute_digits (s : string) :
  Spec.all_digits s = true -> Spec.substitute s = s.
Proof.
  induction s as [|c s IH]; simpl; [reflexivity|].
  rewrite all_digits_cons, andb_true_iff. intros [Hc Hs].
  rewrite (digit_neq c "E" Hc eq_refl), (digit_neq c "S" Hc eq_refl).
  now rewrite IH.
Qed.

Lemma all_digits_append (a b : string) :
  Spec.all_digits (a +:+ b) = Spec.all_digits a && Spec.all_digits b.
Proof.
  induction a as [|c a IH]; simpl; [reflexivity|].
  now rewrite !all_digits_cons, IH, andb_assoc.
Qed.

Lemma rev_string_rev_string (s a b : string) :
  rev_string a (rev_string b s) = rev_string (s +:+ a) b.
Proof.
  revert a b; induction s as [|c s IH]; intros a b; simpl; [reflexivity|].
  now rewrite IH.
Qed.

Lemma all_digits_rev_string (s acc : string) :
  Spec.all_digits (rev_string acc s) = Spec.all_digits s && Spec.all_digits acc.
Proof.
  revert acc; induction s as [|c s IH]; intros acc; simpl; [reflexivity|].
  rewrite IH, !all_digits_cons.
  destruct (is_digit c), (Spec.all_digits s); reflexivity.
Qed.

Lemma lstrip_digits (s : string) : Spec.all_digits s = true -> lstrip s = s.
Proof.
  destruct s as [|c s]; simpl; [reflexivity|].
  rewrite all_digits_cons, andb_true_iff. intros [Hc _].
  now rewrite (digit_not_blank c Hc).
Qed.

Lemma strip_digits (s : string) : Spec.all_digits s = true -> strip s = s.
Proof.
  intros H. unfold strip, rstrip. rewrite (lstrip_digits s H).
  rewrite lstrip_digits by (rewrite all_digits_rev_string, H; reflexivity).
  now rewrite rev_string_rev_string, append_nil_r.
Qed.

Lemma signed_digit (c : ascii) (s : string) :
  is_digit c = true -> signed (String c s) = (false, String c s).
Proof.
  intros H. destruct (Ascii.eqb_spec c "-") as [->|Hm]; [discriminate|].
  destruct (Ascii.eqb_spec c "+") as [->|Hp]; [discriminate|].
  destruct c as [[] [] [] [] [] [] [] []]; try reflexivity; congruence.
Qed.

Lemma digitpart_digits (s : string) (acc : Z) (n : nat) :
  Spec.all_digits s = true ->
  digitpart acc n s = (Spec.decimal_from acc s, (n + String.length s)%nat, EmptyString).
Proof.
  revert acc n; induction s as [|c s IH]; intros acc n; simpl.
  - intros _. now rewrite Nat.add_0_r.
  - rewrite all_digits_cons, andb_true_iff. intros [Hc Hs].
    rewrite Hc, IH by exact Hs. now rewrite Nat.add_succ_r.
Qed.

(** [int] reads a non-empty string of digits as the number it denotes. *)
Lemma int_digits (c : ascii) (s : string) :
  Spec.all_digits (String c s) = true -> int (String c s) = Return (Spec.decimal (String c s)).
Proof.
  intros H. unfold int. rewrite (strip_digits _ H).
  assert (Hc : is_digit c = true).
  { rewrite all_digits_cons in H. now apply andb_true_iff in H. }
  rewrite (signed_digit c s Hc), (digitpart_digits _ 0 0 H). reflexivity.
Qed.

(** *** IBAN validation *)

Lemma iban_pattern_form (s : string) :
  fullmatch TransferRequest.iban_pattern s = Spec.iban_form s.
Proof.
  unfold TransferRequest.iban_pattern, Spec.iban_form. simpl lit. unfold lit_char.
  rewrite fullmatch_Seq_assoc, fullmatch_Seq_Class.
  destruct s as [|e s]; [reflexivity|].
  rewrite fullmatch_Seq_assoc, fullmatch_Seq_Class.
  destruct s as [|x s].
  - cbn [take drop String.eqb]. rewrite andb_false_r.
    now destruct (Ascii.eqb e "E").
  - unfold digit. rewrite fullmatch_Seq_Empty, fullmatch_rep_Class.
    cbn [take drop String.eqb]. rewrite (Ascii.eqb_sym e), (Ascii.eqb_sym x).
    destruct (Ascii.eqb "E" e), (Ascii.eqb "S" x); reflexivity.
Qed.

(** The shape of a string of the IBAN form: [ES], two check digits, twenty
    more digits. *)
Lemma iban_form_inv (iban : string) :
  Spec.iban_form iban = true ->
  exists c1 c2 bban,
    iban = String "E" (String "S" (String c1 (String c2 bban)))
    /\ is_digit c1 = true /\ is_digit c2 = true /\ Spec.all_digits bban = true.
Proof.
  unfold Spec.iban_form. rewrite !andb_true_iff. intros [[He Hl] Hd].
  destruct iban as [|e [|x rest]]; try discriminate.
  cbn [take drop] in He, Hl, Hd. apply String.eqb_eq in He. injection He as -> ->.
  destruct rest as [|c1 [|c2 bban]]; try discriminate.
  rewrite !all_digits_cons, !andb_true_iff in Hd. destruct Hd as (H1 & H2 & H3).
  exists c1, c2, bban. auto.
Qed.

Lemma validate_iban_refused (iban : string) :
  Spec.iban_form iban = false ->
  TransferRequest.validate_iban iban
  = Raise (AccountManagementException "Invalid IBAN format").
Proof.
  intros H. unfold TransferRequest.validate_iban, TransferRequest.check_regular.
  now rewrite iban_pattern_form, H.
Qed.

Lemma validate_iban_checked (iban : string) :
  Spec.iban_form iban = true ->
  TransferRequest.validate_iban iban
  = if Spec.declared_code iban
       =? 98 - Spec.decimal (Spec.numeric_transform iban) mod 97
    then Return (Spec.numeric_transform iban)
    else Raise (AccountManagementException "Invalid IBAN control digit").
Proof.
  intros H. unfold TransferRequest.validate_iban, TransferRequest.check_regular.
  rewrite iban_pattern_form, H. simpl negb. cbv iota.
  destruct (iban_form_inv iban H) as (c1 & c2 & bban & -> & H1 & H2 & Hb).
  unfold Spec.declared_code, Spec.numeric_transform. cbn [take drop slice Nat.sub].
  cbn [String.append].
  rewrite letters_to_numbers_append, substitute_append.
  rewrite (letters_to_numbers_digits bban Hb), (substitute_digits bban Hb).
  change (TransferRequest.letters_to_numbers "ES00") with "142800".
  change (Spec.substitute "ES00") with "142800".
  assert (Hn : int (bban +:+ "142800") = Return (Spec.decimal (bban +:+ "142800"))).
  { destruct bban as [|b bban]; [reflexivity|].
    apply (int_digits b (bban +:+ "142800")).
    change (String b (bban +:+ "142800")) with (String b bban +:+ "142800").
    rewrite all_digits_append, Hb. reflexivity. }
  rewrite Hn. cbn [bind].
  rewrite (int_digits c1 (String c2 "")) by (rewrite !all_digits_cons, H1, H2; reflexivity).
  cbn [bind]. destruct (_ =? _); reflexivity.
Qed.

(** C1. A string that is not [ES] followed by exactly 22 decimal digits is
    refused with the format error. For a string of that form, with [N] the
    number read from the string obtained by zeroing offsets 2-3, moving the
    first four characters to the end and substituting 14 for E and 28 for S,
    validation returns that numeric string when the declared check code
    equals [98 - N mod 97] and raises the control-digit error otherwise.
    Both classes carry the same function. [ES9121000418450200051332] is
    accepted with its numeric transform; [ES0021000418450200051332] fails
    with the control-digit error. *)
Theorem validate_iban_spec :
  (forall iban, Spec.iban_form iban = false ->
     TransferRequest.validate_iban iban
     = Raise (AccountManagementException "Invalid IBAN format"))
  /\ (forall iban, Spec.iban_form iban = true ->
        TransferRequest.validate_iban iban
        = if Spec.declared_code iban
             =? 98 - Spec.decimal (Spec.numeric_transform iban) mod 97
          then Return (Spec.numeric_transform iban)
          else Raise (AccountManagementException "Invalid IBAN control digit"))
  /\ (forall iban, GE4.validate_iban iban = TransferRequest.validate_iban iban)
  /\ TransferRequest.validate_iban "ES9121000418450200051332"
     = Return (Spec.numeric_transform "ES9121000418450200051332")
  /\ Spec.numeric_transform "ES9121000418450200051332" = "21000418450200051332142800"
  /\ TransferRequest.validate_iban "ES0021000418450200051332"
     = Raise (AccountManagementException "Invalid IBAN control digit").
Proof.
  split; [|split; [|split; [|split; [|split]]]].
  - exact validate_iban_refused.
  - exact validate_iban_checked.
  - reflexivity.
  - vm_compute. reflexivity.
  - vm_compute. reflexivity.
  - vm_compute. reflexivity.
Qed.

(** The theorem at the two IBANs of the specification. *)
Lemma validate_iban_spec_witness :
  TransferRequest.validate_iban "ES91210004184502000513"
  = Raise (AccountManagementException "Invalid IBAN format")
  /\ TransferRequest.validate_iban "ES9121000418450200051332"
     = Return "21000418450200051332142800".
Proof.
  split.
  - apply (proj1 validate_iban_spec). reflexivity.
  - rewrite (proj1 (proj2 validate_iban_spec)) by reflexivity. reflexivity.
Defined.

(** *** Transfer type *)

(** The specification's reading of C8 fails twice: a string that merely
    contains a literal is refused, and [IMMEDIATE], which the GE4 check
    accepts, is refused by [validate_transfer_type]. *)
Lemma transfer_type_substring_refused :
  "XORDINARY" = "X" +:+ "ORDINARY"
  /\ TransferRequest.validate_transfer_type "XORDINARY"
     = Raise (AccountManagementException "Invalid transfer type")
  /\ GE4.check_transfer_type "XORDINARY"
     = Raise (AccountManagementException "Invalid transfer type")
  /\ GE4.check_transfer_type "IMMEDIATE" = Return tt
  /\ TransferRequest.validate_transfer_type "IMMEDIATE"
     = Raise (AccountManagementException "Invalid transfer type").
Proof. repeat split; vm_compute; reflexivity. Qed.

(** C8, amended. [validate_transfer_type] accepts a string exactly when it
    is one of the three literals ORDINARY, INMEDIATE, URGENT, the whole
    string being matched; the check of the GE4 [transfer_request] accepts
    exactly ORDINARY, IMMEDIATE, URGENT. *)
Theorem transfer_type_exact (s : string) :
  TransferRequest.validate_transfer_type s
  = (if String.eqb "ORDINARY" s || (String.eqb "INMEDIATE" s || String.eqb "URGENT" s)
     then Return tt
     else Raise (AccountManagementException "Invalid transfer type"))
  /\ GE4.check_transfer_type s
     = (if String.eqb "ORDINARY" s || (String.eqb "IMMEDIATE" s || String.eqb "URGENT" s)
        then Return tt
        else Raise (AccountManagementException "Invalid transfer type")).
Proof.
  unfold TransferRequest.validate_transfer_type, TransferRequest.check_regular,
    TransferRequest.transfer_type_pattern, GE4.check_transfer_type, GE4.check_regex,
    GE4.transfer_type_pattern.
  rewrite !fullmatch_Or, !fullmatch_lit.
  split.
  - destruct (String.eqb "ORDINARY" s || (String.eqb "INMEDIATE" s || String.eqb "URGENT" s));
      reflexivity.
  - destruct (String.eqb "ORDINARY" s || (String.eqb "IMMEDIATE" s || String.eqb "URGENT" s));
      reflexivity.
Qed.

(** *** The unbound [validate_iban] of [AccountManager] *)

(** C10. [AccountManager] binds no [validate_iban]: a deposit whose input
    file holds an object with both keys, and every balance request, raise
    [AttributeError] and leave the disk as it was. *)
Theorem unbound_validate_iban (cfg : config) (deposit : AccountDeposit)
        (clk : clock) (d : disk) :
  (forall input_file items iban amount,
      load d input_file = Loaded (JObj items) ->
      assoc "IBAN" items = Some iban ->
      assoc "AMOUNT" items = Some amount ->
      AccountManager.deposit_into_account cfg deposit input_file clk d
      = (Raise AttributeError, d))
  /\ (forall iban,
         AccountManager.calculate_balance cfg iban clk d = (Raise AttributeError, d))
  /\ (forall message, AttributeError <> AccountManagementException message).
Proof.
  split; [|split].
  - intros input_file items iban amount Hl Hi Ha.
    unfold AccountManager.deposit_into_account. rewrite Hl. cbn [bind getitem].
    rewrite Hi, Ha. reflexivity.
  - intros iban. reflexivity.
  - intros message. discriminate.
Qed.

Lemma unbound_validate_iban_witness :
  AccountManager.deposit_into_account Sample.cfg Sample.deposit "input.json" Sample.clk
    (Sample.disk_with "input.json" (Sample.deposit_input "EUR 0100.00"))
  = (Raise AttributeError,
     Sample.disk_with "input.json" (Sample.deposit_input "EUR 0100.00")).
Proof.
  apply (proj1 (unbound_validate_iban Sample.cfg Sample.deposit Sample.clk _))
    with (items := [("IBAN", JStr Sample.iban); ("AMOUNT", JStr "EUR 0100.00")])
         (iban := JStr Sample.iban) (amount := JStr "EUR 0100.00");
    reflexivity.
Defined.

(** *** Construction of a transfer request *)

Lemma store_failure_keeps_disk (self : TransferRequest.t) (d d' : disk) (e : exn) :
  TransferRequest.store_transfer_request self d = (Raise e, d') -> d' = d.
Proof.
  unfold TransferRequest.store_transfer_request.
  destruct (_ <- _ ;; _) as [t_l|e0]; [|congruence].
  destruct (dump d _ t_l); congruence.
Qed.

(** C5. The constructor runs the validators in the order IBAN (from),
    IBAN (to), concept, type, date, amount: the first of them to fail gives
    the error of the construction, and when none fails the outcome is that
    of storing the request. On every failure, of a validator or of the
    store step (duplicate included), the disk is left as it was. *)
Theorem init_order_and_atomicity
        (from_iban transfer_type to_iban transfer_concept transfer_date : string)
        (transfer_amount : json) (transfer_store_file : string)
        (clk : clock) (d : disk) :
  let outcome :=
    TransferRequest.__init__ from_iban transfer_type to_iban transfer_concept
      transfer_date transfer_amount transfer_store_file clk d in
  let checks :=
    [ Spec.failure (TransferRequest.validate_iban from_iban);
      Spec.failure (TransferRequest.validate_iban to_iban);
      Spec.failure (TransferRequest.validate_concept transfer_concept);
      Spec.failure (TransferRequest.validate_transfer_type transfer_type);
      Spec.failure (TransferRequest.validate_transfer_date clk (code_points transfer_date));
      Spec.failure (TransferRequest.validate_amount transfer_amount) ] in
  (forall e, Spec.first_failure checks = Some e -> outcome = (Raise e, d))
  /\ (Spec.first_failure checks = None ->
      let self :=
        {| TransferRequest.transfer_store_file := transfer_store_file;
           TransferRequest.from_iban := from_iban;
           TransferRequest.to_iban := to_iban;
           TransferRequest.transfer_type := transfer_type;
           TransferRequest.transfer_concept := transfer_concept;
           TransferRequest.transfer_date := transfer_date;
           TransferRequest.transfer_amount := transfer_amount;
           TransferRequest.time_stamp := timestamp clk |} in
      outcome = match TransferRequest.store_transfer_request self d with
                | (Return _, d') => (Return self, d')
                | (Raise e, d') => (Raise e, d')
                end)
  /\ (forall e d', outcome = (Raise e, d') -> d' = d).
Proof.
  cbv zeta. unfold TransferRequest.__init__.
  destruct (TransferRequest.validate_iban from_iban) as [?|e1];
    [|cbn; repeat split; congruence].
  destruct (TransferRequest.validate_iban to_iban) as [?|e2];
    [|cbn; repeat split; congruence].
  destruct (TransferRequest.validate_concept transfer_concept) as [?|e3];
    [|cbn; repeat split; congruence].
  destruct (TransferRequest.validate_transfer_type transfer_type) as [?|e4];
    [|cbn; repeat split; congruence].
  destruct (TransferRequest.validate_transfer_date clk (code_points transfer_date)) as [?|e5];
    [|cbn; repeat split; congruence].
  destruct (TransferRequest.validate_amount transfer_amount) as [?|e6];
    [|cbn; repeat split; congruence].
  cbn. split; [congruence|]. split.
  - intros _. reflexivity.
  - intros e d'.
    destruct (TransferRequest.store_transfer_request _ d) as [[?|e0] d0] eqn:Hs;
      [congruence|].
    intros H. injection H as -> ->. exact (store_failure_keeps_disk _ _ _ _ Hs).
Qed.

(** A concept of one word stops the construction after both IBANs passed. *)
Lemma init_order_and_atomicity_witness :
  TransferRequest.__init__ Sample.iban "ORDINARY" Sample.iban "short"
    "01/01/2030" (JFloat (Sample.literal "100.5")) "transfers.json"
    Sample.clk Sample.empty_disk
  = (Raise (AccountManagementException "Invalid concept format"), Sample.empty_disk).
Proof.
  apply (proj1 (init_order_and_atomicity Sample.iban "ORDINARY" Sample.iban "short"
                  "01/01/2030" (JFloat (Sample.literal "100.5")) "transfers.json"
                  Sample.clk Sample.empty_disk)).
  vm_compute. reflexivity.
Defined.

(** *** The transfer code *)

(** C2 as stated fails: the same six field values give three different
    codes when the instant of construction or the path of the store
    changes. *)
Lemma transfer_code_varies :
  let amount := JFloat (Sample.literal "100.5") in
  let code outcome :=
    match fst outcome with
    | Return self => TransferRequest.transfer_code self
    | Raise _ => EmptyString
    end in
  code (Sample.request amount "transfers.json" Sample.clk Sample.empty_disk)
  = "48c077ed1cc37c5d1ded66fd477270c8"
  /\ code (Sample.request amount "transfers.json" Sample.clk' Sample.empty_disk)
     = "7469794f5b6533dc1f78b2fce227ba78"
  /\ code (Sample.request amount "other.json" Sample.clk Sample.empty_disk)
     = "29080ccd27b7866b5fbc66879eae40ba"
  /\ code (Sample.request amount "transfers.json" Sample.clk Sample.empty_disk)
     <> code (Sample.request amount "transfers.json" Sample.clk' Sample.empty_disk)
  /\ code (Sample.request amount "transfers.json" Sample.clk Sample.empty_disk)
     <> code (Sample.request amount "other.json" Sample.clk Sample.empty_disk).
Proof.
  cbv zeta. split; [|split; [|split; [|split]]]; vm_compute;
    try reflexivity; discriminate.
Qed.

(** C2, amended. The code of a constructed request is the MD5 digest of
    ["Transfer:"] followed by the JSON text of all eight attributes of the
    instance: the path of the store, the six fields given, and the time
    stamp read from the clock at construction. *)
Theorem transfer_code_of_attributes
        (from_iban transfer_type to_iban transfer_concept transfer_date : string)
        (transfer_amount : json) (transfer_store_file : string)
        (clk : clock) (d d' : disk) (self : TransferRequest.t) :
  TransferRequest.__init__ from_iban transfer_type to_iban transfer_concept
    transfer_date transfer_amount transfer_store_file clk d = (Return self, d') ->
  TransferRequest.transfer_code self
  = MD5.hexdigest (encode ("Transfer:" +:+ dumps (JObj
      [ ("_TransferRequest__transfer_store_file", JStr transfer_store_file);
        ("_TransferRequest__from_iban", JStr from_iban);
        ("_TransferRequest__to_iban", JStr to_iban);
        ("_TransferRequest__transfer_type", JStr transfer_type);
        ("_TransferRequest__concept", JStr transfer_concept);
        ("_TransferRequest__transfer_date", JStr transfer_date);
        ("_TransferRequest__transfer_amount", transfer_amount);
        ("_TransferRequest__time_stamp", JFloat (timestamp clk)) ]))).
Proof.
  unfold TransferRequest.__init__.
  destruct (_ ;;; _) as [?|?]; [|congruence].
  destruct (TransferRequest.store_transfer_request _ d) as [[?|?] ?]; [|congruence].
  intros H. injection H as <- _. reflexivity.
Qed.

Lemma transfer_code_of_attributes_witness :
  TransferRequest.transfer_code
    {| TransferRequest.transfer_store_file := "transfers.json";
       TransferRequest.from_iban := Sample.iban;
       TransferRequest.to_iban := Sample.iban;
       TransferRequest.transfer_type := "ORDINARY";
       TransferRequest.transfer_concept := "Testing duplicates";
       TransferRequest.transfer_date := "01/01/2030";
       TransferRequest.transfer_amount := JFloat (Sample.literal "100.5");
       TransferRequest.time_stamp := timestamp Sample.clk |}
  = MD5.hexdigest (encode ("Transfer:" +:+ dumps (JObj
      [ ("_TransferRequest__transfer_store_file", JStr "transfers.json");
        ("_TransferRequest__from_iban", JStr Sample.iban);
        ("_TransferRequest__to_iban", JStr Sample.iban);
        ("_TransferRequest__transfer_type", JStr "ORDINARY");
        ("_TransferRequest__concept", JStr "Testing duplicates");
        ("_TransferRequest__transfer_date", JStr "01/01/2030");
        ("_TransferRequest__transfer_amount", JFloat (Sample.literal "100.5"));
        ("_TransferRequest__time_stamp", JFloat (timestamp Sample.clk)) ]))).
Proof.
  apply (transfer_code_of_attributes Sample.iban "ORDINARY" Sample.iban
           "Testing duplicates" "01/01/2030" (JFloat (Sample.literal "100.5"))
           "transfers.json" Sample.clk Sample.empty_disk
           (snd (Sample.request (JFloat (Sample.literal "100.5")) "transfers.json"
                   Sample.clk Sample.empty_disk))).
  vm_compute. reflexivity.
Defined.

(** *** Balances *)

(** The string [validate_iban] returns is never the IBAN it was given. *)
Lemma numeric_transform_differs (iban n : string) :
  GE4.validate_iban iban = Return n -> n <> iban.
Proof.
  change (GE4.validate_iban iban) with (TransferRequest.validate_iban iban).
  destruct (Spec.iban_form iban) eqn:Hf.
  - rewrite (validate_iban_checked iban Hf).
    destruct (iban_form_inv iban Hf) as (c1 & c2 & bban & -> & H1 & H2 & Hb).
    destruct (_ =? _); [|discriminate]. intros H. injection H as <-.
    unfold Spec.numeric_transform. cbn [take drop String.append].
    rewrite substitute_append, (substitute_digits bban Hb).
    destruct bban as [|b bban]; [discriminate|].
    rewrite all_digits_cons in Hb. apply andb_true_iff in Hb as [Hd _].
    intros E. injection E as -> _. discriminate.
  - rewrite (validate_iban_refused iban Hf). discriminate.
Qed.

(** The entries of a log that carry a given IBAN, with arbitrary amounts. *)
Lemma sum_matching_skips (iban n : string) (amounts : list json)
      (bal_s : float) (iban_found : bool) :
  n <> iban ->
  AccountManager.sum_matching n
    (map (fun a => JObj [("IBAN", JStr iban); ("amount", a)]) amounts) bal_s iban_found
  = Return (bal_s, iban_found).
Proof.
  intros Hn. induction amounts as [|a amounts IH]; [reflexivity|].
  cbn [map AccountManager.sum_matching getitem assoc String.eqb Ascii.eqb Bool.eqb bind].
  cbn [py_eq as_number]. rewrite (proj2 (String.eqb_neq iban n)) by congruence.
  exact IH.
Qed.

(** In the GE4 version a log made of entries for the IBAN asked about,
    however many, is reported as not holding it. *)
Lemma GE4_balance_of_own_entries (cfg : config) (clk : clock) (d : disk)
      (iban n : string) (amounts : list json) :
  GE4.validate_iban iban = Return n ->
  load d (TRANSACTIONS_STORE_FILE cfg)
  = Loaded (JArr (map (fun a => JObj [("IBAN", JStr iban); ("amount", a)]) amounts)) ->
  GE4.calculate_balance cfg iban clk d
  = (Raise (AccountManagementException "IBAN not found"), d).
Proof.
  intros Hv Hl. unfold GE4.calculate_balance. rewrite Hv.
  unfold AccountManager.balance_of, AccountManager.read_transactions_file.
  rewrite Hl. cbn [bind iterate].
  rewrite (sum_matching_skips iban n amounts _ _ (numeric_transform_differs _ _ Hv)).
  reflexivity.
Qed.

(** C3 at the log of the specification, two entries of 100.0 and -30.0 for
    one IBAN. The GE4 version compares the entries with the numeric string
    [validate_iban] returns and reports the IBAN as not found; the other
    version fails on the unbound [validate_iban]; neither writes a
    snapshot. Run on the IBAN itself, the rest of the method appends the
    snapshot with BALANCE 70.0 that the specification describes. *)
Theorem calculate_balance_example :
  let d := Sample.disk_with "transactions.json" Sample.transactions in
  GE4.calculate_balance Sample.cfg Sample.iban Sample.clk d
  = (Raise (AccountManagementException "IBAN not found"), d)
  /\ AccountManager.calculate_balance Sample.cfg Sample.iban Sample.clk d
     = (Raise AttributeError, d)
  /\ fst (AccountManager.balance_of Sample.cfg Sample.iban Sample.clk d) = Return true
  /\ load (snd (AccountManager.balance_of Sample.cfg Sample.iban Sample.clk d))
          "balances.json"
     = Loaded (JArr [JObj [ ("IBAN", JStr Sample.iban);
                            ("time", JFloat (timestamp Sample.clk));
                            ("BALANCE", JFloat (Sample.literal "70.0")) ]]).
Proof.
  cbv zeta. split; [|split; [|split]].
  - apply (GE4_balance_of_own_entries Sample.cfg Sample.clk _ Sample.iban
             "21000418450200051332142800" [JStr "100.0"; JStr "-30.0"]).
    + vm_compute. reflexivity.
    + reflexivity.
  - reflexivity.
  - vm_compute. reflexivity.
  - vm_compute. reflexivity.
Qed.

(** *** Deposits *)

(** C9 at an amount that lacks the [EUR dddd.dd] form, and at the zero
    amount of the specification. The GE4 version tests a pair, which is
    always true, in place of the match: it accepts [EUR 12.5] and stores the
    deposit. The other version raises [AttributeError] on both inputs
    before it looks at the amount. *)
Theorem deposit_amount_example (deposit : AccountDeposit) :
  let malformed := Sample.disk_with "input.json" (Sample.deposit_input "EUR 12.5") in
  let zero := Sample.disk_with "input.json" (Sample.deposit_input "EUR 0000.00") in
  fullmatch AccountManager.deposit_amount_pattern "EUR 12.5" = false
  /\ fst (GE4.deposit_into_account Sample.cfg deposit "input.json" Sample.clk malformed)
     = Return (deposit_signature deposit "21000418450200051332142800"
                 (Sample.literal "12.5") Sample.clk)
  /\ load (snd (GE4.deposit_into_account Sample.cfg deposit "input.json" Sample.clk
                  malformed)) "deposits.json"
     = Loaded (JArr [deposit_to_json deposit "21000418450200051332142800"
                       (Sample.literal "12.5") Sample.clk])
  /\ AccountManager.deposit_into_account Sample.cfg deposit "input.json" Sample.clk
       malformed = (Raise AttributeError, malformed)
  /\ AccountManager.deposit_into_account Sample.cfg deposit "input.json" Sample.clk
       zero = (Raise AttributeError, zero)
  /\ GE4.deposit_into_account Sample.cfg deposit "input.json" Sample.clk zero
     = (Raise (AccountManagementException "Error - Deposit must be greater than 0"), zero).
Proof.
  cbv zeta. split; [|split; [|split; [|split; [|split]]]];
    vm_compute; reflexivity.
Qed.

(** *** Amounts *)

(** The boundary amounts of the specification, in both versions. *)
Lemma validate_amount_boundaries :
  let refused := Raise (AccountManagementException "Invalid transfer amount") in
  let amount s := JFloat (Sample.literal s) in
  map TransferRequest.validate_amount
      [amount "9.99"; amount "10.00"; amount "10000.00"; amount "10000.01"; amount "10.005"]
  = [refused; Return tt; Return tt; refused; refused]
  /\ map GE4.check_amount
         [amount "9.99"; amount "10.00"; amount "10000.00"; amount "10000.01"; amount "10.005"]
     = [refused; Return tt; Return tt; refused; refused].
Proof. cbv zeta. split; vm_compute; reflexivity. Qed.

(** C6 at the float [nan]. Both comparisons with the bounds are false and
    its text has no point, so the validator of either version accepts it,
    as it accepts the string [nan], though the value is no decimal between
    10.00 and 10000.00. *)
Theorem validate_amount_nan :
  TransferRequest.validate_amount (JFloat nan) = Return tt
  /\ TransferRequest.validate_amount (JStr "nan") = Return tt
  /\ GE4.check_amount (JFloat nan) = Return tt
  /\ float_lt nan (float_of_int 10) = false
  /\ float_gt nan (float_of_int 10000) = false
  /\ repr nan = "nan".
Proof. repeat split. Qed.

(** *** Duplicates *)

(** The six fields the duplicate test compares. *)
Lemma is_duplicate_transfer_fields (a b : TransferRequest.t) (t_i : json) :
  TransferRequest.from_iban a = TransferRequest.from_iban b ->
  TransferRequest.to_iban a = TransferRequest.to_iban b ->
  TransferRequest.transfer_date a = TransferRequest.transfer_date b ->
  TransferRequest.transfer_amount a = TransferRequest.transfer_amount b ->
  TransferRequest.transfer_concept a = TransferRequest.transfer_concept b ->
  TransferRequest.transfer_type a = TransferRequest.transfer_type b ->
  TransferRequest.is_duplicate_transfer a t_i = TransferRequest.is_duplicate_transfer b t_i.
Proof.
  intros H1 H2 H3 H4 H5 H6. unfold TransferRequest.is_duplicate_transfer.
  now rewrite H1, H2, H3, H4, H5, H6.
Qed.

Lemma py_eq_str (s : string) : py_eq (JStr s) (JStr s) = true.
Proof. cbn. apply String.eqb_refl. Qed.

(** A request meets its own record as a duplicate, provided its amount
    equals itself. *)
Lemma is_duplicate_of_own_record (a b : TransferRequest.t) :
  TransferRequest.from_iban a = TransferRequest.from_iban b ->
  TransferRequest.to_iban a = TransferRequest.to_iban b ->
  TransferRequest.transfer_date a = TransferRequest.transfer_date b ->
  TransferRequest.transfer_amount a = TransferRequest.transfer_amount b ->
  TransferRequest.transfer_concept a = TransferRequest.transfer_concept b ->
  TransferRequest.transfer_type a = TransferRequest.transfer_type b ->
  py_eq (TransferRequest.transfer_amount a) (TransferRequest.transfer_amount a) = true ->
  TransferRequest.is_duplicate_transfer b (TransferRequest.to_json a)
  = Raise (AccountManagementException "Duplicated transfer in transfer list").
Proof.
  intros H1 H2 H3 H4 H5 H6 Ha.
  rewrite <- (is_duplicate_transfer_fields a b _ H1 H2 H3 H4 H5 H6).
  unfold TransferRequest.is_duplicate_transfer, TransferRequest.to_json.
  cbn [getitem assoc String.eqb Ascii.eqb Bool.eqb bind].
  rewrite !py_eq_str, Ha. reflexivity.
Qed.

Lemma for_each_app (body : json -> result unit) (l1 l2 : list json) :
  TransferRequest.for_each body (l1 ++ l2)
  = (TransferRequest.for_each body l1 ;;; TransferRequest.for_each body l2).
Proof.
  induction l1 as [|x l1 IH]; cbn [TransferRequest.for_each app bind]; [reflexivity|].
  destruct (body x); cbn [bind]; [exact IH | reflexivity].
Qed.

Lemma for_each_ext (f g : json -> result unit) (l : list json) :
  (forall x, f x = g x) -> TransferRequest.for_each f l = TransferRequest.for_each g l.
Proof.
  intros H. induction l as [|x l IH]; cbn [TransferRequest.for_each]; [reflexivity|].
  now rewrite H, IH.
Qed.

(** What a successful store step did: the file held a list (or was
    missing), no record of it was a duplicate, and the file now holds the
    list with the new record at its end. *)
Lemma store_success_inv (self : TransferRequest.t) (d d' : disk) :
  TransferRequest.store_transfer_request self d = (Return tt, d') ->
  exists l,
    (load d (TransferRequest.transfer_store_file self) = Loaded (JArr l)
     \/ load d (TransferRequest.transfer_store_file self) = FileNotFound /\ l = [])
    /\ TransferRequest.for_each (TransferRequest.is_duplicate_transfer self) l = Return tt
    /\ files d' = <[TransferRequest.transfer_store_file self
                    := Document (JArr (l ++ [TransferRequest.to_json self]))]> (files d).
Proof.
  unfold TransferRequest.store_transfer_request.
  destruct (load d _) as [| |t_l] eqn:Hl; cbn [bind]; [|congruence|].
  - cbn [iterate bind TransferRequest.for_each append].
    unfold dump. destruct (decide _); [congruence|].
    intros H. injection H as <-. exists []. cbn [files]. auto.
  - destruct (iterate t_l) as [items|?] eqn:Hi; cbn [bind]; [|congruence].
    destruct (TransferRequest.for_each _ items) as [[]|?] eqn:Hf; cbn [bind]; [|congruence].
    destruct t_l as [| | | | |l|]; cbn [append]; try congruence.
    cbn in Hi. injection Hi as <-.
    unfold dump. destruct (decide _); [congruence|].
    intros H. injection H as <-. exists l. cbn [files]. auto.
Qed.

Lemma load_after_store (p : string) (content : json) (d d' : disk) :
  files d' = <[p := Document content]> (files d) -> load d' p = Loaded content.
Proof. intros H. unfold load. now rewrite H, lookup_insert_eq. Qed.

(** Submitting the fields of a stored request again, at any instant at
    which they still pass validation, is refused as a duplicate and leaves
    the disk as it is, provided the amount is equal to itself. *)
Lemma resubmission_refused
      (from_iban transfer_type to_iban transfer_concept transfer_date : string)
      (transfer_amount : json) (transfer_store_file : string)
      (clk clk' : clock) (d d1 : disk) (self : TransferRequest.t) :
  TransferRequest.__init__ from_iban transfer_type to_iban transfer_concept
    transfer_date transfer_amount transfer_store_file clk d = (Return self, d1) ->
  py_eq transfer_amount transfer_amount = true ->
  raised (TransferRequest.validate_transfer_date clk' (code_points transfer_date)) = false ->
  TransferRequest.__init__ from_iban transfer_type to_iban transfer_concept
    transfer_date transfer_amount transfer_store_file clk' d1
  = (Raise (AccountManagementException "Duplicated transfer in transfer list"), d1).
Proof.
  unfold TransferRequest.__init__. intros H Ha Hd.
  destruct (TransferRequest.validate_iban from_iban) as [?|?]; [|discriminate H].
  destruct (TransferRequest.validate_iban to_iban) as [?|?]; [|discriminate H].
  destruct (TransferRequest.validate_concept transfer_concept) as [?|?]; [|discriminate H].
  destruct (TransferRequest.validate_transfer_type transfer_type) as [?|?]; [|discriminate H].
  destruct (TransferRequest.validate_transfer_date clk' (code_points transfer_date)) as [?|?];
    [|discriminate Hd].
  destruct (TransferRequest.validate_transfer_date clk (code_points transfer_date)) as [?|?];
    [|discriminate H].
  destruct (TransferRequest.validate_amount transfer_amount) as [?|?]; [|discriminate H].
  cbn [bind] in H |- *.
  destruct (TransferRequest.store_transfer_request _ d) as [[[]|?] d0] eqn:Hs;
    [|discriminate H].
  injection H as <- <-.
  apply store_success_inv in Hs as (l & _ & Hf & Hl).
  apply load_after_store in Hl. cbn [TransferRequest.transfer_store_file] in Hl.
  unfold TransferRequest.store_transfer_request. cbn [TransferRequest.transfer_store_file].
  rewrite Hl. cbn [bind iterate]. rewrite for_each_app.
  rewrite (for_each_ext _ (TransferRequest.is_duplicate_transfer
    {| TransferRequest.transfer_store_file := transfer_store_file;
       TransferRequest.from_iban := from_iban;
       TransferRequest.to_iban := to_iban;
       TransferRequest.transfer_type := transfer_type;
       TransferRequest.transfer_concept := transfer_concept;
       TransferRequest.transfer_date := transfer_date;
       TransferRequest.transfer_amount := transfer_amount;
       TransferRequest.time_stamp := timestamp clk |}) l)
    by (intros x; now apply is_duplicate_transfer_fields).
  rewrite Hf. cbn [bind TransferRequest.for_each].
  rewrite is_duplicate_of_own_record by (reflexivity || exact Ha).
  reflexivity.
Qed.

Lemma init_failure_keeps_disk
      (from_iban transfer_type to_iban transfer_concept transfer_date : string)
      (transfer_amount : json) (transfer_store_file : string)
      (clk : clock) (d d' : disk) (e : exn) :
  TransferRequest.__init__ from_iban transfer_type to_iban transfer_concept
    transfer_date transfer_amount transfer_store_file clk d = (Raise e, d') ->
  d' = d.
Proof.
  unfold TransferRequest.__init__.
  destruct (_ ;;; _) as [?|?]; [|congruence].
  destruct (TransferRequest.store_transfer_request _ d) as [[?|e0] d0] eqn:Hs;
    [congruence|].
  intros H. injection H as -> ->. exact (store_failure_keeps_disk _ _ _ _ Hs).
Qed.

Lemma init_success_inv
      (from_iban transfer_type to_iban transfer_concept transfer_date : string)
      (transfer_amount : json) (transfer_store_file : string)
      (clk : clock) (d d' : disk) (self : TransferRequest.t) :
  TransferRequest.__init__ from_iban transfer_type to_iban transfer_concept
    transfer_date transfer_amount transfer_store_file clk d = (Return self, d') ->
  TransferRequest.transfer_store_file self = transfer_store_file
  /\ TransferRequest.transfer_amount self = transfer_amount
  /\ TransferRequest.store_transfer_request self d = (Return tt, d').
Proof.
  unfold TransferRequest.__init__.
  destruct (_ ;;; _) as [?|?]; [|congruence].
  destruct (TransferRequest.store_transfer_request _ d) as [[[]|?] d0] eqn:Hs;
    [|congruence].
  intros H. injection H as <- <-. auto.
Qed.

Lemma for_each_In (body : json -> result unit) (l : list json) (x : json) :
  TransferRequest.for_each body l = Return tt -> In x l -> body x = Return tt.
Proof.
  induction l as [|y l IH]; cbn [TransferRequest.for_each In]; [tauto|].
  destruct (body y) as [[]|?] eqn:Hy; cbn [bind]; [|discriminate].
  intros Hf [->|Hx]; auto.
Qed.

(** A record with the six fields of a request is reported as its
    duplicate, provided the amount equals itself. *)
Lemma same_fields_duplicate (self : TransferRequest.t) (t_i : json) :
  py_eq (TransferRequest.transfer_amount self) (TransferRequest.transfer_amount self) = true ->
  Spec.record_fields t_i = Spec.record_fields (TransferRequest.to_json self) ->
  TransferRequest.is_duplicate_transfer self t_i
  = Raise (AccountManagementException "Duplicated transfer in transfer list").
Proof.
  intros Ha H. unfold Spec.record_fields, Spec.duplicate_keys in H.
  cbn [map] in H. injection H as H1 H2 H3 H4 H5 H6.
  unfold TransferRequest.is_duplicate_transfer.
  rewrite H1, H2, H3, H4, H5, H6. unfold TransferRequest.to_json.
  cbn [getitem assoc String.eqb Ascii.eqb Bool.eqb bind].
  rewrite !py_eq_str, Ha. reflexivity.
Qed.

Lemma NoDup_snoc {A : Type} (l : list A) (x : A) :
  NoDup l -> ~ In x l -> NoDup (l ++ [x]).
Proof.
  induction 1 as [|y l Hy Hl IH]; cbn [app]; intros Hx.
  - constructor; [tauto | constructor].
  - constructor.
    + rewrite in_app_iff. cbn [In]. intros [H | [H | []]]; [tauto|].
      subst y. apply Hx. now left.
    + apply IH. intros H. apply Hx. now right.
Qed.

(** Every reachable state keeps the records of the store pairwise distinct
    on the six fields. *)
Lemma reachable_distinct (store : string) (d : disk) :
  Spec.reachable store d ->
  forall items, load d store = Loaded (JArr items) ->
                NoDup (map Spec.record_fields items).
Proof.
  induction 1 as [d [Hd | Hd] | d d' fi ty ti co da am p clk outcome Hr IH Ha Hi].
  - intros items H. congruence.
  - intros items H. rewrite Hd in H. injection H as <-. constructor.
  - destruct outcome as [self|e].
    2:{ now rewrite (init_failure_keeps_disk _ _ _ _ _ _ _ _ _ _ _ Hi). }
    apply init_success_inv in Hi as (Hp & Hm & Hs).
    apply store_success_inv in Hs as (l & Hl & Hf & Hd'). rewrite Hp in Hl, Hd'.
    intros items Hitems. destruct (decide (p = store)) as [->|Hne].
    + rewrite (load_after_store _ _ _ _ Hd') in Hitems. injection Hitems as <-.
      rewrite map_app. cbn [map]. apply NoDup_snoc.
      * destruct Hl as [Hl | [_ ->]]; [exact (IH l Hl) | constructor].
      * intros Hin. apply in_map_iff in Hin as (t_i & Ht & Hin).
        pose proof (for_each_In _ _ _ Hf Hin) as Hok.
        rewrite (same_fields_duplicate self t_i) in Hok; [discriminate | | exact Ht].
        now rewrite Hm.
    + apply IH. unfold load in *. rewrite Hd', lookup_insert_ne in Hitems by exact Hne.
      exact Hitems.
Qed.

(** In every state reachable from a missing or empty store by
    constructions whose amount equals itself, no two records of the store
    share the six fields; and submitting again the values of a request
    that was stored, at an instant at which its date still passes
    validation, is refused as a duplicate and leaves the disk as it is. *)
Lemma duplicate_rejection (store : string) :
  (forall d items,
      Spec.reachable store d -> load d store = Loaded (JArr items) ->
      NoDup (map Spec.record_fields items))
  /\ (forall from_iban transfer_type to_iban transfer_concept transfer_date
             transfer_amount clk clk' d d1 self,
         TransferRequest.__init__ from_iban transfer_type to_iban transfer_concept
           transfer_date transfer_amount store clk d = (Return self, d1) ->
         py_eq transfer_amount transfer_amount = true ->
         raised (TransferRequest.validate_transfer_date clk' (code_points transfer_date)) = false ->
         TransferRequest.__init__ from_iban transfer_type to_iban transfer_concept
           transfer_date transfer_amount store clk' d1
         = (Raise (AccountManagementException "Duplicated transfer in transfer list"), d1)).
Proof.
  split.
  - intros d items Hr. now apply reachable_distinct.
  - intros. eapply resubmission_refused; eassumption.
Qed.

(** The sample request, sent twice a second apart. *)
Lemma duplicate_rejection_example :
  let amount := JFloat (Sample.literal "100.5") in
  let first := Sample.request amount "transfers.json" Sample.clk Sample.empty_disk in
  raised (fst first) = false
  /\ Sample.request amount "transfers.json" Sample.clk' (snd first)
     = (Raise (AccountManagementException "Duplicated transfer in transfer list"),
        snd first)
  /\ forall items, load (snd first) "transfers.json" = Loaded (JArr items) ->
                   NoDup (map Spec.record_fields items).
Proof.
  cbv zeta. split; [vm_compute; reflexivity|].
  destruct (Sample.request _ _ Sample.clk _) as [[self|e] d1] eqn:H.
  - split.
    + exact (proj2 (duplicate_rejection "transfers.json") _ _ _ _ _ _
               Sample.clk Sample.clk' _ _ _ H eq_refl eq_refl).
    + intros items. apply (proj1 (duplicate_rejection "transfers.json")).
      eapply Spec.reachable_construct; [ | | exact H];
        [apply Spec.reachable_fresh; left; reflexivity | reflexivity].
  - vm_compute in H. discriminate H.
Qed.

(** Validation comes before the scan for duplicates: values accepted for
    3 November 2026 and sent again the day after are refused for their
    date. *)
Lemma late_resubmission_refused_for_date :
  let submit c d :=
    TransferRequest.__init__ Sample.iban "ORDINARY" Sample.iban "Testing duplicates"
      "03/11/2026" (JFloat (Sample.literal "100.5")) "transfers.json" c d in
  let first := submit Sample.clk Sample.empty_disk in
  raised (fst first) = false
  /\ submit Sample.next_day (snd first)
     = (Raise (AccountManagementException "Transfer date must be today or later."),
        snd first).
Proof. cbv zeta. split; vm_compute; reflexivity. Qed.

(** C4 at a request whose amount is the float [nan]. The amount passes
    validation, and in the duplicate test [nan == nan] is false: the same
    six values are accepted twice from an empty disk, and the store ends
    with two records that agree on all six fields. *)
Theorem nan_request_stored_twice :
  let first := Sample.request (JFloat nan) "transfers.json" Sample.clk Sample.empty_disk in
  let second := Sample.request (JFloat nan) "transfers.json" Sample.clk' (snd first) in
  raised (fst first) = false
  /\ raised (fst second) = false
  /\ py_eq (JFloat nan) (JFloat nan) = false
  /\ exists r1 r2,
       load (snd second) "transfers.json" = Loaded (JArr [r1; r2])
       /\ Spec.record_fields r1 = Spec.record_fields r2.
Proof.
  cbv zeta. split; [|split; [|split]]; try (vm_compute; reflexivity).
  eexists. eexists. split; vm_compute; reflexivity.
Qed.

(** *** Dates *)

Lemma digit_value_char (c : ascii) :
  is_digit c = true -> 0 <= digit_value c <= 9 /\ digit_char (digit_value c) = c.
Proof.
  intros H. apply is_digit_ord in H. unfold digit_value, digit_char, chr, ord in *.
  split; [lia|].
  replace (Z.to_N (Z.of_N (N_of_ascii c) - 48 + 48)) with (N_of_ascii c) by lia.
  apply ascii_N_embedding.
Qed.

Lemma days_in_month_bound (y m : Z) : 28 <= days_in_month y m <= 31.
Proof.
  unfold days_in_month.
  destruct (m =? 2); [destruct (is_leap y); lia|].
  destruct (_ || _); lia.
Qed.

Lemma date_lt_irrefl (a : date) : date_lt a a = false.
Proof.
  unfold date_lt. rewrite !Z.ltb_irrefl, !Z.eqb_refl. reflexivity.
Qed.

(** *** Patterns over code points *)

Lemma fullmatch_text_Never (s : text) : fullmatch_text Never s = false.
Proof. induction s as [|c s IH]; simpl; auto. Qed.

Lemma fullmatch_text_Empty (s : text) :
  fullmatch_text Empty s = match s with [] => true | _ => false end.
Proof. destruct s; simpl; [reflexivity | apply fullmatch_text_Never]. Qed.

Lemma fullmatch_text_Or (a b : regex_of N) (s : text) :
  fullmatch_text (Or a b) s = fullmatch_text a s || fullmatch_text b s.
Proof. revert a b; induction s as [|c s IH]; intros a b; simpl; auto. Qed.

Lemma fullmatch_text_Seq (a b : regex_of N) (s : text) :
  fullmatch_text (Seq a b) s = true <->
  exists s1 s2, s = s1 ++ s2 /\ fullmatch_text a s1 = true /\ fullmatch_text b s2 = true.
Proof.
  revert a b; induction s as [|c s IH]; intros a b; simpl.
  - rewrite andb_true_iff. split.
    + intros [Ha Hb]. exists [], []. auto.
    + intros (s1 & s2 & E & H1 & H2).
      destruct s1; [|discriminate]. destruct s2; [|discriminate]. auto.
  - destruct (nullable a) eqn:Na.
    + rewrite fullmatch_text_Or, orb_true_iff, IH. split.
      * intros [(s1 & s2 & -> & H1 & H2) | H].
        -- exists (c :: s1), s2. auto.
        -- exists [], (c :: s). auto.
      * intros (s1 & s2 & E & H1 & H2). destruct s1 as [|x s1]; simpl in E.
        -- subst s2. right. exact H2.
        -- injection E as -> ->. left. exists s1, s2. auto.
    + rewrite IH. split.
      * intros (s1 & s2 & -> & H1 & H2). exists (c :: s1), s2. auto.
      * intros (s1 & s2 & E & H1 & H2). destruct s1 as [|x s1]; simpl in E.
        -- simpl in H1. congruence.
        -- injection E as -> ->. exists s1, s2. auto.
Qed.

Lemma fullmatch_text_Seq_assoc (a b c : regex_of N) (s : text) :
  fullmatch_text (Seq (Seq a b) c) s = fullmatch_text (Seq a (Seq b c)) s.
Proof.
  apply eq_true_iff_eq. rewrite !fullmatch_text_Seq. split.
  - intros (s12 & s3 & -> & H12 & H3).
    apply fullmatch_text_Seq in H12 as (s1 & s2 & -> & H1 & H2).
    exists s1, (s2 ++ s3). rewrite <- app_assoc. split; [reflexivity|]. split; [exact H1|].
    apply fullmatch_text_Seq. exists s2, s3. auto.
  - intros (s1 & s23 & -> & H1 & H23).
    apply fullmatch_text_Seq in H23 as (s2 & s3 & -> & H2 & H3).
    exists (s1 ++ s2), s3. rewrite <- app_assoc. split; [reflexivity|]. split; [|exact H3].
    apply fullmatch_text_Seq. exists s1, s2. auto.
Qed.

Lemma fullmatch_text_Seq_Or (a b c : regex_of N) (s : text) :
  fullmatch_text (Seq (Or a b) c) s
  = fullmatch_text (Seq a c) s || fullmatch_text (Seq b c) s.
Proof.
  apply eq_true_iff_eq. rewrite orb_true_iff, !fullmatch_text_Seq. split.
  - intros (s1 & s2 & -> & H1 & H2). rewrite fullmatch_text_Or, orb_true_iff in H1.
    destruct H1; [left | right]; exists s1, s2; auto.
  - intros [(s1 & s2 & -> & H1 & H2) | (s1 & s2 & -> & H1 & H2)];
      exists s1, s2; rewrite fullmatch_text_Or, H1; auto using orb_true_r.
Qed.

Lemma fullmatch_text_Seq_Never (r : regex_of N) (s : text) :
  fullmatch_text (Seq Never r) s = false.
Proof. induction s as [|c s IH]; simpl; auto. Qed.

Lemma fullmatch_text_Seq_Empty (r : regex_of N) (s : text) :
  fullmatch_text (Seq Empty r) s = fullmatch_text r s.
Proof.
  destruct s as [|c s]; simpl; [reflexivity|].
  now rewrite fullmatch_text_Or, fullmatch_text_Seq_Never.
Qed.

Lemma fullmatch_text_Seq_Class (p : N -> bool) (r : regex_of N) (s : text) :
  fullmatch_text (Seq (Class p) r) s =
  match s with
  | c :: s' => p c && fullmatch_text r s'
  | [] => false
  end.
Proof.
  destruct s as [|c s]; simpl; [reflexivity|].
  destruct (p c); simpl.
  - apply fullmatch_text_Seq_Empty.
  - apply fullmatch_text_Seq_Never.
Qed.

Lemma fullmatch_text_Class (p : N -> bool) (s : text) :
  fullmatch_text (Class p) s =
  match s with
  | [c] => p c
  | _ => false
  end.
Proof.
  destruct s as [|c s]; simpl; [reflexivity|].
  destruct (p c); rewrite ?fullmatch_text_Empty, ?fullmatch_text_Never; destruct s; reflexivity.
Qed.

Ltac text_match :=
  repeat (rewrite ?fullmatch_text_Seq_Or, ?fullmatch_text_Seq_assoc,
            ?fullmatch_text_Seq_Class, ?fullmatch_text_Or, ?fullmatch_text_Class,
            ?fullmatch_text_Empty;
          cbv beta iota).

Ltac atoms :=
  repeat match goal with
         | |- context [N.leb ?a ?b] => generalize (N.leb a b); intro
         | |- context [N.eqb ?a ?b] => generalize (N.eqb a b); intro
         | |- context [is_decimal ?c] => generalize (is_decimal c); intro
         end.

Lemma date_pattern_text (s : text) :
  fullmatch_text TransferRequest.date_pattern s
  = match s with
    | [c1; c2; c3; c4; c5; c6; c7; c8; c9; c10] =>
        ((48 <=? c1)%N && (c1 <=? 50)%N && is_decimal c2
         || (51 =? c1)%N && ((48 <=? c2)%N && (c2 <=? 49)%N))
        && (47 =? c3)%N
        && ((48 =? c4)%N && is_decimal c5
            || (49 =? c4)%N && ((48 <=? c5)%N && (c5 <=? 50)%N))
        && (47 =? c6)%N
        && (is_decimal c7 && is_decimal c8 && is_decimal c9 && is_decimal c10)
    | _ => false
    end.
Proof.
  unfold TransferRequest.date_pattern, one, between, decimal_digit. cbn [rep].
  change (ord "0") with 48%N. change (ord "1") with 49%N. change (ord "2") with 50%N.
  change (ord "3") with 51%N. change (ord "/") with 47%N.
  destruct s as [|c1 [|c2 [|c3 [|c4 [|c5 [|c6 [|c7 [|c8 [|c9 [|c10 [|c11 s]]]]]]]]]]];
    text_match; cbn [fullmatch_text nullable]; atoms; btauto.
Qed.

(** *** Decimal digits *)

Lemma to_decimal_inv (c : N) (v : Z) :
  to_decimal c = Some v ->
  exists z, In z decimal_zeros /\ (z <= c < z + 10)%N /\ v = Z.of_N (c - z).
Proof.
  unfold to_decimal. destruct (find _ decimal_zeros) as [z|] eqn:F; [|discriminate].
  intros [= <-]. apply find_some in F as [Hin Hr].
  apply andb_true_iff in Hr as [H1 H2]. apply N.leb_le in H1. apply N.ltb_lt in H2.
  exists z. auto.
Qed.

Lemma to_decimal_range (c : N) (v : Z) : to_decimal c = Some v -> 0 <= v <= 9.
Proof. intros H. apply to_decimal_inv in H as (z & _ & Hr & ->). lia. Qed.

Lemma to_decimal_plain (v : Z) :
  0 <= v <= 9 -> to_decimal (Spec.digit_code v) = Some v.
Proof.
  intros H.
  assert (C : v = 0 \/ v = 1 \/ v = 2 \/ v = 3 \/ v = 4 \/ v = 5 \/ v = 6 \/ v = 7
              \/ v = 8 \/ v = 9) by lia.
  repeat (destruct C as [->|C]; [reflexivity|]). subst v. reflexivity.
Qed.

(** Below 256 the decimal digits are the ten of ASCII. *)
Lemma to_decimal_ascii (c : N) (v : Z) :
  to_decimal c = Some v -> (c < 256)%N -> c = Spec.digit_code v.
Proof.
  intros H Hc. apply to_decimal_inv in H as (z & Hin & Hr & ->).
  assert (Hz : forallb (fun z => (z =? 48) || (256 <=? z))%N decimal_zeros = true)
    by (vm_compute; reflexivity).
  rewrite forallb_forall in Hz. specialize (Hz z Hin).
  apply orb_true_iff in Hz as [Hz|Hz]; [apply N.eqb_eq in Hz | apply N.leb_le in Hz].
  - unfold Spec.digit_code. lia.
  - lia.
Qed.

Lemma ascii_digit_decimal (c : N) :
  (48 <= c <= 57)%N ->
  to_decimal c = Some (Z.of_N c - 48) /\ c = Spec.digit_code (Z.of_N c - 48).
Proof.
  intros H. assert (E : c = Spec.digit_code (Z.of_N c - 48)) by (unfold Spec.digit_code; lia).
  split; [|exact E]. rewrite E at 1. apply to_decimal_plain. lia.
Qed.

Lemma is_decimal_value (c : N) :
  is_decimal c = true <-> exists v, to_decimal c = Some v.
Proof.
  unfold is_decimal. destruct (to_decimal c) as [v|]; split; try discriminate; eauto.
  intros [v H]. discriminate H.
Qed.

(** A digit is not a [/]. *)
Lemma decimal_not_slash (c : N) (v : Z) : to_decimal c = Some v -> (c =? 47)%N = false.
Proof.
  intros H. apply N.eqb_neq. intros ->.
  pose proof (to_decimal_range _ _ H) as Hv.
  apply to_decimal_ascii in H; [|reflexivity].
  unfold Spec.digit_code in H. lia.
Qed.

Lemma digits_of_two (a b : Z) :
  0 <= b <= 9 -> (10 * a + b) / 10 = a /\ (10 * a + b) mod 10 = b.
Proof. intros H. Z.div_mod_to_equations. lia. Qed.

Lemma digits_of_four (a b c d : Z) :
  0 <= a <= 9 -> 0 <= b <= 9 -> 0 <= c <= 9 -> 0 <= d <= 9 ->
  let y := 1000 * a + 100 * b + 10 * c + d in
  y / 1000 = a /\ y / 100 mod 10 = b /\ y / 10 mod 10 = c /\ y mod 10 = d.
Proof. intros Ha Hb Hc Hd y. subst y. Z.div_mod_to_equations. lia. Qed.

(** *** The groups of [strptime] *)

Lemma int_of_group_two (c1 c2 : N) (a b : Z) :
  to_decimal c1 = Some a -> to_decimal c2 = Some b -> int_of_group [c1; c2] = 10 * a + b.
Proof. intros H1 H2. unfold int_of_group. cbn [fold_left]. rewrite H1, H2. lia. Qed.

Lemma int_of_group_four (c1 c2 c3 c4 : N) (a b c d : Z) :
  to_decimal c1 = Some a -> to_decimal c2 = Some b ->
  to_decimal c3 = Some c -> to_decimal c4 = Some d ->
  int_of_group [c1; c2; c3; c4] = 1000 * a + 100 * b + 10 * c + d.
Proof.
  intros H1 H2 H3 H4. unfold int_of_group. cbn [fold_left]. rewrite H1, H2, H3, H4. lia.
Qed.

Lemma day_group_chars (c1 c2 : N) :
  fullmatch_text day_group [c1; c2]
  = (51 =? c1)%N && ((48 <=? c2)%N && (c2 <=? 49)%N)
    || ((49 <=? c1)%N && (c1 <=? 50)%N) && is_decimal c2
    || (48 =? c1)%N && ((49 <=? c2)%N && (c2 <=? 57)%N)
    || (32 =? c1)%N && ((49 <=? c2)%N && (c2 <=? 57)%N).
Proof.
  unfold day_group, one, between, decimal_digit.
  change (ord "0") with 48%N. change (ord "1") with 49%N. change (ord "2") with 50%N.
  change (ord "3") with 51%N. change (ord "9") with 57%N. change (ord " ") with 32%N.
  text_match. cbn [fullmatch_text nullable]. atoms. btauto.
Qed.

Lemma month_group_chars (c1 c2 : N) :
  fullmatch_text month_group [c1; c2]
  = (49 =? c1)%N && ((48 <=? c2)%N && (c2 <=? 50)%N)
    || (48 =? c1)%N && ((49 <=? c2)%N && (c2 <=? 57)%N).
Proof.
  unfold month_group, one, between.
  change (ord "0") with 48%N. change (ord "1") with 49%N. change (ord "2") with 50%N.
  change (ord "9") with 57%N.
  text_match. cbn [fullmatch_text nullable]. atoms. btauto.
Qed.

Lemma year_group_chars (c1 c2 c3 c4 : N) :
  fullmatch_text year_group [c1; c2; c3; c4]
  = is_decimal c1 && is_decimal c2 && is_decimal c3 && is_decimal c4.
Proof.
  unfold year_group, decimal_digit. cbn [rep].
  text_match. cbn [fullmatch_text nullable]. atoms. btauto.
Qed.

(** [strptime] on ten characters with a [/] third and sixth and nowhere
    else. *)
Lemma strptime_dmy_chars (c1 c2 c4 c5 c7 c8 c9 c10 : N) :
  (c1 =? 47)%N = false -> (c2 =? 47)%N = false -> (c4 =? 47)%N = false ->
  (c5 =? 47)%N = false -> (c7 =? 47)%N = false -> (c8 =? 47)%N = false ->
  (c9 =? 47)%N = false -> (c10 =? 47)%N = false ->
  strptime_dmy [c1; c2; 47%N; c4; c5; 47%N; c7; c8; c9; c10]
  = if fullmatch_text day_group [c1; c2] && fullmatch_text month_group [c4; c5]
       && fullmatch_text year_group [c7; c8; c9; c10] then
      let d := int_of_group [c1; c2] in
      let m := int_of_group [c4; c5] in
      let y := int_of_group [c7; c8; c9; c10] in
      if (1 <=? d) && (1 <=? m) && (m <=? 12) && (1 <=? y)
         && (d <=? days_in_month y m)
      then Return {| year := y; month := m; day := d |}
      else Raise ValueError
    else Raise ValueError.
Proof.
  intros H1 H2 H4 H5 H7 H8 H9 H10. unfold strptime_dmy.
  change (ord "/") with 47%N. cbn [split_text].
  rewrite H1, H2, H4, H5, H7, H8, H9, H10. cbn [N.eqb Pos.eqb rev app]. reflexivity.
Qed.

(** *** The date the code reads off an accepted text *)

Ltac goal_prop :=
  repeat (rewrite orb_true_iff || rewrite andb_true_iff
          || rewrite N.leb_le || rewrite N.eqb_eq).

Ltac to_prop H :=
  repeat (rewrite orb_true_iff in H || rewrite andb_true_iff in H
          || rewrite N.leb_le in H || rewrite N.eqb_eq in H).

Lemma plain_true (c : N) (v : Z) : Spec.plain c v = true <-> c = Spec.digit_code v.
Proof. unfold Spec.plain. apply N.eqb_eq. Qed.

Lemma reads_true (c : N) (v : Z) : Spec.reads c v = true <-> to_decimal c = Some v.
Proof.
  unfold Spec.reads. destruct (to_decimal c) as [w|]; [|split; discriminate].
  rewrite Z.eqb_eq. split; [now intros -> | now intros [= ->]].
Qed.

Lemma guarded_parse (s : text) (dt : date) :
  fullmatch_text TransferRequest.date_pattern s = true ->
  strptime_dmy s = Return dt ->
  Spec.calendar_date dt = true /\ Spec.writes s dt = true.
Proof.
  rewrite date_pattern_text.
  destruct s as [|c1 [|c2 [|c3 [|c4 [|c5 [|c6 [|c7 [|c8 [|c9 [|c10 [|c11 s]]]]]]]]]]];
    try discriminate.
  rewrite !andb_true_iff, !orb_true_iff, !andb_true_iff, !N.leb_le, !N.eqb_eq,
    !is_decimal_value.
  intros ((((Gd & <-) & Gm) & <-) & ((([v7 E7] & [v8 E8]) & [v9 E9]) & [v10 E10])).
  assert (R1 : (48 <= c1 <= 51)%N) by (destruct Gd as [[? _]|[? _]]; lia).
  assert (R4 : (48 <= c4 <= 49)%N) by (destruct Gm as [[? _]|[? _]]; lia).
  assert (D1 : exists a, to_decimal c1 = Some a /\ c1 = Spec.digit_code a /\ 0 <= a <= 3).
  { assert (H : (48 <= c1 <= 57)%N) by lia.
    destruct (ascii_digit_decimal c1 H) as [E C]. eexists. split; [exact E|]. split; [exact C|]. lia. }
  assert (D2 : exists b, to_decimal c2 = Some b).
  { destruct Gd as [[_ H]|[_ H]]; [exact H|].
    eexists. apply ascii_digit_decimal. lia. }
  assert (D4 : exists a, to_decimal c4 = Some a /\ c4 = Spec.digit_code a /\ 0 <= a <= 1).
  { assert (H : (48 <= c4 <= 57)%N) by lia.
    destruct (ascii_digit_decimal c4 H) as [E C]. eexists. split; [exact E|]. split; [exact C|]. lia. }
  assert (D5 : exists b, to_decimal c5 = Some b).
  { destruct Gm as [[_ H]|[_ H]]; [exact H|].
    eexists. apply ascii_digit_decimal. lia. }
  destruct D1 as (a1 & E1 & C1 & B1), D2 as (a2 & E2), D4 as (a4 & E4 & C4 & B4),
    D5 as (a5 & E5).
  pose proof (to_decimal_range _ _ E2) as B2. pose proof (to_decimal_range _ _ E5) as B5.
  pose proof (to_decimal_range _ _ E7) as B7. pose proof (to_decimal_range _ _ E8) as B8.
  pose proof (to_decimal_range _ _ E9) as B9. pose proof (to_decimal_range _ _ E10) as B10.
  rewrite strptime_dmy_chars by eauto using decimal_not_slash.
  rewrite day_group_chars, month_group_chars, year_group_chars.
  rewrite (int_of_group_two _ _ _ _ E1 E2), (int_of_group_two _ _ _ _ E4 E5),
    (int_of_group_four _ _ _ _ _ _ _ _ E7 E8 E9 E10).
  destruct (_ && _ && _) eqn:Hg; [|discriminate]. cbv zeta.
  destruct (_ && _) eqn:Hc in |- *; [|discriminate].
  intros [= <-].
  apply andb_true_iff in Hg as [Hg Hy]. apply andb_true_iff in Hg as [Hd Hm].
  rewrite !andb_true_iff, !Z.leb_le in Hc. destruct Hc as ((((K1 & K2) & K3) & K4) & K5).
  split.
  - unfold Spec.calendar_date. cbn [year month day].
    rewrite !andb_true_iff, !Z.leb_le. repeat split; try assumption; lia.
  - to_prop Hd. to_prop Hm.
    unfold Spec.writes. cbn [year month day].
    destruct (digits_of_two a1 a2 B2) as [-> ->].
    destruct (digits_of_two a4 a5 B5) as [-> ->].
    destruct (digits_of_four v7 v8 v9 v10 B7 B8 B9 B10) as (-> & -> & -> & ->).
    assert (C5 : c5 = Spec.digit_code a5).
    { assert (H : (48 <= c5 <= 57)%N) by (destruct Hm as [[_ ?]|[_ ?]]; lia).
      destruct (ascii_digit_decimal c5 H) as [E C]. congruence. }
    assert (R2 : (if (10 <=? 10 * a1 + a2) && (10 * a1 + a2 <=? 29)
                  then Spec.reads c2 a2 else Spec.plain c2 a2) = true).
    { destruct ((10 <=? 10 * a1 + a2) && (10 * a1 + a2 <=? 29)) eqn:Hr;
        [now apply reads_true|].
      apply plain_true.
      assert (H : (48 <= c2 <= 57)%N).
      { apply andb_false_iff in Hr. rewrite Z.leb_gt, Z.leb_gt in Hr.
        unfold Spec.digit_code in C1.
        destruct Hd as [[[[_ ?]|[[? ?] _]]|[_ ?]]|[? _]]; lia. }
      destruct (ascii_digit_decimal c2 H) as [E C]. congruence. }
    rewrite R2, (proj2 (plain_true c1 a1) C1), (proj2 (plain_true c4 a4) C4),
      (proj2 (plain_true c5 a5) C5), (proj2 (reads_true _ _) E7),
      (proj2 (reads_true _ _) E8), (proj2 (reads_true _ _) E9),
      (proj2 (reads_true _ _) E10).
    reflexivity.
Qed.

Lemma is_decimal_of (c : N) (v : Z) : to_decimal c = Some v -> is_decimal c = true.
Proof. intros H. unfold is_decimal. now rewrite H. Qed.

Lemma written_parse (s : text) (dt : date) :
  Spec.calendar_date dt = true -> Spec.writes s dt = true ->
  fullmatch_text TransferRequest.date_pattern s = true /\ strptime_dmy s = Return dt.
Proof.
  destruct dt as [y m d]. unfold Spec.calendar_date, Spec.writes. cbn [year month day].
  rewrite !andb_true_iff, !Z.leb_le. intros (((((Hy1 & Hy2) & Hm1) & Hm2) & Hd1) & Hd2).
  pose proof (days_in_month_bound y m) as Hdim.
  destruct s as [|c1 [|c2 [|c3 [|c4 [|c5 [|c6 [|c7 [|c8 [|c9 [|c10 [|c11 s]]]]]]]]]]];
    try discriminate.
  change (ord "/") with 47%N.
  rewrite !andb_true_iff, !plain_true, !reads_true, !N.eqb_eq.
  intros (((((((((C1 & W2) & ->) & C4) & C5) & ->) & E7) & E8) & E9) & E10).
  set (a1 := d / 10) in *. set (a2 := d mod 10) in *.
  set (a4 := m / 10) in *. set (a5 := m mod 10) in *.
  assert (Ad : d = 10 * a1 + a2 /\ 0 <= a1 <= 3 /\ 0 <= a2 <= 9)
    by (subst a1 a2; Z.div_mod_to_equations; lia).
  assert (Am : m = 10 * a4 + a5 /\ 0 <= a4 <= 1 /\ 0 <= a5 <= 9)
    by (subst a4 a5; Z.div_mod_to_equations; lia).
  assert (Ay : y = 1000 * (y / 1000) + 100 * (y / 100 mod 10) + 10 * (y / 10 mod 10)
                   + y mod 10) by (Z.div_mod_to_equations; lia).
  destruct Ad as (Ed & B1 & B2), Am as (Em & B4 & B5).
  clearbody a1 a2 a4 a5.
  pose proof (to_decimal_plain a1 ltac:(lia)) as E1. rewrite <- C1 in E1.
  pose proof (to_decimal_plain a4 ltac:(lia)) as E4. rewrite <- C4 in E4.
  pose proof (to_decimal_plain a5 B5) as E5. rewrite <- C5 in E5.
  assert (E2 : to_decimal c2 = Some a2
               /\ (a1 = 1 \/ a1 = 2 \/ c2 = Spec.digit_code a2)).
  { destruct ((10 <=? d) && (d <=? 29)) eqn:Hr.
    - apply reads_true in W2. split; [exact W2|].
      apply andb_true_iff in Hr as [H1 H2]. apply Z.leb_le in H1, H2. lia.
    - apply plain_true in W2. split; [|auto].
      rewrite W2. now apply to_decimal_plain. }
  destruct E2 as [E2 P2].
  unfold Spec.digit_code in C1, C4, C5, P2.
  split.
  - rewrite date_pattern_text.
    rewrite (is_decimal_of _ _ E2), (is_decimal_of _ _ E5), (is_decimal_of _ _ E7),
      (is_decimal_of _ _ E8), (is_decimal_of _ _ E9), (is_decimal_of _ _ E10).
    rewrite !N.eqb_refl, !andb_true_r.
    apply andb_true_iff. split; goal_prop.
    + assert (C : a1 <= 2 \/ a1 = 3) by lia. destruct C as [C|C]; [left | right]; lia.
    + assert (C : a4 = 0 \/ a4 = 1) by lia. destruct C as [C|C]; [left | right]; lia.
  - rewrite strptime_dmy_chars by eauto using decimal_not_slash.
    rewrite day_group_chars, month_group_chars, year_group_chars.
    rewrite (is_decimal_of _ _ E2), (is_decimal_of _ _ E7),
      (is_decimal_of _ _ E8), (is_decimal_of _ _ E9), (is_decimal_of _ _ E10).
    rewrite (int_of_group_two _ _ _ _ E1 E2), (int_of_group_two _ _ _ _ E4 E5),
      (int_of_group_four _ _ _ _ _ _ _ _ E7 E8 E9 E10).
    rewrite <- Ed, <- Em, <- Ay.
    assert (Gd : ((51 =? c1)%N && ((48 <=? c2)%N && (c2 <=? 49)%N)
                  || (49 <=? c1)%N && (c1 <=? 50)%N && true
                  || (48 =? c1)%N && ((49 <=? c2)%N && (c2 <=? 57)%N)
                  || (32 =? c1)%N && ((49 <=? c2)%N && (c2 <=? 57)%N)) = true).
    { rewrite andb_true_r. goal_prop.
      assert (C : a1 = 0 \/ a1 = 1 \/ a1 = 2 \/ a1 = 3) by lia.
      destruct C as [C|[C|[C|C]]].
      - left. right. lia.
      - left. left. right. lia.
      - left. left. right. lia.
      - left. left. left. lia. }
    assert (Gm : ((49 =? c4)%N && ((48 <=? c5)%N && (c5 <=? 50)%N)
                  || (48 =? c4)%N && ((49 <=? c5)%N && (c5 <=? 57)%N)) = true).
    { goal_prop.
      assert (C : a4 = 0 \/ a4 = 1) by lia. destruct C as [C|C]; [right | left]; lia. }
    rewrite Gd, Gm. cbn [andb]. cbv zeta.
    rewrite (proj2 (Z.leb_le 1 d)), (proj2 (Z.leb_le 1 m)), (proj2 (Z.leb_le m 12)),
      (proj2 (Z.leb_le 1 y)), (proj2 (Z.leb_le d _)) by assumption.
    reflexivity.
Qed.

(** *** Dates written in ASCII digits *)

Lemma ord_digit_char (v : Z) : 0 <= v <= 9 -> ord (digit_char v) = Spec.digit_code v.
Proof.
  intros H. unfold ord, digit_char, chr, Spec.digit_code.
  rewrite N_ascii_embedding by lia. lia.
Qed.

Lemma code_points_dd_mm_yyyy (dt : date) :
  Spec.calendar_date dt = true ->
  code_points (Spec.dd_mm_yyyy dt)
  = [ Spec.digit_code (day dt / 10); Spec.digit_code (day dt mod 10); 47%N;
      Spec.digit_code (month dt / 10); Spec.digit_code (month dt mod 10); 47%N;
      Spec.digit_code (year dt / 1000); Spec.digit_code (year dt / 100 mod 10);
      Spec.digit_code (year dt / 10 mod 10); Spec.digit_code (year dt mod 10) ].
Proof.
  destruct dt as [y m d]. unfold Spec.calendar_date. cbn [year month day].
  rewrite !andb_true_iff, !Z.leb_le. intros (((((Hy1 & Hy2) & Hm1) & Hm2) & Hd1) & Hd2).
  pose proof (days_in_month_bound y m) as Hdim.
  unfold Spec.dd_mm_yyyy, Spec.four_digits, Spec.two_digits. cbn [year month day].
  cbn [String.append code_points]. change (ord "/") with 47%N.
  rewrite !ord_digit_char by (Z.div_mod_to_equations; lia).
  replace (y / 100 / 10) with (y / 1000) by (Z.div_mod_to_equations; lia).
  replace (y mod 100 / 10) with (y / 10 mod 10) by (Z.div_mod_to_equations; lia).
  replace ((y mod 100) mod 10) with (y mod 10) by (Z.div_mod_to_equations; lia).
  reflexivity.
Qed.

Lemma date_digits (dt : date) :
  Spec.calendar_date dt = true ->
  0 <= day dt / 10 <= 9 /\ 0 <= day dt mod 10 <= 9
  /\ 0 <= month dt / 10 <= 9 /\ 0 <= month dt mod 10 <= 9
  /\ 0 <= year dt / 1000 <= 9 /\ 0 <= year dt / 100 mod 10 <= 9
  /\ 0 <= year dt / 10 mod 10 <= 9 /\ 0 <= year dt mod 10 <= 9.
Proof.
  destruct dt as [y m d]. unfold Spec.calendar_date. cbn [year month day].
  rewrite !andb_true_iff, !Z.leb_le. intros (((((Hy1 & Hy2) & Hm1) & Hm2) & Hd1) & Hd2).
  pose proof (days_in_month_bound y m) as Hdim.
  repeat split; Z.div_mod_to_equations; lia.
Qed.

(** The [DD/MM/YYYY] text of a calendar date writes that date. *)
Lemma writes_dd_mm_yyyy (dt : date) :
  Spec.calendar_date dt = true ->
  Spec.writes (code_points (Spec.dd_mm_yyyy dt)) dt = true.
Proof.
  intros Hc. rewrite (code_points_dd_mm_yyyy dt Hc).
  destruct (date_digits dt Hc) as (B1 & B2 & B3 & B4 & B5 & B6 & B7 & B8).
  unfold Spec.writes. change (ord "/") with 47%N.
  rewrite !N.eqb_refl.
  rewrite !(proj2 (plain_true _ _)) by reflexivity.
  rewrite !(proj2 (reads_true _ _)) by (now apply to_decimal_plain).
  destruct ((10 <=? day dt) && (day dt <=? 29)); reflexivity.
Qed.

Lemma ord_bound (c : ascii) : (ord c < 256)%N.
Proof. apply N_ascii_bounded. Qed.

Lemma code_points_inj (s t : string) : code_points s = code_points t -> s = t.
Proof.
  revert t. induction s as [|c s IH]; intros [|x t]; cbn [code_points]; try discriminate;
    [reflexivity|].
  intros [= Hc Hs]. f_equal; [|now apply IH].
  unfold ord in Hc. rewrite <- (ascii_N_embedding c), <- (ascii_N_embedding x). now rewrite Hc.
Qed.

Lemma code_points_bound (s : string) : Forall (fun c => (c < 256)%N) (code_points s).
Proof. induction s as [|c s IH]; cbn [code_points]; constructor; [apply ord_bound | exact IH]. Qed.

(** A string of code points below 256 writes a date only as its
    [DD/MM/YYYY] text. *)
Lemma writes_string (s : string) (dt : date) :
  Spec.calendar_date dt = true ->
  Spec.writes (code_points s) dt = true -> s = Spec.dd_mm_yyyy dt.
Proof.
  intros Hc Hw. apply code_points_inj. rewrite (code_points_dd_mm_yyyy dt Hc).
  pose proof (code_points_bound s) as Hb. revert Hb Hw. generalize (code_points s). clear s.
  intros s Hb. unfold Spec.writes.
  destruct s as [|c1 [|c2 [|c3 [|c4 [|c5 [|c6 [|c7 [|c8 [|c9 [|c10 [|c11 s]]]]]]]]]]];
    try discriminate.
  change (ord "/") with 47%N.
  rewrite !andb_true_iff, !plain_true, !reads_true, !N.eqb_eq.
  intros (((((((((C1 & W2) & ->) & C4) & C5) & ->) & E7) & E8) & E9) & E10).
  repeat match goal with
         | H : Forall _ (_ :: _) |- _ => apply Forall_cons_iff in H as [? H]
         end.
  assert (C2 : c2 = Spec.digit_code (day dt mod 10)).
  { destruct ((10 <=? day dt) && (day dt <=? 29));
      [apply reads_true in W2; now apply to_decimal_ascii | now apply plain_true in W2]. }
  rewrite (to_decimal_ascii _ _ E7), (to_decimal_ascii _ _ E8), (to_decimal_ascii _ _ E9),
    (to_decimal_ascii _ _ E10) by assumption.
  now rewrite <- C1, <- C2, <- C4, <- C5.
Qed.

(** The year an accepted text reads. *)
Lemma written_year (s : text) (dt : date) (y : Z) :
  Spec.calendar_date dt = true -> Spec.writes s dt = true ->
  0 <= y ->
  Spec.ascii_digits (skipn 6 s)
  = [ Spec.digit_code (y / 1000); Spec.digit_code (y / 100 mod 10);
      Spec.digit_code (y / 10 mod 10); Spec.digit_code (y mod 10) ] ->
  y <= 9999 -> year dt = y.
Proof.
  intros Hc Hw Hy Hs Hy'.
  destruct (date_digits dt Hc) as (_ & _ & _ & _ & B5 & B6 & B7 & B8).
  unfold Spec.writes in Hw.
  destruct s as [|c1 [|c2 [|c3 [|c4 [|c5 [|c6 [|c7 [|c8 [|c9 [|c10 [|c11 s]]]]]]]]]]];
    try discriminate.
  rewrite !andb_true_iff, !reads_true in Hw.
  destruct Hw as ((((_ & E7) & E8) & E9) & E10).
  cbn [skipn Spec.ascii_digits map] in Hs. rewrite E7, E8, E9, E10 in Hs.
  injection Hs as H7 H8 H9 H10. unfold Spec.digit_code in *.
  Z.div_mod_to_equations. lia.
Qed.

(** *** The date check *)

Lemma validate_transfer_date_accepts (clk : clock) (s : text) :
  raised (TransferRequest.validate_transfer_date clk s) = false <->
  exists dt, Spec.calendar_date dt = true /\ Spec.writes s dt = true
             /\ Spec.date_le (today clk) dt = true /\ 2025 <= year dt <= 2050.
Proof.
  unfold TransferRequest.validate_transfer_date, TransferRequest.check_regular_text. split.
  - destruct (fullmatch_text _ s) eqn:Hg; [|discriminate]. cbn [negb].
    destruct (strptime_dmy s) as [dt|e] eqn:Hp; [|destruct e; discriminate].
    cbn [bind]. destruct (date_lt dt (today clk)) eqn:Hlt; [discriminate|].
    destruct (_ || _) eqn:Hy; [discriminate|]. intros _.
    apply orb_false_iff in Hy as [Hy1 Hy2]. apply Z.ltb_ge in Hy1, Hy2.
    destruct (guarded_parse s dt Hg Hp) as [Hc Hw].
    exists dt. unfold Spec.date_le. rewrite Hlt.
    split; [exact Hc|]. split; [exact Hw|]. split; [reflexivity|]. split; assumption.
  - intros (dt & Hc & Hw & Hle & Hy1 & Hy2).
    destruct (written_parse s dt Hc Hw) as [Hr Hp]. rewrite Hr, Hp. cbn [negb bind].
    unfold Spec.date_le in Hle. apply negb_true_iff in Hle. rewrite Hle.
    rewrite (proj2 (Z.ltb_ge _ _) Hy1), (proj2 (Z.ltb_ge _ _) Hy2). reflexivity.
Qed.

Lemma validate_transfer_date_returns (clk : clock) (s : text) :
  raised (TransferRequest.validate_transfer_date clk s) = false ->
  TransferRequest.validate_transfer_date clk s = Return s.
Proof.
  unfold TransferRequest.validate_transfer_date.
  destruct (negb _); [discriminate|].
  destruct (strptime_dmy s) as [dt|e]; [|destruct e; discriminate].
  cbn [bind]. destruct (date_lt _ _); [discriminate|].
  destruct (_ || _); [discriminate | reflexivity].
Qed.

Lemma validate_transfer_date_year (clk : clock) (s : text) (y : Z) :
  0 <= y <= 9999 ->
  Spec.ascii_digits (skipn 6 s)
  = [ Spec.digit_code (y / 1000); Spec.digit_code (y / 100 mod 10);
      Spec.digit_code (y / 10 mod 10); Spec.digit_code (y mod 10) ] ->
  raised (TransferRequest.validate_transfer_date clk s) = false ->
  2025 <= y <= 2050.
Proof.
  intros [Hy Hy'] Hs R.
  apply validate_transfer_date_accepts in R as (dt & Hc & Hw & _ & Hr).
  now rewrite <- (written_year s dt y Hc Hw Hy Hs Hy').
Qed.



(* ================================================================= *)
(** ** Further properties of the code *)

(** *** The concept of a transfer *)

Lemma fullmatch_Seq_Never (r : regex) (s : string) : fullmatch (Seq Never r) s = false.
Proof. induction s as [|c s IH]; simpl; auto. Qed.

Lemma fullmatch_Seq_Star_Class (p : ascii -> bool) (x : regex) (s : string) :
  fullmatch (Seq (Star (Class p)) x) s =
  match s with
  | EmptyString => nullable x
  | String c s' => p c && fullmatch (Seq (Star (Class p)) x) s' || fullmatch x s
  end.
Proof.
  destruct s as [|c s]; [reflexivity|].
  cbn [fullmatch deriv nullable]. rewrite fullmatch_Or, fullmatch_Seq_assoc.
  destruct (p c); cbn [andb].
  - now rewrite fullmatch_Seq_Empty.
  - now rewrite fullmatch_Seq_Never.
Qed.

Lemma letter_not_space (c : ascii) : Derived.is_letter c = true -> is_space c = false.
Proof.
  unfold Derived.is_letter, in_range, is_space.
  change (ord "a") with 97%N. change (ord "z") with 122%N.
  change (ord "A") with 65%N. change (ord "Z") with 90%N.
  rewrite orb_true_iff, !andb_true_iff, !N.leb_le. intros H.
  repeat match goal with
         | |- context [(?a <=? ?b)%N] => destruct (N.leb_spec a b)
         | |- context [(?a =? ?b)%N] => destruct (N.eqb_spec a b)
         end; simpl; try reflexivity; lia.
Qed.

(** The body of the concept pattern, and what is left of it inside a word
    and after a separator, against the scanner. *)
Lemma concept_body_scan (s : string) :
  let w := Seq space (plus letter) in
  fullmatch (Seq (Star letter) (plus w)) s = Derived.scan (Derived.InWord false) s
  /\ fullmatch (Seq (Star letter) (Star w)) s = Derived.scan (Derived.InWord true) s
  /\ fullmatch (Seq (plus letter) (Star w)) s = Derived.scan Derived.AfterSpace s.
Proof.
  cbv zeta. unfold plus, space, letter.
  change (fun c : ascii => in_range "a" "z" c || in_range "A" "Z" c) with Derived.is_letter.
  induction s as [|c s (IH1 & IH2 & IH3)].
  - repeat split.
  - assert (Hw : forall x,
               fullmatch (Seq (Seq (Class is_space)
                                   (Seq (Class Derived.is_letter) (Star (Class Derived.is_letter)))) x)
                         (String c s)
               = is_space c
                 && fullmatch (Seq (Seq (Class Derived.is_letter) (Star (Class Derived.is_letter))) x) s).
    { intros x. now rewrite fullmatch_Seq_assoc, fullmatch_Seq_Class. }
    split; [|split].
    + rewrite fullmatch_Seq_Star_Class, IH1, Hw, IH3. cbn [Derived.scan].
      destruct (Derived.is_letter c) eqn:Hl; cbn [andb orb]; [|reflexivity].
      rewrite (letter_not_space c Hl). cbn [andb]. now rewrite orb_false_r.
    + rewrite fullmatch_Seq_Star_Class, IH2.
      change (fullmatch (Star ?r) (String c s)) with (fullmatch (Seq r (Star r)) (String c s)).
      rewrite Hw, IH3. cbn [Derived.scan].
      destruct (Derived.is_letter c) eqn:Hl; cbn [andb orb]; [|reflexivity].
      rewrite (letter_not_space c Hl). cbn [andb]. now rewrite orb_false_r.
    + rewrite fullmatch_Seq_assoc, fullmatch_Seq_Class, IH2. reflexivity.
Qed.

Lemma fullmatch_upto_Class (p : ascii -> bool) (n : nat) (s : string) :
  fullmatch (upto n (Class p)) s = (String.length s <=? n)%nat && Spec.all_chars p s.
Proof.
  revert s; induction n as [|n IH]; intros s; cbn [upto].
  - rewrite fullmatch_Empty. destruct s; reflexivity.
  - rewrite fullmatch_Or, fullmatch_Empty, fullmatch_Seq_Class.
    destruct s as [|c s]; [reflexivity|]. cbn [String.length Spec.all_chars orb].
    rewrite IH. change (S (String.length s) <=? S n)%nat with (String.length s <=? n)%nat.
    destruct (p c), (String.length s <=? n)%nat; reflexivity.
Qed.

Lemma fullmatch_rep_range_Class (p : ascii -> bool) (m n : nat) (s : string) :
  fullmatch (Seq (rep m (Class p)) (upto n (Class p))) s
  = (m <=? String.length s)%nat && (String.length s <=? m + n)%nat && Spec.all_chars p s.
Proof.
  revert s; induction m as [|m IH]; intros s; cbn [rep].
  - now rewrite fullmatch_Seq_Empty, fullmatch_upto_Class.
  - rewrite fullmatch_Seq_assoc, fullmatch_Seq_Class.
    destruct s as [|c s]; [reflexivity|]. rewrite IH.
    cbn [String.length Spec.all_chars].
    change (S m <=? S (String.length s))%nat with (m <=? String.length s)%nat.
    change (S (String.length s) <=? S m + n)%nat with (String.length s <=? m + n)%nat.
    destruct (p c), (m <=? String.length s)%nat, (String.length s <=? m + n)%nat; reflexivity.
Qed.

Lemma concept_pattern_ok (s : string) :
  fullmatch TransferRequest.concept_pattern s = Derived.concept_ok s.
Proof.
  unfold TransferRequest.concept_pattern, Derived.concept_ok, rep_range, dot.
  rewrite fullmatch_Both, fullmatch_rep_range_Class. f_equal.
  destruct s as [|c s]; [reflexivity|].
  unfold plus at 1. unfold letter at 1.
  rewrite fullmatch_Seq_assoc, fullmatch_Seq_Class.
  now rewrite (proj1 (concept_body_scan s)).
Qed.

(** X1. A concept is accepted exactly when it has 10 to 30 characters, none
    of them a line feed, and reads as words of letters with one white-space
    character between two words, at least two words; in both versions. *)
Theorem validate_concept_shape (concept : string) :
  TransferRequest.validate_concept concept
  = (if Derived.concept_ok concept then Return tt
     else Raise (AccountManagementException "Invalid concept format"))
  /\ GE4.validate_concept concept = TransferRequest.validate_concept concept.
Proof.
  split; [|reflexivity].
  unfold TransferRequest.validate_concept, TransferRequest.check_regular.
  rewrite concept_pattern_ok. now destruct (Derived.concept_ok concept).
Qed.

(** *** What mod 97 detects *)

Lemma iban_form_shape (iban : string) :
  Spec.iban_form iban = true <->
  exists c1 c2 bban,
    iban = String "E" (String "S" (String c1 (String c2 bban)))
    /\ is_digit c1 = true /\ is_digit c2 = true /\ Spec.all_digits bban = true
    /\ String.length bban = 20%nat.
Proof.
  split.
  - unfold Spec.iban_form. rewrite !andb_true_iff. intros [[He Hl] Hd].
    destruct iban as [|e [|x rest]]; try discriminate.
    cbn [take drop] in He, Hl, Hd. apply String.eqb_eq in He. injection He as -> ->.
    destruct rest as [|c1 [|c2 bban]]; try discriminate.
    rewrite !all_digits_cons, !andb_true_iff in Hd. destruct Hd as (H1 & H2 & H3).
    apply Nat.eqb_eq in Hl. cbn [String.length] in Hl.
    exists c1, c2, bban. repeat split; auto; lia.
  - intros (c1 & c2 & bban & -> & H1 & H2 & Hb & Hl).
    unfold Spec.iban_form. cbn [take drop String.length].
    rewrite !all_digits_cons, H1, H2, Hb, Hl. reflexivity.
Qed.

(** [validate_iban] on a string of the IBAN form, in closed form. *)
Lemma validate_iban_digits (c1 c2 : ascii) (bban : string) :
  is_digit c1 = true -> is_digit c2 = true -> Spec.all_digits bban = true ->
  String.length bban = 20%nat ->
  TransferRequest.validate_iban (String "E" (String "S" (String c1 (String c2 bban))))
  = if 10 * digit_value c1 + digit_value c2
       =? 98 - Spec.decimal (bban +:+ "142800") mod 97
    then Return (bban +:+ "142800")
    else Raise (AccountManagementException "Invalid IBAN control digit").
Proof.
  intros H1 H2 Hb Hl.
  rewrite validate_iban_checked
    by (apply iban_form_shape; exists c1, c2, bban; auto).
  unfold Spec.declared_code, Spec.numeric_transform.
  cbn [take drop slice Nat.sub String.append].
  rewrite substitute_append, (substitute_digits bban Hb).
  change (Spec.substitute "ES00") with "142800".
  replace (Spec.decimal (String c1 (String c2 "")))
    with (10 * digit_value c1 + digit_value c2)
    by (unfold Spec.decimal; cbn [Spec.decimal_from]; lia).
  reflexivity.
Qed.

Lemma decimal_from_shift (s : string) (acc : Z) :
  Spec.decimal_from acc s = acc * 10 ^ Z.of_nat (String.length s) + Spec.decimal s.
Proof.
  unfold Spec.decimal. revert acc; induction s as [|c s IH]; intros acc.
  - cbn. lia.
  - cbn [Spec.decimal_from String.length]. rewrite IH, (IH (10 * 0 + digit_value c)).
    rewrite Nat2Z.inj_succ, Z.pow_succ_r by lia. lia.
Qed.

Lemma decimal_from_append (a b : string) (acc : Z) :
  Spec.decimal_from acc (a +:+ b) = Spec.decimal_from (Spec.decimal_from acc a) b.
Proof.
  revert acc; induction a as [|c a IH]; intros acc; cbn [String.append Spec.decimal_from];
    [reflexivity | apply IH].
Qed.

Lemma decimal_append (a b : string) :
  Spec.decimal (a +:+ b)
  = Spec.decimal a * 10 ^ Z.of_nat (String.length b) + Spec.decimal b.
Proof.
  unfold Spec.decimal at 1. rewrite decimal_from_append, decimal_from_shift.
  reflexivity.
Qed.

Lemma decimal_cons (c : ascii) (s : string) :
  Spec.decimal (String c s)
  = digit_value c * 10 ^ Z.of_nat (String.length s) + Spec.decimal s.
Proof.
  unfold Spec.decimal at 1. cbn [Spec.decimal_from]. rewrite decimal_from_shift. lia.
Qed.

(** A multiple of 97 that is a small number times a power of ten is zero. *)
Lemma small_times_power_of_ten (x : Z) (k : nat) :
  (x * 10 ^ Z.of_nat k) mod 97 = 0 -> -97 < x < 97 -> x = 0.
Proof.
  intros H Hx. apply Z.mod_divide in H; [|lia].
  assert (Hr : Z.gcd 97 (10 ^ Z.of_nat k) = 1).
  { apply (Z.coprime_pow_r 97 10); [lia | reflexivity]. }
  rewrite Z.mul_comm in H.
  destruct (Z.gauss _ _ _ H Hr) as [q Hq]. lia.
Qed.

Lemma same_residue (n n' x : Z) (k : nat) :
  n - n' = x * 10 ^ Z.of_nat k -> -97 < x < 97 -> n mod 97 = n' mod 97 -> x = 0.
Proof.
  intros Hd Hx Hm. apply (small_times_power_of_ten x k); [|exact Hx].
  rewrite <- Hd, Zminus_mod, Hm, Z.sub_diag. reflexivity.
Qed.

Lemma digit_value_inj (c c' : ascii) :
  is_digit c = true -> is_digit c' = true -> digit_value c = digit_value c' -> c = c'.
Proof.
  intros H H' E.
  rewrite <- (proj2 (digit_value_char c H)), <- (proj2 (digit_value_char c' H')).
  now rewrite E.
Qed.

Lemma all_digits_middle (a b : string) (c : ascii) :
  Spec.all_digits (a +:+ String c b) = true ->
  Spec.all_digits a = true /\ is_digit c = true /\ Spec.all_digits b = true.
Proof.
  rewrite all_digits_append, all_digits_cons, !andb_true_iff. tauto.
Qed.

Lemma length_append (a b : string) :
  String.length (a +:+ b) = (String.length a + String.length b)%nat.
Proof. induction a as [|c a IH]; cbn [String.append String.length]; [reflexivity | now rewrite IH]. Qed.

(** X2. Changing any one of the 22 digits of an accepted IBAN to another
    digit gives a string that is refused with the control-digit error. *)
Theorem single_digit_error_detected (pre post : string) (c c' : ascii) (n : string) :
  TransferRequest.validate_iban ("ES" +:+ pre +:+ String c post) = Return n ->
  is_digit c' = true -> c' <> c ->
  TransferRequest.validate_iban ("ES" +:+ pre +:+ String c' post)
  = Raise (AccountManagementException "Invalid IBAN control digit").
Proof.
  intros Hv Hc' Hne.
  assert (Hf : Spec.iban_form ("ES" +:+ pre +:+ String c post) = true).
  { destruct (Spec.iban_form _) eqn:E; [reflexivity|].
    rewrite (validate_iban_refused _ E) in Hv. discriminate. }
  apply iban_form_shape in Hf as (c1 & c2 & bban & E & H1 & H2 & Hb & Hl).
  cbn [String.append] in E, Hv |- *. injection E as E.
  assert (Hvc : forall x y, is_digit x = true -> is_digit y = true -> x <> y ->
                            digit_value x <> digit_value y).
  { intros x y Hx Hy Hxy Hd. apply Hxy. now apply digit_value_inj. }
  destruct pre as [|p1 [|p2 pre]]; cbn [String.append] in E, Hv |- *.
  - injection E as -> ->.
    rewrite validate_iban_digits in Hv |- * by assumption.
    destruct (_ =? _) eqn:Hk in Hv; [|discriminate]. apply Z.eqb_eq in Hk.
    pose proof (Hvc c' c1 Hc' H1 Hne).
    destruct (Z.eqb_spec (10 * digit_value c' + digit_value c2)
                (98 - Spec.decimal (bban +:+ "142800") mod 97)); [lia | reflexivity].
  - injection E as -> -> ->.
    rewrite validate_iban_digits in Hv |- * by assumption.
    destruct (_ =? _) eqn:Hk in Hv; [|discriminate]. apply Z.eqb_eq in Hk.
    pose proof (Hvc c' c2 Hc' H2 Hne).
    destruct (Z.eqb_spec (10 * digit_value c1 + digit_value c')
                (98 - Spec.decimal (bban +:+ "142800") mod 97)); [lia | reflexivity].
  - injection E as -> -> <-.
    apply all_digits_middle in Hb as (Hpre & Hc & Hpost).
    assert (Hb' : Spec.all_digits (pre +:+ String c' post) = true)
      by (now rewrite all_digits_append, all_digits_cons, Hpre, Hc', Hpost).
    assert (Hl' : String.length (pre +:+ String c' post) = 20%nat)
      by (rewrite length_append in Hl |- *; exact Hl).
    rewrite validate_iban_digits in Hv
      by (try assumption; now rewrite all_digits_append, all_digits_cons, Hpre, Hc, Hpost).
    rewrite validate_iban_digits by assumption.
    destruct (_ =? _) eqn:Hk in Hv; [|discriminate]. apply Z.eqb_eq in Hk.
    destruct (Z.eqb_spec (10 * digit_value c1 + digit_value c2)
                (98 - Spec.decimal ((pre +:+ String c' post) +:+ "142800") mod 97))
      as [Hk'|]; [|reflexivity].
    exfalso. apply (Hvc c' c Hc' Hc Hne).
    assert (Hx : digit_value c - digit_value c' = 0); [|lia].
    apply (same_residue (Spec.decimal ((pre +:+ String c post) +:+ "142800"))
             (Spec.decimal ((pre +:+ String c' post) +:+ "142800"))
             _ (String.length (post +:+ "142800"))).
    + rewrite !append_assoc. cbn [String.append].
      rewrite !(decimal_append pre), !decimal_cons. cbn [String.length]. lia.
    + pose proof (digit_value_char c Hc). pose proof (digit_value_char c' Hc'). lia.
    + lia.
Qed.

Lemma single_digit_error_detected_witness :
  TransferRequest.validate_iban "ES9121000418450200051342"
  = Raise (AccountManagementException "Invalid IBAN control digit").
Proof.
  apply (single_digit_error_detected "91210004184502000513" "2" "3" "4"
           "21000418450200051332142800").
  - vm_compute. reflexivity.
  - reflexivity.
  - discriminate.
Defined.

(** X3. Exchanging two adjacent, different digits of the BBAN of an
    accepted IBAN gives a string that is refused with the control-digit
    error. *)
Theorem adjacent_transposition_detected (c1 c2 a b : ascii) (x y n : string) :
  TransferRequest.validate_iban
    (String "E" (String "S" (String c1 (String c2 (x +:+ String a (String b y))))))
  = Return n ->
  a <> b ->
  TransferRequest.validate_iban
    (String "E" (String "S" (String c1 (String c2 (x +:+ String b (String a y))))))
  = Raise (AccountManagementException "Invalid IBAN control digit").
Proof.
  intros Hv Hne.
  assert (Hf : Spec.iban_form
                 (String "E" (String "S" (String c1 (String c2 (x +:+ String a (String b y))))))
               = true).
  { destruct (Spec.iban_form _) eqn:E; [reflexivity|].
    rewrite (validate_iban_refused _ E) in Hv. discriminate. }
  apply iban_form_shape in Hf as (d1 & d2 & bban & E & H1 & H2 & Hb & Hl).
  injection E as <- <- <-.
  apply all_digits_middle in Hb as (Hx & Ha & Hby).
  rewrite all_digits_cons in Hby. apply andb_true_iff in Hby as [Hb Hy].
  assert (Hd : Spec.all_digits (x +:+ String a (String b y)) = true)
    by (now rewrite all_digits_append, !all_digits_cons, Hx, Ha, Hb, Hy).
  assert (Hd' : Spec.all_digits (x +:+ String b (String a y)) = true)
    by (now rewrite all_digits_append, !all_digits_cons, Hx, Ha, Hb, Hy).
  assert (Hl' : String.length (x +:+ String b (String a y)) = 20%nat)
    by (rewrite length_append in Hl |- *; exact Hl).
  rewrite validate_iban_digits in Hv by assumption.
  rewrite validate_iban_digits by assumption.
  destruct (_ =? _) eqn:Hk in Hv; [|discriminate]. apply Z.eqb_eq in Hk.
  destruct (Z.eqb_spec (10 * digit_value c1 + digit_value c2)
              (98 - Spec.decimal ((x +:+ String b (String a y)) +:+ "142800") mod 97))
    as [Hk'|]; [|reflexivity].
  exfalso. apply Hne. apply digit_value_inj; [assumption..|].
  assert (Hz : 9 * (digit_value a - digit_value b) = 0); [|lia].
  apply (same_residue (Spec.decimal ((x +:+ String a (String b y)) +:+ "142800"))
           (Spec.decimal ((x +:+ String b (String a y)) +:+ "142800"))
           _ (String.length (y +:+ "142800"))).
  - rewrite !append_assoc. cbn [String.append].
    rewrite !(decimal_append x), !decimal_cons. cbn [String.length].
    rewrite !Nat2Z.inj_succ, !Z.pow_succ_r by lia. lia.
  - pose proof (digit_value_char a Ha). pose proof (digit_value_char b Hb). lia.
  - lia.
Qed.

Lemma adjacent_transposition_detected_witness :
  TransferRequest.validate_iban "ES9121000418450200051323"
  = Raise (AccountManagementException "Invalid IBAN control digit").
Proof.
  apply (adjacent_transposition_detected "9" "1" "3" "2" "210004184502000513" ""
           "21000418450200051332142800").
  - vm_compute. reflexivity.
  - discriminate.
Defined.

(** X4. What an accepted IBAN returns and satisfies: the result is the
    BBAN followed by [142800], a string of digits; the check digits lie
    between 02 and 98; and the BBAN followed by [1428] and the check digits
    denotes a number that is 1 modulo 97. *)
Theorem validate_iban_returns (iban n : string) :
  TransferRequest.validate_iban iban = Return n ->
  n = drop 4 iban +:+ "142800"
  /\ Spec.all_digits n = true
  /\ String.length n = 26%nat
  /\ 2 <= Spec.declared_code iban <= 98
  /\ Spec.decimal (drop 4 iban +:+ "1428" +:+ slice 2 4 iban) mod 97 = 1.
Proof.
  intros Hv.
  assert (Hf : Spec.iban_form iban = true).
  { destruct (Spec.iban_form _) eqn:E; [reflexivity|].
    rewrite (validate_iban_refused _ E) in Hv. discriminate. }
  apply iban_form_shape in Hf as (c1 & c2 & bban & -> & H1 & H2 & Hb & Hl).
  rewrite validate_iban_digits in Hv by assumption.
  destruct (_ =? _) eqn:Hk in Hv; [|discriminate]. apply Z.eqb_eq in Hk.
  injection Hv as <-. cbn [drop slice take Nat.sub].
  pose proof (Z.mod_pos_bound (Spec.decimal (bban +:+ "142800")) 97 ltac:(lia)) as Hr.
  unfold Spec.declared_code. cbn [slice drop take Nat.sub].
  replace (Spec.decimal (String c1 (String c2 "")))
    with (10 * digit_value c1 + digit_value c2)
    by (unfold Spec.decimal; cbn [Spec.decimal_from]; lia).
  repeat split; try lia.
  - now rewrite all_digits_append, Hb.
  - rewrite length_append, Hl. reflexivity.
  - rewrite <- append_assoc, decimal_append.
    replace (Spec.decimal (String c1 (String c2 "")))
      with (10 * digit_value c1 + digit_value c2)
      by (unfold Spec.decimal; cbn [Spec.decimal_from]; lia).
    cbn [String.length]. rewrite decimal_append in Hk, Hr.
    rewrite decimal_append. cbn [String.length] in *.
    change (Spec.decimal "142800") with 142800 in *.
    change (Spec.decimal "1428") with 1428.
    set (v := Spec.decimal bban) in *.
    pose proof (Z.div_mod (v * 10 ^ Z.of_nat 6 + 142800) 97 ltac:(lia)) as Hdm.
    symmetry. apply Z.mod_unique with (q := (v * 10 ^ Z.of_nat 6 + 142800) / 97 + 1); [lia|].
    change (10 ^ Z.of_nat 6) with 1000000 in *. change (10 ^ Z.of_nat 4) with 10000.
    change (10 ^ Z.of_nat 2) with 100. lia.
Qed.

Lemma validate_iban_returns_witness :
  "21000418450200051332142800" = drop 4 Sample.iban +:+ "142800"
  /\ Spec.all_digits "21000418450200051332142800" = true
  /\ String.length "21000418450200051332142800" = 26%nat
  /\ 2 <= Spec.declared_code Sample.iban <= 98
  /\ Spec.decimal (drop 4 Sample.iban +:+ "1428" +:+ slice 2 4 Sample.iban) mod 97 = 1.
Proof.
  apply (validate_iban_returns Sample.iban "21000418450200051332142800").
  vm_compute. reflexivity.
Defined.

(** X5. The check digits of a BBAN are unique: two accepted IBANs with the
    same last twenty digits are the same string. *)
Theorem check_digits_unique (iban iban' n n' : string) :
  TransferRequest.validate_iban iban = Return n ->
  TransferRequest.validate_iban iban' = Return n' ->
  drop 4 iban = drop 4 iban' ->
  iban = iban'.
Proof.
  intros Hv Hv' Hd.
  assert (Hf : Spec.iban_form iban = true).
  { destruct (Spec.iban_form iban) eqn:E; [reflexivity|].
    rewrite (validate_iban_refused _ E) in Hv. discriminate. }
  assert (Hf' : Spec.iban_form iban' = true).
  { destruct (Spec.iban_form iban') eqn:E; [reflexivity|].
    rewrite (validate_iban_refused _ E) in Hv'. discriminate. }
  apply iban_form_shape in Hf as (c1 & c2 & bban & -> & H1 & H2 & Hb & Hl).
  apply iban_form_shape in Hf' as (d1 & d2 & bban' & -> & G1 & G2 & Gb & Gl).
  cbn [drop] in Hd. subst bban'.
  rewrite validate_iban_digits in Hv, Hv' by assumption.
  destruct (_ =? _) eqn:Hk in Hv; [|discriminate]. apply Z.eqb_eq in Hk.
  destruct (_ =? _) eqn:Hk' in Hv'; [|discriminate]. apply Z.eqb_eq in Hk'.
  pose proof (digit_value_char c1 H1) as [? _]. pose proof (digit_value_char c2 H2) as [? _].
  pose proof (digit_value_char d1 G1) as [? _]. pose proof (digit_value_char d2 G2) as [? _].
  rewrite (digit_value_inj c1 d1), (digit_value_inj c2 d2) by (assumption || lia).
  reflexivity.
Qed.

Lemma check_digits_unique_witness : Sample.iban = "ES9121000418450200051332".
Proof.
  apply (check_digits_unique Sample.iban "ES9121000418450200051332"
           "21000418450200051332142800" "21000418450200051332142800");
    vm_compute; reflexivity.
Defined.

(** *** What a construction writes *)

Lemma init_success_self
      (from_iban transfer_type to_iban transfer_concept transfer_date : string)
      (transfer_amount : json) (transfer_store_file : string)
      (clk : clock) (d d' : disk) (self : TransferRequest.t) :
  TransferRequest.__init__ from_iban transfer_type to_iban transfer_concept
    transfer_date transfer_amount transfer_store_file clk d = (Return self, d') ->
  self = {| TransferRequest.transfer_store_file := transfer_store_file;
            TransferRequest.from_iban := from_iban;
            TransferRequest.to_iban := to_iban;
            TransferRequest.transfer_type := transfer_type;
            TransferRequest.transfer_concept := transfer_concept;
            TransferRequest.transfer_date := transfer_date;
            TransferRequest.transfer_amount := transfer_amount;
            TransferRequest.time_stamp := timestamp clk |}
  /\ TransferRequest.store_transfer_request self d = (Return tt, d').
Proof.
  unfold TransferRequest.__init__.
  destruct (_ ;;; _) as [?|?]; [|congruence].
  destruct (TransferRequest.store_transfer_request _ d) as [[[]|?] d0] eqn:Hs;
    [|congruence].
  intros H. injection H as <- <-. auto.
Qed.

Lemma load_other_file (p q : string) (content : json) (d d' : disk) :
  files d' = <[p := Document content]> (files d) -> q <> p -> load d' q = load d q.
Proof.
  intros H Hq. unfold load. rewrite H, lookup_insert_ne by congruence. reflexivity.
Qed.

Lemma construction_appends_aux
      (from_iban transfer_type to_iban transfer_concept transfer_date : string)
      (transfer_amount : json) (transfer_store_file : string)
      (clk : clock) (d d' : disk) (self : TransferRequest.t) :
  TransferRequest.__init__ from_iban transfer_type to_iban transfer_concept
    transfer_date transfer_amount transfer_store_file clk d = (Return self, d') ->
  exists l,
    load d' transfer_store_file = Loaded (JArr (l ++ [TransferRequest.to_json self])).
Proof.
  intros H. apply init_success_self in H as [-> Hs].
  apply store_success_inv in Hs as (l & _ & _ & Hd').
  cbn [TransferRequest.transfer_store_file] in Hd'.
  exists l. exact (load_after_store _ _ _ _ Hd').
Qed.

(** X6. A successful construction adds exactly one record, at the end of
    the list its store held (the empty list when the file was missing),
    and leaves every other file as it was. *)
Theorem construction_appends
        (from_iban transfer_type to_iban transfer_concept transfer_date : string)
        (transfer_amount : json) (transfer_store_file : string)
        (clk : clock) (d d' : disk) (self : TransferRequest.t) :
  TransferRequest.__init__ from_iban transfer_type to_iban transfer_concept
    transfer_date transfer_amount transfer_store_file clk d = (Return self, d') ->
  exists l,
    (load d transfer_store_file = Loaded (JArr l)
     \/ load d transfer_store_file = FileNotFound /\ l = [])
    /\ load d' transfer_store_file = Loaded (JArr (l ++ [TransferRequest.to_json self]))
    /\ forall q, q <> transfer_store_file -> load d' q = load d q.
Proof.
  intros H. apply init_success_self in H as [-> Hs].
  apply store_success_inv in Hs as (l & Hl & _ & Hd').
  cbn [TransferRequest.transfer_store_file] in Hl, Hd'.
  exists l. split; [exact Hl|]. split.
  - exact (load_after_store _ _ _ _ Hd').
  - intros q Hq. exact (load_other_file _ _ _ _ _ Hd' Hq).
Qed.

Lemma construction_appends_witness :
  exists l,
    (load Sample.empty_disk "transfers.json" = Loaded (JArr l)
     \/ load Sample.empty_disk "transfers.json" = FileNotFound /\ l = [])
    /\ load Derived.sample_disk "transfers.json"
       = Loaded (JArr (l ++ [TransferRequest.to_json Derived.sample_instance]))
    /\ forall q, q <> "transfers.json" -> load Derived.sample_disk q = load Sample.empty_disk q.
Proof.
  apply (construction_appends Sample.iban "ORDINARY" Sample.iban "Testing duplicates"
           "01/01/2030" (JFloat (Sample.literal "100.5")) "transfers.json"
           Sample.clk Sample.empty_disk Derived.sample_disk Derived.sample_instance).
  vm_compute. reflexivity.
Defined.

(** X7. Round trip: the record a successful construction leaves at the end
    of its store gives back the six values it was given, the time stamp of
    the clock and the transfer code of the instance. *)
Theorem stored_record_round_trip
        (from_iban transfer_type to_iban transfer_concept transfer_date : string)
        (transfer_amount : json) (transfer_store_file : string)
        (clk : clock) (d d' : disk) (self : TransferRequest.t) :
  TransferRequest.__init__ from_iban transfer_type to_iban transfer_concept
    transfer_date transfer_amount transfer_store_file clk d = (Return self, d') ->
  exists l record,
    load d' transfer_store_file = Loaded (JArr (l ++ [record]))
    /\ getitem record "from_iban" = Return (JStr from_iban)
    /\ getitem record "to_iban" = Return (JStr to_iban)
    /\ getitem record "transfer_type" = Return (JStr transfer_type)
    /\ getitem record "transfer_amount" = Return transfer_amount
    /\ getitem record "transfer_concept" = Return (JStr transfer_concept)
    /\ getitem record "transfer_date" = Return (JStr transfer_date)
    /\ getitem record "time_stamp" = Return (JFloat (timestamp clk))
    /\ getitem record "transfer_code" = Return (JStr (TransferRequest.transfer_code self)).
Proof.
  intros H. destruct (construction_appends_aux _ _ _ _ _ _ _ _ _ _ _ H) as (l & Hl).
  apply init_success_self in H as [-> _].
  exists l, (TransferRequest.to_json
               {| TransferRequest.transfer_store_file := transfer_store_file;
                  TransferRequest.from_iban := from_iban;
                  TransferRequest.to_iban := to_iban;
                  TransferRequest.transfer_type := transfer_type;
                  TransferRequest.transfer_concept := transfer_concept;
                  TransferRequest.transfer_date := transfer_date;
                  TransferRequest.transfer_amount := transfer_amount;
                  TransferRequest.time_stamp := timestamp clk |}).
  split; [exact Hl|]. repeat split.
Qed.

Lemma stored_record_round_trip_witness :
  exists l record,
    load Derived.sample_disk "transfers.json" = Loaded (JArr (l ++ [record]))
    /\ getitem record "from_iban" = Return (JStr Sample.iban)
    /\ getitem record "to_iban" = Return (JStr Sample.iban)
    /\ getitem record "transfer_type" = Return (JStr "ORDINARY")
    /\ getitem record "transfer_amount" = Return (JFloat (Sample.literal "100.5"))
    /\ getitem record "transfer_concept" = Return (JStr "Testing duplicates")
    /\ getitem record "transfer_date" = Return (JStr "01/01/2030")
    /\ getitem record "time_stamp" = Return (JFloat (timestamp Sample.clk))
    /\ getitem record "transfer_code"
       = Return (JStr (TransferRequest.transfer_code Derived.sample_instance)).
Proof.
  apply (stored_record_round_trip Sample.iban "ORDINARY" Sample.iban "Testing duplicates"
           "01/01/2030" (JFloat (Sample.literal "100.5")) "transfers.json"
           Sample.clk Sample.empty_disk Derived.sample_disk Derived.sample_instance).
  vm_compute. reflexivity.
Defined.

(** X8. [AccountManager.transfer_request] either raises and leaves the disk
    as it was, or returns the code that the last record of the transfers
    store now holds, next to the six values in the places the caller meant
    (the method passes them to the constructor in another order). *)
Theorem transfer_request_outcome (cfg : config)
        (from_iban to_iban concept transfer_type date : string) (amount : json)
        (clk : clock) (d d' : disk) (r : result string) :
  AccountManager.transfer_request cfg from_iban to_iban concept transfer_type date
    amount clk d = (r, d') ->
  match r with
  | Raise _ => d' = d
  | Return code =>
      exists l record,
        (load d (TRANSFERS_STORE_FILE cfg) = Loaded (JArr l)
         \/ load d (TRANSFERS_STORE_FILE cfg) = FileNotFound /\ l = [])
        /\ load d' (TRANSFERS_STORE_FILE cfg) = Loaded (JArr (l ++ [record]))
        /\ getitem record "transfer_code" = Return (JStr code)
        /\ Spec.record_fields record
           = [Return (JStr from_iban); Return (JStr to_iban); Return (JStr date);
              Return amount; Return (JStr concept); Return (JStr transfer_type)]
  end.
Proof.
  unfold AccountManager.transfer_request.
  destruct (TransferRequest.__init__ _ _ _ _ _ _ _ _ _) as [[self|e] d0] eqn:H;
    intros E; injection E as <- <-.
  - pose proof H as H'. apply init_success_self in H' as [-> Hs].
    apply store_success_inv in Hs as (l & Hl & _ & Hd').
    cbn [TransferRequest.transfer_store_file] in Hl, Hd'.
    eexists l, _. split; [exact Hl|]. split.
    + exact (load_after_store _ _ _ _ Hd').
    + split; reflexivity.
  - exact (init_failure_keeps_disk _ _ _ _ _ _ _ _ _ _ _ H).
Qed.

Lemma transfer_request_outcome_witness :
  exists l record,
    (load Sample.empty_disk "transfers.json" = Loaded (JArr l)
     \/ load Sample.empty_disk "transfers.json" = FileNotFound /\ l = [])
    /\ load Derived.sample_disk "transfers.json" = Loaded (JArr (l ++ [record]))
    /\ getitem record "transfer_code"
       = Return (JStr (TransferRequest.transfer_code Derived.sample_instance))
    /\ Spec.record_fields record
       = [Return (JStr Sample.iban); Return (JStr Sample.iban); Return (JStr "01/01/2030");
          Return (JFloat (Sample.literal "100.5")); Return (JStr "Testing duplicates");
          Return (JStr "ORDINARY")].
Proof.
  apply (transfer_request_outcome Sample.cfg Sample.iban Sample.iban "Testing duplicates"
           "ORDINARY" "01/01/2030" (JFloat (Sample.literal "100.5"))
           Sample.clk Sample.empty_disk Derived.sample_disk
           (Return (TransferRequest.transfer_code Derived.sample_instance))).
  vm_compute. reflexivity.
Defined.

(** *** A store that is not a list of records *)

(** X9. When the store file holds JSON that is not a list, no request can
    be stored: [store_transfer_request] raises [TypeError], or
    [AttributeError] when the value is an empty string or an empty object
    (the loop ends at once and [append] is missing), and writes nothing. *)
Theorem store_not_a_list (self : TransferRequest.t) (d : disk) (j : json) :
  load d (TransferRequest.transfer_store_file self) = Loaded j ->
  (forall l, j <> JArr l) ->
  TransferRequest.store_transfer_request self d
  = (Raise (if Derived.nothing_to_visit j then AttributeError else TypeError), d).
Proof.
  intros Hl Hj. unfold TransferRequest.store_transfer_request. rewrite Hl.
  destruct j as [| b | z | f | s | l | items]; try reflexivity.
  - destruct s as [|c s]; reflexivity.
  - destruct (Hj l eq_refl).
  - destruct items as [|[k v] items]; reflexivity.
Qed.

Lemma store_not_a_list_witness :
  TransferRequest.store_transfer_request Derived.sample_instance
    (Sample.disk_with "transfers.json" (JObj [("transfers", JArr [])]))
  = (Raise TypeError, Sample.disk_with "transfers.json" (JObj [("transfers", JArr [])])).
Proof.
  apply (store_not_a_list Derived.sample_instance
           (Sample.disk_with "transfers.json" (JObj [("transfers", JArr [])]))
           (JObj [("transfers", JArr [])])).
  - vm_compute. reflexivity.
  - intros l. discriminate.
Defined.

(** *** The duplicate scan *)

Lemma is_duplicate_of_stored (a b : TransferRequest.t) :
  TransferRequest.is_duplicate_transfer b (TransferRequest.to_json a)
  = if Derived.same_request a b
    then Raise (AccountManagementException "Duplicated transfer in transfer list")
    else Return tt.
Proof.
  unfold TransferRequest.is_duplicate_transfer, Derived.same_request.
  cbn [TransferRequest.to_json getitem assoc String.eqb Ascii.eqb Bool.eqb bind].
  change (py_eq (JStr ?x) (JStr ?y)) with (String.eqb x y).
  destruct (String.eqb (TransferRequest.from_iban a) _); [|reflexivity].
  destruct (String.eqb (TransferRequest.to_iban a) _); [|reflexivity].
  destruct (String.eqb (TransferRequest.transfer_date a) _); [|reflexivity].
  destruct (py_eq (TransferRequest.transfer_amount a) _); [|reflexivity].
  destruct (String.eqb (TransferRequest.transfer_concept a) _); [|reflexivity].
  destruct (String.eqb (TransferRequest.transfer_type a) _); reflexivity.
Qed.

Lemma scan_of_stored (self : TransferRequest.t) (stored : list TransferRequest.t) :
  TransferRequest.for_each (TransferRequest.is_duplicate_transfer self)
    (map TransferRequest.to_json stored)
  = if existsb (fun a => Derived.same_request a self) stored
    then Raise (AccountManagementException "Duplicated transfer in transfer list")
    else Return tt.
Proof.
  induction stored as [|a stored IH]; [reflexivity|].
  cbn [map TransferRequest.for_each existsb].
  rewrite is_duplicate_of_stored.
  destruct (Derived.same_request a self); [reflexivity|].
  cbn. exact IH.
Qed.

(** X10. Over a store of records written by constructions, the scan of
    [store_transfer_request] raises the duplicate error exactly when one of
    them has the six fields of the new request (amounts compared with
    [==]); the time stamp, the code and the store path of a record play no
    part, and the scan raises nothing else. *)
Theorem duplicate_scan (self : TransferRequest.t) (stored : list TransferRequest.t) :
  TransferRequest.for_each (TransferRequest.is_duplicate_transfer self)
    (map TransferRequest.to_json stored)
  = if existsb (fun a => Derived.same_request a self) stored
    then Raise (AccountManagementException "Duplicated transfer in transfer list")
    else Return tt.
Proof. exact (scan_of_stored self stored). Qed.

(** *** The balance of an account *)

Lemma sum_matching_log (iban : string) (log : list (string * json))
      (bal_s : float) (iban_found : bool) :
  AccountManager.sum_matching iban (map Derived.transaction log) bal_s iban_found
  = (total <- Derived.add_all (Derived.amounts_of iban log) bal_s ;;
     Return (total, iban_found || existsb (fun e => String.eqb (fst e) iban) log)).
Proof.
  revert bal_s iban_found. induction log as [|[k a] log IH]; intros bal_s iban_found.
  - cbn. now rewrite orb_false_r.
  - cbn [map AccountManager.sum_matching Derived.transaction fst snd getitem assoc
         String.eqb Ascii.eqb Bool.eqb bind].
    change (py_eq (JStr k) (JStr iban)) with (String.eqb k iban).
    unfold Derived.amounts_of. cbn [filter existsb fst snd].
    destruct (String.eqb k iban).
    + cbn [map Derived.add_all snd]. destruct (to_float a) as [f|e]; [|reflexivity].
      cbn [bind]. rewrite IH. unfold Derived.amounts_of.
      now rewrite orb_true_r.
    + rewrite IH. reflexivity.
Qed.

Lemma load_written (d : disk) (path : string) (content : json) :
  load (Derived.written d path content) path = Loaded content.
Proof. unfold load, Derived.written. cbn [files]. now rewrite lookup_insert_eq. Qed.

Lemma load_written_other (d : disk) (path q : string) (content : json) :
  q <> path -> load (Derived.written d path content) q = load d q.
Proof.
  intros Hq. unfold load, Derived.written. cbn [files].
  now rewrite lookup_insert_ne by congruence.
Qed.

Lemma dump_written (d : disk) (path : string) (content : json) :
  path ∉ no_directory d -> dump d path content = Some (Derived.written d path content).
Proof. intros H. unfold dump. destruct (decide _); [contradiction | reflexivity]. Qed.

Lemma dump_inv (d d' : disk) (path : string) (content : json) :
  dump d path content = Some d' -> d' = Derived.written d path content.
Proof. unfold dump. destruct (decide _); [discriminate|]. now intros [= <-]. Qed.

(** X11. What [calculate_balance] of the GE4 version computes, for an
    accepted IBAN whose numeric form is [n], a log of entries with an
    account and an amount, and a balances store that can be read and
    written: the entries of other accounts are skipped without a look at
    their amounts, the amounts of the entries of account [n] are added in
    order starting from 0, and one snapshot with that sum is appended to
    the balances store; without an entry for [n] the call raises
    [IBAN not found]; an amount that [float] refuses ends the call with that
    error. In both failures nothing is written. *)
Theorem calculate_balance_sums (cfg : config) (iban n : string) (clk : clock) (d : disk)
        (log : list (string * json)) (balances : list json) :
  GE4.validate_iban iban = Return n ->
  load d (TRANSACTIONS_STORE_FILE cfg) = Loaded (JArr (map Derived.transaction log)) ->
  Derived.holds d (BALANCES_STORE_FILE cfg) balances ->
  BALANCES_STORE_FILE cfg ∉ no_directory d ->
  GE4.calculate_balance cfg iban clk d
  = match Derived.add_all (Derived.amounts_of n log) (float_of_int 0) with
    | Raise e => (Raise e, d)
    | Return balance =>
        if existsb (fun e => String.eqb (fst e) n) log
        then (Return true,
              Derived.written d (BALANCES_STORE_FILE cfg)
                (JArr (balances ++ [Derived.snapshot n clk balance])))
        else (Raise (AccountManagementException "IBAN not found"), d)
    end.
Proof.
  intros Hv Ht Hb Hw. unfold GE4.calculate_balance. rewrite Hv.
  unfold AccountManager.balance_of, AccountManager.read_transactions_file.
  rewrite Ht. cbn [bind iterate]. rewrite sum_matching_log. cbn [orb].
  destruct (Derived.add_all _ _) as [balance|e]; cbn [bind]; [|reflexivity].
  destruct (existsb _ log); cbn [negb]; [|reflexivity].
  destruct Hb as [Hb|[Hb ->]]; rewrite Hb; cbn [bind append];
    rewrite dump_written by assumption; reflexivity.
Qed.

Lemma calculate_balance_sums_witness :
  GE4.calculate_balance Sample.cfg Sample.iban Sample.clk Derived.sample_log_disk
  = (Return true,
     Derived.written Derived.sample_log_disk "balances.json"
       (JArr [Derived.snapshot "21000418450200051332142800" Sample.clk
                (Sample.literal "70.0")])).
Proof.
  rewrite (calculate_balance_sums Sample.cfg Sample.iban "21000418450200051332142800"
             Sample.clk Derived.sample_log_disk Derived.sample_log []).
  - vm_compute. reflexivity.
  - vm_compute. reflexivity.
  - vm_compute. reflexivity.
  - right. split; vm_compute; reflexivity.
  - apply not_elem_of_empty.
Defined.

Lemma balance_of_outcome (cfg : config) (n : string) (clk : clock) (d d' : disk)
      (r : result bool) :
  AccountManager.balance_of cfg n clk d = (r, d') ->
  match r with
  | Raise _ => d' = d
  | Return b =>
      b = true
      /\ exists balance balances,
           Derived.holds d (BALANCES_STORE_FILE cfg) balances
           /\ d' = Derived.written d (BALANCES_STORE_FILE cfg)
                     (JArr (balances ++ [Derived.snapshot n clk balance]))
  end.
Proof.
  unfold AccountManager.balance_of.
  destruct (AccountManager.read_transactions_file cfg d) as [t_l|e]; cbn [bind];
    [|now intros [= <- <-]].
  destruct (iterate t_l) as [items|e]; cbn [bind]; [|now intros [= <- <-]].
  destruct (AccountManager.sum_matching _ _ _ _) as [[bal_s iban_found]|e]; cbn [bind];
    [|now intros [= <- <-]].
  destruct iban_found; cbn [negb]; [|now intros [= <- <-]].
  destruct (load d (BALANCES_STORE_FILE cfg)) as [| |j] eqn:Hb; cbn [bind append];
    [|now intros [= <- <-]|].
  - destruct (dump _ _ _) as [d0|] eqn:Hd; intros [= <- <-]; [|reflexivity].
    split; [reflexivity|]. exists bal_s, []. split; [now right|].
    exact (dump_inv _ _ _ _ Hd).
  - destruct j as [| | | | |l|]; cbn [bind append]; try now intros [= <- <-].
    destruct (dump _ _ _) as [d0|] eqn:Hd; intros [= <- <-]; [|reflexivity].
    split; [reflexivity|]. exists bal_s, l. split; [now left|].
    exact (dump_inv _ _ _ _ Hd).
Qed.

(** X12. [calculate_balance] of the GE4 version either raises and leaves
    the disk as it was, or returns [True] after adding one snapshot at the
    end of the balances store, for the numeric form of the IBAN and at the
    time of the clock; no other file changes and no snapshot is removed. *)
Theorem calculate_balance_outcome (cfg : config) (iban : string) (clk : clock)
        (d d' : disk) (r : result bool) :
  GE4.calculate_balance cfg iban clk d = (r, d') ->
  match r with
  | Raise _ => d' = d
  | Return b =>
      b = true
      /\ exists n balance balances,
           GE4.validate_iban iban = Return n
           /\ Derived.holds d (BALANCES_STORE_FILE cfg) balances
           /\ load d' (BALANCES_STORE_FILE cfg)
              = Loaded (JArr (balances ++ [Derived.snapshot n clk balance]))
           /\ forall q, q <> BALANCES_STORE_FILE cfg -> load d' q = load d q
  end.
Proof.
  unfold GE4.calculate_balance.
  destruct (GE4.validate_iban iban) as [n|e]; [|now intros [= <- <-]].
  intros H. apply balance_of_outcome in H. destruct r as [b|e]; [|exact H].
  destruct H as (-> & balance & balances & Hb & ->).
  split; [reflexivity|]. exists n, balance, balances.
  split; [reflexivity|]. split; [exact Hb|]. split.
  - apply load_written.
  - intros q Hq. now apply load_written_other.
Qed.

Lemma calculate_balance_outcome_witness :
  true = true
  /\ exists n balance balances,
       GE4.validate_iban Sample.iban = Return n
       /\ Derived.holds Derived.sample_log_disk "balances.json" balances
       /\ load (snd (GE4.calculate_balance Sample.cfg Sample.iban Sample.clk
                       Derived.sample_log_disk)) "balances.json"
          = Loaded (JArr (balances ++ [Derived.snapshot n Sample.clk balance]))
       /\ forall q, q <> "balances.json" ->
                    load (snd (GE4.calculate_balance Sample.cfg Sample.iban Sample.clk
                                 Derived.sample_log_disk)) q
                    = load Derived.sample_log_disk q.
Proof.
  apply (calculate_balance_outcome Sample.cfg Sample.iban Sample.clk
           Derived.sample_log_disk
           (snd (GE4.calculate_balance Sample.cfg Sample.iban Sample.clk
                   Derived.sample_log_disk))
           (Return true)).
  vm_compute. reflexivity.
Defined.

(** *** Deposits *)

(** X13. What [deposit_into_account] of the GE4 version does with an input
    object whose IBAN is accepted, with numeric form [n], and whose AMOUNT
    is a string: the text after its first four characters goes to [float],
    whatever the four characters and the form of the rest; an error of
    [float] or a zero ends the call with nothing written; otherwise one
    record, built for the account [n], is appended to the deposits store
    and its signature returned. *)
Theorem deposit_into_account_stores (cfg : config) (deposit : AccountDeposit)
        (input_file : string) (clk : clock) (d : disk)
        (i_d : json) (iban amount n : string) (deposits : list json) :
  load d input_file = Loaded i_d ->
  getitem i_d "IBAN" = Return (JStr iban) ->
  getitem i_d "AMOUNT" = Return (JStr amount) ->
  GE4.validate_iban iban = Return n ->
  Derived.holds d (DEPOSITS_STORE_FILE cfg) deposits ->
  DEPOSITS_STORE_FILE cfg ∉ no_directory d ->
  GE4.deposit_into_account cfg deposit input_file clk d
  = match float_of_str (drop 4 amount) with
    | Raise e => (Raise e, d)
    | Return f =>
        if float_eq f (float_of_int 0)
        then (Raise (AccountManagementException "Error - Deposit must be greater than 0"), d)
        else (Return (deposit_signature deposit n f clk),
              Derived.written d (DEPOSITS_STORE_FILE cfg)
                (JArr (deposits ++ [deposit_to_json deposit n f clk])))
    end.
Proof.
  intros Hl Hi Ha Hv Hs Hw. unfold GE4.deposit_into_account.
  rewrite Hl. cbn [bind]. rewrite Hi. cbn [bind]. rewrite Ha.
  cbn [bind fst snd AccountManager.as_str]. rewrite Hv.
  cbn [bind GE4.truth negb].
  destruct (float_of_str (drop 4 amount)) as [f|e]; cbn [bind]; [|reflexivity].
  destruct (float_eq f (float_of_int 0)); [reflexivity|].
  destruct Hs as [Hs|[Hs ->]]; rewrite Hs; cbn [bind append];
    rewrite dump_written by assumption; reflexivity.
Qed.

Lemma deposit_into_account_stores_witness :
  GE4.deposit_into_account Sample.cfg Sample.deposit "deposit.json" Sample.clk
    (Sample.disk_with "deposit.json" (Sample.deposit_input "USD 42.5"))
  = (Return (deposit_signature Sample.deposit "21000418450200051332142800"
               (Sample.literal "42.5") Sample.clk),
     Derived.written (Sample.disk_with "deposit.json" (Sample.deposit_input "USD 42.5"))
       "deposits.json"
       (JArr [deposit_to_json Sample.deposit "21000418450200051332142800"
                (Sample.literal "42.5") Sample.clk])).
Proof.
  rewrite (deposit_into_account_stores Sample.cfg Sample.deposit "deposit.json" Sample.clk
             (Sample.disk_with "deposit.json" (Sample.deposit_input "USD 42.5"))
             (Sample.deposit_input "USD 42.5") Sample.iban "USD 42.5"
             "21000418450200051332142800" []).
  - vm_compute. reflexivity.
  - vm_compute. reflexivity.
  - reflexivity.
  - reflexivity.
  - vm_compute. reflexivity.
  - right. split; vm_compute; reflexivity.
  - apply not_elem_of_empty.
Defined.

(** X14. [deposit_into_account] of the GE4 version either raises and
    leaves the disk as it was, or returns the signature of a deposit whose
    record it has added at the end of the deposits store: the amount of
    that deposit is not zero, its account is the numeric form of an IBAN,
    and no other file changes. *)
Theorem deposit_into_account_outcome (cfg : config) (deposit : AccountDeposit)
        (input_file : string) (clk : clock) (d d' : disk) (r : result string) :
  GE4.deposit_into_account cfg deposit input_file clk d = (r, d') ->
  match r with
  | Raise _ => d' = d
  | Return signature =>
      exists iban n f deposits,
        GE4.validate_iban iban = Return n
        /\ float_eq f (float_of_int 0) = false
        /\ signature = deposit_signature deposit n f clk
        /\ Derived.holds d (DEPOSITS_STORE_FILE cfg) deposits
        /\ load d' (DEPOSITS_STORE_FILE cfg)
           = Loaded (JArr (deposits ++ [deposit_to_json deposit n f clk]))
        /\ forall q, q <> DEPOSITS_STORE_FILE cfg -> load d' q = load d q
  end.
Proof.
  unfold GE4.deposit_into_account.
  destruct (load d input_file) as [| |i_d]; cbn [bind]; try now intros [= <- <-].
  destruct (getitem i_d "IBAN") as [a|e]; cbn [bind];
    [|destruct e; now intros [= <- <-]].
  destruct (getitem i_d "AMOUNT") as [b|e]; cbn [bind];
    [|destruct e; now intros [= <- <-]].
  cbn [fst snd]. destruct (AccountManager.as_str a) as [iban|e]; cbn [bind];
    [|now intros [= <- <-]].
  destruct (GE4.validate_iban iban) as [n|e] eqn:Hv; cbn [bind GE4.truth negb];
    [|now intros [= <- <-]].
  destruct (AccountManager.as_str b) as [amount|e]; cbn [bind]; [|now intros [= <- <-]].
  destruct (float_of_str _) as [f|e]; cbn [bind]; [|now intros [= <- <-]].
  destruct (float_eq f (float_of_int 0)) eqn:Hz; [now intros [= <- <-]|].
  assert (Hdone : forall deposits,
             Derived.holds d (DEPOSITS_STORE_FILE cfg) deposits ->
             match dump d (DEPOSITS_STORE_FILE cfg)
                     (JArr (deposits ++ [deposit_to_json deposit n f clk])) with
             | Some d0 => (Return (deposit_signature deposit n f clk), d0)
             | None => (Raise (AccountManagementException "Wrong file  or file path"), d)
             end = (r, d') ->
             match r with
             | Raise _ => d' = d
             | Return signature =>
                 exists iban n f deposits,
                   GE4.validate_iban iban = Return n
                   /\ float_eq f (float_of_int 0) = false
                   /\ signature = deposit_signature deposit n f clk
                   /\ Derived.holds d (DEPOSITS_STORE_FILE cfg) deposits
                   /\ load d' (DEPOSITS_STORE_FILE cfg)
                      = Loaded (JArr (deposits ++ [deposit_to_json deposit n f clk]))
                   /\ forall q, q <> DEPOSITS_STORE_FILE cfg -> load d' q = load d q
             end).
  { intros deposits Hs. destruct (dump _ _ _) as [d0|] eqn:Hd; intros [= <- <-];
      [|reflexivity].
    apply dump_inv in Hd as ->. exists iban, n, f, deposits.
    repeat (split; [assumption || reflexivity|]). split.
    - apply load_written.
    - intros q Hq. now apply load_written_other. }
  destruct (load d (DEPOSITS_STORE_FILE cfg)) as [| |j] eqn:Hs; cbn [bind append].
  - apply Hdone. now right.
  - now intros [= <- <-].
  - destruct j as [| | | | |l|]; cbn [bind append]; try now intros [= <- <-].
    apply Hdone. now left.
Qed.

Lemma deposit_into_account_outcome_witness :
  GE4.deposit_into_account Sample.cfg Sample.deposit "deposit.json" Sample.clk
    (Sample.disk_with "deposit.json" (Sample.deposit_input "EUR 0000.00"))
  = (Raise (AccountManagementException "Error - Deposit must be greater than 0"),
     Sample.disk_with "deposit.json" (Sample.deposit_input "EUR 0000.00"))
  /\ snd (GE4.deposit_into_account Sample.cfg Sample.deposit "deposit.json" Sample.clk
            (Sample.disk_with "deposit.json" (Sample.deposit_input "EUR 0000.00")))
     = Sample.disk_with "deposit.json" (Sample.deposit_input "EUR 0000.00").
Proof.
  split; [vm_compute; reflexivity|].
  apply (deposit_into_account_outcome Sample.cfg Sample.deposit "deposit.json" Sample.clk
           (Sample.disk_with "deposit.json" (Sample.deposit_input "EUR 0000.00"))
           (snd (GE4.deposit_into_account Sample.cfg Sample.deposit "deposit.json" Sample.clk
                   (Sample.disk_with "deposit.json" (Sample.deposit_input "EUR 0000.00"))))
           (Raise (AccountManagementException "Error - Deposit must be greater than 0"))).
  vm_compute. reflexivity.
Defined.


(** *** Sequences of calls *)

Lemma deposit_into_account_fails (cfg : config) (deposit : AccountDeposit)
      (input_file : string) (clk : clock) (d : disk) :
  snd (AccountManager.deposit_into_account cfg deposit input_file clk d) = d.
Proof.
  unfold AccountManager.deposit_into_account.
  destruct (load d input_file) as [| |i_d]; cbn [bind]; try reflexivity.
  destruct (getitem i_d "IBAN") as [a|e]; cbn [bind]; [|destruct e; reflexivity].
  destruct (getitem i_d "AMOUNT") as [b|e]; cbn [bind]; [|destruct e; reflexivity].
  reflexivity.
Qed.

Lemma holds_unique (d : disk) (path : string) (l l' : list json) :
  Derived.holds d path l -> Derived.holds d path l' -> l = l'.
Proof. intros [H|[H ->]] [H'|[H' ->]]; congruence. Qed.

Lemma run_grows (cfg : config) (deposit : AccountDeposit) (c : Derived.call)
      (clk : clock) (d : disk) (transfers : list json) :
  Derived.holds d (TRANSFERS_STORE_FILE cfg) transfers ->
  (exists added, Derived.holds (Derived.run cfg deposit c clk d) (TRANSFERS_STORE_FILE cfg)
                   (transfers ++ added))
  /\ forall q, q <> TRANSFERS_STORE_FILE cfg ->
               load (Derived.run cfg deposit c clk d) q = load d q.
Proof.
  intros Hh.
  assert (Hsame : forall d0, d0 = d ->
            (exists added, Derived.holds d0 (TRANSFERS_STORE_FILE cfg) (transfers ++ added))
            /\ forall q, q <> TRANSFERS_STORE_FILE cfg -> load d0 q = load d q).
  { intros d0 ->. split; [|reflexivity]. exists []. now rewrite app_nil_r. }
  destruct c as [from_iban to_iban concept transfer_type date amount|input_file|iban];
    cbn [Derived.run].
  - unfold AccountManager.transfer_request.
    destruct (TransferRequest.__init__ _ _ _ _ _ _ _ _ _) as [[self|e] d0] eqn:H;
      cbn [snd].
    + apply init_success_self in H as [-> Hs].
      apply store_success_inv in Hs as (l & Hl & _ & Hd').
      cbn [TransferRequest.transfer_store_file] in Hl, Hd'.
      rewrite (holds_unique _ _ _ _ Hh Hl). split.
      * eexists [_]. left. exact (load_after_store _ _ _ _ Hd').
      * intros q Hq. exact (load_other_file _ _ _ _ _ Hd' Hq).
    + apply Hsame. exact (init_failure_keeps_disk _ _ _ _ _ _ _ _ _ _ _ H).
  - apply Hsame, deposit_into_account_fails.
  - apply Hsame. reflexivity.
Qed.

(** X15. Through the [AccountManager] of src/main, whatever sequence of
    calls is made and whatever each call returns or raises, the transfers
    store only grows: the records it held stay, in order, at its start; and
    no other file is ever written (so no deposit and no balance is ever
    recorded). *)
Theorem calls_only_append (cfg : config) (deposit : AccountDeposit)
        (calls : list (Derived.call * clock)) (d : disk) (transfers : list json) :
  Derived.holds d (TRANSFERS_STORE_FILE cfg) transfers ->
  (exists added, Derived.holds (Derived.run_all cfg deposit calls d)
                   (TRANSFERS_STORE_FILE cfg) (transfers ++ added))
  /\ forall q, q <> TRANSFERS_STORE_FILE cfg ->
               load (Derived.run_all cfg deposit calls d) q = load d q.
Proof.
  revert d transfers. induction calls as [|[c clk] calls IH]; intros d transfers Hh.
  - cbn. split; [|reflexivity]. exists []. now rewrite app_nil_r.
  - cbn [Derived.run_all].
    destruct (run_grows cfg deposit c clk d transfers Hh) as [[added Ha] Hf].
    destruct (IH _ _ Ha) as [[added' Ha'] Hf'].
    split.
    + exists (added ++ added'). now rewrite app_assoc.
    + intros q Hq. now rewrite Hf', Hf.
Qed.

Lemma calls_only_append_witness :
  (exists added,
      Derived.holds
        (Derived.run_all Sample.cfg Sample.deposit
           [ (Derived.Deposit "deposit.json", Sample.clk);
             (Derived.Transfer Sample.iban Sample.iban "Testing duplicates" "ORDINARY"
                "01/01/2030" (JInt 25), Sample.clk);
             (Derived.Balance Sample.iban, Sample.clk') ]
           (Sample.disk_with "deposit.json" (Sample.deposit_input "EUR 0042.50")))
        "transfers.json" ([] ++ added))
  /\ forall q, q <> "transfers.json" ->
               load (Derived.run_all Sample.cfg Sample.deposit
                       [ (Derived.Deposit "deposit.json", Sample.clk);
                         (Derived.Transfer Sample.iban Sample.iban "Testing duplicates"
                            "ORDINARY" "01/01/2030" (JInt 25), Sample.clk);
                         (Derived.Balance Sample.iban, Sample.clk') ]
                       (Sample.disk_with "deposit.json" (Sample.deposit_input "EUR 0042.50"))) q
               = load (Sample.disk_with "deposit.json" (Sample.deposit_input "EUR 0042.50")) q.
Proof.
  apply (calls_only_append Sample.cfg Sample.deposit
           [ (Derived.Deposit "deposit.json", Sample.clk);
             (Derived.Transfer Sample.iban Sample.iban "Testing duplicates" "ORDINARY"
                "01/01/2030" (JInt 25), Sample.clk);
             (Derived.Balance Sample.iban, Sample.clk') ]
           (Sample.disk_with "deposit.json" (Sample.deposit_input "EUR 0042.50")) []).
  right. split; vm_compute; reflexivity.
Defined.

(** *** Amounts *)

Lemma all_from_spec (test : Z -> bool) (n : nat) (lo k : Z) :
  Derived.all_from test n lo = true -> lo <= k < lo + Z.of_nat n -> test k = true.
Proof.
  revert lo. induction n as [|n IH]; intros lo H Hk; [lia|].
  cbn [Derived.all_from] in H. apply andb_true_iff in H as [H1 H2].
  destruct (Z.eq_dec k lo) as [->|Hne]; [exact H1|].
  apply (IH (lo + 1)); [exact H2 | lia].
Qed.

Lemma accepted_unit (r : result unit) : Derived.accepted r = true -> r = Return tt.
Proof. destruct r as [[]|e]; [reflexivity | discriminate]. Qed.

(** X16. Every whole amount from 10 to 10000 is accepted by
    [validate_amount], whether it is given as an [int], as the decimal text
    of that [int] or as a [float]. *)
Theorem whole_amounts_accepted (k : Z) :
  10 <= k <= 10000 ->
  TransferRequest.validate_amount (JInt k) = Return tt
  /\ TransferRequest.validate_amount (JStr (str_of_Z k)) = Return tt
  /\ TransferRequest.validate_amount (JFloat (float_of_int k)) = Return tt.
Proof.
  intros Hk.
  assert (Hall : Derived.all_from Derived.whole_amount_ok (Z.to_nat 9991) 10 = true)
    by (vm_compute; reflexivity).
  pose proof (all_from_spec _ _ _ k Hall ltac:(lia)) as H.
  unfold Derived.whole_amount_ok in H.
  apply andb_true_iff in H as [H1 H2].
  apply accepted_unit in H1, H2. split; [exact H1 | split; [exact H2|]].
  revert H1. unfold TransferRequest.validate_amount. cbn [to_float].
  destruct (float_of_int k) as [s|s| |s m e]; cbn [bind];
    [intros H; exact H|intros [=]|intros H; exact H|intros H; exact H].
Qed.

Lemma whole_amounts_accepted_witness :
  TransferRequest.validate_amount (JInt 2500) = Return tt
  /\ TransferRequest.validate_amount (JStr (str_of_Z 2500)) = Return tt
  /\ TransferRequest.validate_amount (JFloat (float_of_int 2500)) = Return tt.
Proof. apply (whole_amounts_accepted 2500). lia. Defined.

Lemma float_of_str_raises (s : string) (e : exn) :
  float_of_str s = Raise e -> e = ValueError.
Proof.
  unfold float_of_str.
  destruct (signed (strip s)) as [neg body].
  destruct (_ || _); [discriminate|].
  destruct (String.eqb _ "nan"); [discriminate|].
  destruct (digitpart 0 0 body) as [[ip ni] r1].
  destruct (match r1 with String "." r => digitpart ip 0 r | _ => (ip, O, r1) end)
    as [[m nf] r2].
  destruct (Nat.eqb _ 0); [congruence|].
  destruct r2 as [|c r3]; [discriminate|].
  destruct (Ascii.eqb _ "e"); [|congruence].
  destruct (signed r3) as [eneg r4].
  destruct (digitpart 0 0 r4) as [[ex [|n]] [|c' r5]]; congruence.
Qed.

(** X17. The errors [validate_amount] can raise: for a [str], a [float] or
    a [bool] only the invalid-amount error; for an [int] that error or
    [OverflowError]; for any other value [TypeError], which is not an
    [AccountManagementException]. *)
Theorem validate_amount_errors (amount : json) (e : exn) :
  TransferRequest.validate_amount amount = Raise e ->
  match amount with
  | JStr _ | JFloat _ | JBool _ =>
      e = AccountManagementException "Invalid transfer amount"
  | JInt _ =>
      e = AccountManagementException "Invalid transfer amount" \/ e = OverflowError
  | _ => e = TypeError
  end.
Proof.
  unfold TransferRequest.validate_amount.
  assert (Hrest : forall f,
             ((if contains "." (repr f)
               then if (2 <? String.length (nth 1 (split "." (repr f)) ""))%nat
                    then Raise (AccountManagementException "Invalid transfer amount")
                    else Return tt
               else Return tt) ;;;
              (if float_lt f (float_of_int 10) || float_gt f (float_of_int 10000)
               then Raise (AccountManagementException "Invalid transfer amount")
               else Return tt)) = Raise e ->
             e = AccountManagementException "Invalid transfer amount").
  { intros f. destruct (contains "." (repr f)); [destruct (_ <? _)%nat|]; cbn [bind];
      try destruct (_ || _); congruence. }
  destruct amount as [| b | z | f | s | l | items]; cbn [to_float bind];
    try congruence; try (exact (Hrest _)).
  - destruct (float_of_int z) as [s|s| |s m e0]; cbn [bind];
      [|intros [= <-]; now right| |]; intros H; left;
      [apply (Hrest (S754_zero s))|apply (Hrest S754_nan)|apply (Hrest (S754_finite s m e0))];
      exact H.
  - destruct (float_of_str s) as [f|e'] eqn:Es; cbn [bind]; [exact (Hrest f)|].
    apply float_of_str_raises in Es as ->. cbn [bind]. congruence.
Qed.

Lemma validate_amount_errors_witness :
  OverflowError = AccountManagementException "Invalid transfer amount"
  \/ OverflowError = OverflowError.
Proof.
  apply (validate_amount_errors (JInt (10 ^ 400)) OverflowError).
  vm_compute. reflexivity.
Defined.

(** *** The transfer code *)

Lemma hex_digit_is_hex (n : N) : (n < 16)%N -> Derived.is_hex (hex_digit n) = true.
Proof.
  intros Hn. destruct n as [|p]; [reflexivity|].
  do 4 (destruct p as [p|p|]; try reflexivity; try lia).
Qed.

Lemma hex_of_bytes (bytes : list Z) :
  Forall (fun b => 0 <= b < 256) bytes ->
  String.length (MD5.hex bytes) = (2 * List.length bytes)%nat
  /\ Spec.all_chars Derived.is_hex (MD5.hex bytes) = true.
Proof.
  induction 1 as [|b bytes Hb _ [IHl IHc]]; [split; reflexivity|].
  cbn [MD5.hex String.length List.length Spec.all_chars]. split; [lia|].
  rewrite IHc, !hex_digit_is_hex; [reflexivity|..].
  - assert (0 <= b mod 16 < 16) by (apply Z.mod_pos_bound; lia). lia.
  - assert (0 <= b / 16 < 16)
      by (split; [apply Z.div_pos; lia | apply Z.div_lt_upper_bound; lia]).
    lia.
Qed.

Lemma le_bytes_range (n : nat) (x : Z) :
  Forall (fun b => 0 <= b < 256) (MD5.le_bytes n x)
  /\ List.length (MD5.le_bytes n x) = n.
Proof.
  unfold MD5.le_bytes. split.
  - apply Forall_forall. intros b Hb. apply in_map_iff in Hb as (i & <- & _).
    change 255 with (Z.ones 8). rewrite Z.land_ones by lia.
    apply Z.mod_pos_bound. lia.
  - now rewrite length_map, length_seq.
Qed.

(** X18. The transfer code of any instance is a string of 32 characters,
    each a digit or a letter from [a] to [f]. *)
Theorem transfer_code_shape (self : TransferRequest.t) :
  String.length (TransferRequest.transfer_code self) = 32%nat
  /\ Spec.all_chars Derived.is_hex (TransferRequest.transfer_code self) = true.
Proof.
  unfold TransferRequest.transfer_code, MD5.hexdigest, MD5.digest.
  set (st := MD5.blocks _ _ _).
  destruct (le_bytes_range 4 (MD5.sa st)) as [Ha La].
  destruct (le_bytes_range 4 (MD5.sb st)) as [Hb Lb].
  destruct (le_bytes_range 4 (MD5.sc st)) as [Hc Lc].
  destruct (le_bytes_range 4 (MD5.sd st)) as [Hd Ld].
  destruct (hex_of_bytes (MD5.le_bytes 4 (MD5.sa st) ++ MD5.le_bytes 4 (MD5.sb st)
                          ++ MD5.le_bytes 4 (MD5.sc st) ++ MD5.le_bytes 4 (MD5.sd st)))
    as [Hl Hh].
  { repeat (apply Forall_app; split; [assumption|]). assumption. }
  split; [|exact Hh].
  rewrite Hl, !length_app, La, Lb, Lc, Ld. reflexivity.
Qed.

(** *** The two versions of the checks *)

Lemma transfer_type_checks_agree (transfer_type : string) :
  transfer_type <> "IMMEDIATE" -> transfer_type <> "INMEDIATE" ->
  GE4.check_transfer_type transfer_type
  = TransferRequest.validate_transfer_type transfer_type.
Proof.
  intros H1 H2.
  unfold TransferRequest.validate_transfer_type, TransferRequest.check_regular,
    TransferRequest.transfer_type_pattern, GE4.check_transfer_type, GE4.check_regex,
    GE4.transfer_type_pattern.
  rewrite !fullmatch_Or, !fullmatch_lit.
  replace (String.eqb "IMMEDIATE" transfer_type) with false
    by (symmetry; apply String.eqb_neq; congruence).
  replace (String.eqb "INMEDIATE" transfer_type) with false
    by (symmetry; apply String.eqb_neq; congruence).
  reflexivity.
Qed.

(** X19. The checks at the head of [transfer_request] in the GE4 version
    and the checks of the constructor of [TransferRequest] give the same
    outcome, the same error included, on every input whose transfer type
    is not one of the two spellings [IMMEDIATE] and [INMEDIATE]. *)
Theorem checks_agree (from_iban to_iban concept transfer_type date : string)
        (amount : json) (clk : clock) :
  transfer_type <> "IMMEDIATE" -> transfer_type <> "INMEDIATE" ->
  GE4.transfer_request_checks from_iban to_iban concept transfer_type date amount clk
  = (TransferRequest.validate_iban from_iban ;;;
     TransferRequest.validate_iban to_iban ;;;
     TransferRequest.validate_concept concept ;;;
     TransferRequest.validate_transfer_type transfer_type ;;;
     TransferRequest.validate_transfer_date clk (code_points date) ;;;
     TransferRequest.validate_amount amount).
Proof.
  intros H1 H2. unfold GE4.transfer_request_checks.
  rewrite (transfer_type_checks_agree _ H1 H2). reflexivity.
Qed.

Lemma checks_agree_witness :
  GE4.transfer_request_checks Sample.iban Sample.iban "Testing duplicates" "URGENT"
    "01/01/2030" (JInt 25) Sample.clk
  = (TransferRequest.validate_iban Sample.iban ;;;
     TransferRequest.validate_iban Sample.iban ;;;
     TransferRequest.validate_concept "Testing duplicates" ;;;
     TransferRequest.validate_transfer_type "URGENT" ;;;
     TransferRequest.validate_transfer_date Sample.clk (code_points "01/01/2030") ;;;
     TransferRequest.validate_amount (JInt 25)).
Proof.
  apply (checks_agree Sample.iban Sample.iban "Testing duplicates" "URGENT"
           "01/01/2030" (JInt 25) Sample.clk); discriminate.
Defined.

(** *** Concepts that are refused and concepts that are accepted *)

Lemma validate_concept_ok (concept : string) :
  TransferRequest.validate_concept concept
  = if Derived.concept_ok concept then Return tt
    else Raise (AccountManagementException "Invalid concept format").
Proof.
  unfold TransferRequest.validate_concept, TransferRequest.check_regular.
  rewrite concept_pattern_ok. destruct (Derived.concept_ok concept); reflexivity.
Qed.

Lemma scan_refused (concept : string) :
  Derived.scan Derived.AtStart concept = false ->
  TransferRequest.validate_concept concept
  = Raise (AccountManagementException "Invalid concept format").
Proof.
  intros H. rewrite validate_concept_ok. unfold Derived.concept_ok.
  now rewrite H, andb_false_r.
Qed.

Lemma space_not_letter (c : ascii) : is_space c = true -> Derived.is_letter c = false.
Proof.
  intros H. destruct (Derived.is_letter c) eqn:E; [|reflexivity].
  apply letter_not_space in E. congruence.
Qed.

Lemma scan_other_character (st : Derived.concept_state) (pre post : string) (c : ascii) :
  Derived.is_letter c = false -> is_space c = false ->
  Derived.scan st (pre +:+ String c post) = false.
Proof.
  intros Hl Hs. revert st. induction pre as [|a pre IH]; intros st;
    cbn [String.append Derived.scan].
  - destruct st; rewrite Hl; try rewrite Hs; reflexivity.
  - destruct st; rewrite ?IH, ?andb_false_r; try reflexivity.
    destruct (Derived.is_letter a); reflexivity.
Qed.

Lemma scan_at_separator (st : Derived.concept_state) (pre post : string) (a : ascii) :
  is_space a = true ->
  (pre = EmptyString /\ st <> Derived.InWord false /\ st <> Derived.InWord true)
  \/ post = EmptyString
  \/ (exists b post', post = String b post' /\ is_space b = true) ->
  Derived.scan st (pre +:+ String a post) = false.
Proof.
  intros Ha. pose proof (space_not_letter a Ha) as Hl.
  revert st. induction pre as [|c pre IH]; intros st Hc; cbn [String.append Derived.scan].
  - destruct st as [|separated|]; rewrite Hl; try reflexivity. rewrite Ha. cbn [andb].
    destruct Hc as [(_ & H1 & H2)|[->|(b & post' & -> & Hb)]].
    + destruct separated; congruence.
    + reflexivity.
    + cbn [Derived.scan]. now rewrite (space_not_letter b Hb).
  - destruct Hc as [(H & _)|Hc]; [discriminate H|].
    destruct st as [|separated|]; rewrite ?(IH _ (or_intror Hc)), ?andb_false_r;
      try reflexivity.
    destruct (Derived.is_letter c); reflexivity.
Qed.

(** X20. A concept that holds, anywhere, a character that is neither an
    ASCII letter nor white space (a digit, a punctuation mark, an accented
    letter) is refused. *)
Theorem concept_other_character (pre post : string) (c : ascii) :
  Derived.is_letter c = false -> is_space c = false ->
  TransferRequest.validate_concept (pre +:+ String c post)
  = Raise (AccountManagementException "Invalid concept format").
Proof.
  intros Hl Hs. apply scan_refused. now apply scan_other_character.
Qed.

Lemma concept_other_character_witness :
  TransferRequest.validate_concept "Invoice 2025 March"
  = Raise (AccountManagementException "Invalid concept format").
Proof.
  apply (concept_other_character "Invoice " "025 March" "2"); reflexivity.
Defined.

(** X21. White space is accepted only as one character between two
    letters: a concept that starts or ends with white space, or holds two
    white-space characters in a row, is refused. *)
Theorem concept_separators (pre post : string) (a : ascii) :
  is_space a = true ->
  pre = EmptyString \/ post = EmptyString
  \/ (exists b post', post = String b post' /\ is_space b = true) ->
  TransferRequest.validate_concept (pre +:+ String a post)
  = Raise (AccountManagementException "Invalid concept format").
Proof.
  intros Ha Hc. apply scan_refused. apply scan_at_separator; [exact Ha|].
  destruct Hc as [->|Hc]; [left | right; exact Hc].
  repeat split; discriminate.
Qed.

Lemma concept_separators_witness :
  TransferRequest.validate_concept "Monthly  rent payment"
  = Raise (AccountManagementException "Invalid concept format").
Proof.
  apply (concept_separators "Monthly" " rent payment" " "); [reflexivity|].
  right. right. exists " "%char, "rent payment". split; reflexivity.
Defined.

Lemma all_chars_append (p : ascii -> bool) (a b : string) :
  Spec.all_chars p (a +:+ b) = Spec.all_chars p a && Spec.all_chars p b.
Proof.
  induction a as [|c a IH]; cbn [String.append Spec.all_chars]; [reflexivity|].
  now rewrite IH, andb_assoc.
Qed.

Lemma letter_not_line_feed (c : ascii) :
  Derived.is_letter c = true -> Derived.not_line_feed c = true.
Proof.
  intros H. unfold Derived.not_line_feed.
  destruct (Ascii.eqb_spec c (chr 10)) as [->|]; [discriminate H | reflexivity].
Qed.

Lemma letters_not_line_feed (w : string) :
  Spec.all_chars Derived.is_letter w = true ->
  Spec.all_chars Derived.not_line_feed w = true.
Proof.
  induction w as [|c w IH]; cbn [Spec.all_chars]; [reflexivity|].
  rewrite andb_true_iff. intros [Hc Hw]. now rewrite (letter_not_line_feed c Hc), IH.
Qed.

Lemma scan_letters (separated : bool) (w rest : string) :
  Spec.all_chars Derived.is_letter w = true ->
  Derived.scan (Derived.InWord separated) (w +:+ rest)
  = Derived.scan (Derived.InWord separated) rest.
Proof.
  induction w as [|c w IH]; cbn [String.append Spec.all_chars Derived.scan];
    [reflexivity|].
  rewrite andb_true_iff. intros [Hc Hw]. rewrite Hc. exact (IH Hw).
Qed.

Lemma scan_word (st : Derived.concept_state) (w rest : string) :
  Derived.is_word w = true ->
  Derived.scan st (w +:+ rest)
  = Derived.scan (Derived.InWord match st with
                                 | Derived.AtStart => false
                                 | Derived.InWord separated => separated
                                 | Derived.AfterSpace => true
                                 end) rest.
Proof.
  unfold Derived.is_word. destruct w as [|c w]; [discriminate|].
  cbn [String.eqb negb andb Spec.all_chars]. rewrite andb_true_iff. intros [Hc Hw].
  cbn [String.append Derived.scan].
  destruct st; rewrite Hc; cbn [andb]; now apply scan_letters.
Qed.

Lemma join_words (words : list string) :
  forallb Derived.is_word words = true -> words <> [] ->
  Derived.scan Derived.AfterSpace (Derived.join words) = true
  /\ Spec.all_chars Derived.not_line_feed (Derived.join words) = true.
Proof.
  induction words as [|w words IH]; [congruence|].
  cbn [forallb]. rewrite andb_true_iff. intros [Hw Hws] _.
  assert (Hn : Spec.all_chars Derived.not_line_feed w = true).
  { apply letters_not_line_feed. unfold Derived.is_word in Hw.
    now apply andb_true_iff in Hw as [_ Hw]. }
  destruct words as [|w' words].
  - cbn [Derived.join]. split; [|exact Hn].
    rewrite <- (append_nil_r w), (scan_word _ _ _ Hw). reflexivity.
  - destruct (IH Hws ltac:(discriminate)) as [IHs IHn].
    change (Derived.join (w :: w' :: words))
      with (w +:+ String " " (Derived.join (w' :: words))).
    split.
    + rewrite (scan_word _ _ _ Hw). cbn [Derived.scan].
      change (Derived.is_letter " ") with false. change (is_space " ") with true.
      exact IHs.
    + rewrite all_chars_append, Hn. cbn [Spec.all_chars andb]. exact IHn.
Qed.

(** X22. Two or more words, each of one letter or more and of letters
    only, joined by single spaces, make an accepted concept whenever the
    whole is 10 to 30 characters long. *)
Theorem concept_of_words (w : string) (words : list string) :
  forallb Derived.is_word (w :: words) = true ->
  words <> [] ->
  (10 <= String.length (Derived.join (w :: words)) <= 30)%nat ->
  TransferRequest.validate_concept (Derived.join (w :: words)) = Return tt.
Proof.
  intros Hw Hne [Hlo Hhi]. rewrite validate_concept_ok.
  cbn [forallb] in Hw. apply andb_true_iff in Hw as [Hw Hws].
  destruct (join_words words Hws Hne) as [Hs Hn].
  assert (Hw' : Spec.all_chars Derived.not_line_feed w = true).
  { apply letters_not_line_feed. unfold Derived.is_word in Hw.
    now apply andb_true_iff in Hw as [_ Hw]. }
  destruct words as [|w' words]; [congruence|].
  unfold Derived.concept_ok.
  apply Nat.leb_le in Hlo, Hhi. rewrite Hlo, Hhi. cbn [andb].
  change (Derived.join (w :: w' :: words))
    with (w +:+ String " " (Derived.join (w' :: words))).
  rewrite all_chars_append, Hw'. cbn [Spec.all_chars andb]. rewrite Hn.
  rewrite (scan_word _ _ _ Hw). cbn [Derived.scan andb].
  change (Derived.is_letter " ") with false. change (is_space " ") with true.
  cbn [andb]. rewrite Hs. reflexivity.
Qed.

Lemma concept_of_words_witness :
  TransferRequest.validate_concept (Derived.join ["Monthly"; "rent"; "payment"]) = Return tt.
Proof.
  apply (concept_of_words "Monthly" ["rent"; "payment"]).
  - reflexivity.
  - discriminate.
  - cbn. lia.
Defined.

(** *** The date and the clock *)

(** X23. The clock enters the check of the date only through the
    comparison with today: a date string accepted at one instant is, at any
    other instant, refused as past when its date is before that day and
    accepted otherwise. *)
Theorem date_validity_window (clk clk' : clock) (s : text) (dt : date) :
  TransferRequest.validate_transfer_date clk s = Return s ->
  strptime_dmy s = Return dt ->
  TransferRequest.validate_transfer_date clk' s
  = if date_lt dt (today clk')
    then Raise (AccountManagementException "Transfer date must be today or later.")
    else Return s.
Proof.
  unfold TransferRequest.validate_transfer_date. intros H Hp.
  destruct (TransferRequest.check_regular_text _ s); cbn [negb] in H |- *;
    [|discriminate H].
  rewrite Hp in H |- *. cbn [bind] in H |- *.
  destruct (date_lt dt (today clk)); [discriminate H|].
  destruct (_ || _); [discriminate H|].
  reflexivity.
Qed.

Lemma date_validity_window_witness :
  TransferRequest.validate_transfer_date Sample.next_day (code_points "03/11/2026")
  = if date_lt {| year := 2026; month := 11; day := 3 |} (today Sample.next_day)
    then Raise (AccountManagementException "Transfer date must be today or later.")
    else Return (code_points "03/11/2026").
Proof.
  apply (date_validity_window Sample.clk Sample.next_day (code_points "03/11/2026")
           {| year := 2026; month := 11; day := 3 |}); vm_compute; reflexivity.
Defined.

(** *** When a construction succeeds *)

(** X24. The whole outcome of a construction whose six values pass their
    checks, on a store that holds records written by earlier constructions
    (or is missing) and can be written: when one of those records has the
    same six fields the duplicate error is raised and nothing is written;
    otherwise the instance is returned and its record is appended. *)
Theorem construction_outcome
        (from_iban transfer_type to_iban transfer_concept transfer_date : string)
        (transfer_amount : json) (transfer_store_file : string)
        (clk : clock) (d : disk) (stored : list TransferRequest.t) :
  let self := {| TransferRequest.transfer_store_file := transfer_store_file;
                 TransferRequest.from_iban := from_iban;
                 TransferRequest.to_iban := to_iban;
                 TransferRequest.transfer_type := transfer_type;
                 TransferRequest.transfer_concept := transfer_concept;
                 TransferRequest.transfer_date := transfer_date;
                 TransferRequest.transfer_amount := transfer_amount;
                 TransferRequest.time_stamp := timestamp clk |} in
  raised (TransferRequest.validate_iban from_iban) = false ->
  raised (TransferRequest.validate_iban to_iban) = false ->
  raised (TransferRequest.validate_concept transfer_concept) = false ->
  raised (TransferRequest.validate_transfer_type transfer_type) = false ->
  raised (TransferRequest.validate_transfer_date clk (code_points transfer_date)) = false ->
  raised (TransferRequest.validate_amount transfer_amount) = false ->
  Derived.holds d transfer_store_file (map TransferRequest.to_json stored) ->
  transfer_store_file ∉ no_directory d ->
  TransferRequest.__init__ from_iban transfer_type to_iban transfer_concept
    transfer_date transfer_amount transfer_store_file clk d
  = if existsb (fun a => Derived.same_request a self) stored
    then (Raise (AccountManagementException "Duplicated transfer in transfer list"), d)
    else (Return self,
          Derived.written d transfer_store_file
            (JArr (map TransferRequest.to_json stored ++ [TransferRequest.to_json self]))).
Proof.
  intros self H1 H2 H3 H4 H5 H6 Hs Hw. unfold TransferRequest.__init__.
  destruct (TransferRequest.validate_iban from_iban); [|discriminate H1].
  destruct (TransferRequest.validate_iban to_iban); [|discriminate H2].
  destruct (TransferRequest.validate_concept transfer_concept); [|discriminate H3].
  destruct (TransferRequest.validate_transfer_type transfer_type); [|discriminate H4].
  destruct (TransferRequest.validate_transfer_date clk (code_points transfer_date)); [|discriminate H5].
  destruct (TransferRequest.validate_amount transfer_amount); [|discriminate H6].
  cbn [bind]. fold self.
  unfold TransferRequest.store_transfer_request.
  change (TransferRequest.transfer_store_file self) with transfer_store_file.
  assert (Hrest :
            match
              (items <- iterate (JArr (map TransferRequest.to_json stored)) ;;
               TransferRequest.for_each (TransferRequest.is_duplicate_transfer self) items ;;;
               append (JArr (map TransferRequest.to_json stored)) (TransferRequest.to_json self))
            with
            | Raise e => (Raise e, d)
            | Return t_l =>
                match dump d transfer_store_file t_l with
                | Some d' => (Return tt, d')
                | None => (Raise (AccountManagementException "Wrong file  or file path"), d)
                end
            end
            = if existsb (fun a => Derived.same_request a self) stored
              then (Raise (AccountManagementException "Duplicated transfer in transfer list"), d)
              else (Return tt,
                    Derived.written d transfer_store_file
                      (JArr (map TransferRequest.to_json stored
                             ++ [TransferRequest.to_json self])))).
  { cbn [iterate bind]. rewrite scan_of_stored.
    destruct (existsb _ stored); [reflexivity|].
    cbn [bind append]. now rewrite dump_written. }
  destruct Hs as [Hs|[Hs Hnil]]; rewrite Hs; cbn [bind].
  - rewrite Hrest. destruct (existsb _ stored); reflexivity.
  - destruct stored as [|a5 stored]; [|discriminate Hnil].
    cbn [map iterate bind TransferRequest.for_each append app existsb].
    now rewrite dump_written.
Qed.

Lemma construction_outcome_witness :
  TransferRequest.__init__ Sample.iban "ORDINARY" Sample.iban "Testing duplicates"
    "01/01/2030" (JFloat (Sample.literal "100.5")) "transfers.json" Sample.clk'
    (Derived.written Sample.empty_disk "transfers.json"
       (JArr (map TransferRequest.to_json [Derived.sample_instance])))
  = (Raise (AccountManagementException "Duplicated transfer in transfer list"),
     Derived.written Sample.empty_disk "transfers.json"
       (JArr (map TransferRequest.to_json [Derived.sample_instance]))).
Proof.
  rewrite (construction_outcome Sample.iban "ORDINARY" Sample.iban "Testing duplicates"
             "01/01/2030" (JFloat (Sample.literal "100.5")) "transfers.json" Sample.clk'
             (Derived.written Sample.empty_disk "transfers.json"
                (JArr (map TransferRequest.to_json [Derived.sample_instance])))
             [Derived.sample_instance]).
  - reflexivity.
  - vm_compute. reflexivity.
  - vm_compute. reflexivity.
  - vm_compute. reflexivity.
  - vm_compute. reflexivity.
  - vm_compute. reflexivity.
  - vm_compute. reflexivity.
  - left. apply load_written.
  - apply not_elem_of_empty.
Defined.
